(** * PharmaBatchNFT: the suspicious-batch report ledger

    A shallow embedding of the Solidity contract [PharmaBatchNFT]
    (the second document of [awareness-feed/server.js]) and the proofs of
    its ledger properties: stake conservation on resolution, bounded
    bounty-pool debits, the high-risk index, nullifier replay protection,
    open-report caps, exactly-once resolution, reporter blocking, pool
    funding and the pause switch.

    Conventions of the embedding.
    - Every Solidity integer is a [Z]; the checked arithmetic of Solidity
      0.8 is written out ([checked_add], [checked_sub], [checked_mul],
      reverting with [Panic 0x11]), and explicit narrowing casts such as
      [uint64(block.timestamp)] wrap ([to_uint64]).
    - A [mapping] is a [gmap] read with [m @@ k] ([sload]), so that an
      unwritten key reads as the zero value of its type.
    - A call is a computation in the monad [M]: it reads and writes the
      contract storage [State], may revert with an [Error], and emits
      [Effect]s (events and value transfers). A reverted call leaves the
      storage as it was ([transact]).
    - What the contract inherits from OpenZeppelin (ERC721, AccessControl,
      Pausable, ReentrancyGuard, ECDSA) is modelled by its interface
      behaviour only. The outcome of signature recovery and of an outgoing
      value transfer is supplied by the environment [Env]: a transfer is
      its success bit, and whatever the callee does in turn is a
      transaction of its own. Token approvals are not part of the ledger;
      the environment answers for them, which can only add reachable
      states. *)

From Stdlib Require Import ZArith Lia Bool String List.
From stdpp Require Import base tactics option list gmap fin_maps strings.

Local Open Scope Z_scope.

(** ** Machine integers *)

Definition MAX_UINT (bits : Z) : Z := 2 ^ bits - 1.

Definition in_uint (bits : Z) (x : Z) : Prop := 0 <= x <= MAX_UINT bits.

Definition in_int256 (x : Z) : Prop := - 2 ^ 255 <= x < 2 ^ 255.

(** Explicit narrowing conversion [uint64(x)]: truncation. *)
Definition to_uint64 (x : Z) : Z := x mod 2 ^ 64.

Definition BPS_DENOMINATOR : Z := 10000.

Definition ether_milli : Z := 10 ^ 15.

(** ** Roles, report status *)

Inductive Role : Type :=
| DEFAULT_ADMIN_ROLE
| REGULATOR_ROLE
| MANUFACTURER_ROLE
| LAB_ROLE
| INSPECTOR_ROLE.

Global Instance Role_eq_dec : EqDecision Role.
Proof. solve_decision. Defined.

Definition Role_to_nat (r : Role) : nat :=
  match r with
  | DEFAULT_ADMIN_ROLE => 0
  | REGULATOR_ROLE => 1
  | MANUFACTURER_ROLE => 2
  | LAB_ROLE => 3
  | INSPECTOR_ROLE => 4
  end.

Definition Role_of_nat (n : nat) : option Role :=
  match n with
  | 0%nat => Some DEFAULT_ADMIN_ROLE
  | 1%nat => Some REGULATOR_ROLE
  | 2%nat => Some MANUFACTURER_ROLE
  | 3%nat => Some LAB_ROLE
  | 4%nat => Some INSPECTOR_ROLE
  | _ => None
  end.

Global Instance Role_countable : Countable Role.
Proof.
  apply (inj_countable Role_to_nat Role_of_nat).
  intros []; reflexivity.
Defined.

Inductive ReportStatus : Type :=
| Pending
| ConfirmedFake
| RejectedFalse.

Global Instance ReportStatus_eq_dec : EqDecision ReportStatus.
Proof. solve_decision. Defined.

(** ** Reverts *)

Inductive Error : Type :=
| Revert (reason : string)
| Panic (code : Z)
| EnforcedPause
| ExpectedPause
| ReentrancyGuardReentrantCall
| AccessControlUnauthorizedAccount (account : Z) (neededRole : Role)
| AccessControlBadConfirmation
| ERC721NonexistentToken (tokenId : Z)
| ERC721InvalidSender (sender : Z)
| ERC721InvalidReceiver (receiver : Z)
| ERC721IncorrectOwner (sender tokenId owner : Z)
| ERC721InsufficientApproval (operator tokenId : Z)
| ECDSAInvalidSignature.

Inductive Result (A : Type) : Type :=
| Ok (a : A)
| Err (e : Error).

Arguments Ok {A} a.
Arguments Err {A} e.

Definition PANIC_ARITH : Z := 17.
Definition PANIC_POP_EMPTY : Z := 49.
Definition PANIC_INDEX : Z := 50.

(** Checked arithmetic of Solidity 0.8 on [uintN]. *)
Definition checked_add (bits a b : Z) : Result Z :=
  if a + b <=? MAX_UINT bits then Ok (a + b) else Err (Panic PANIC_ARITH).

Definition checked_sub (a b : Z) : Result Z :=
  if b <=? a then Ok (a - b) else Err (Panic PANIC_ARITH).

Definition checked_mul (bits a b : Z) : Result Z :=
  if a * b <=? MAX_UINT bits then Ok (a * b) else Err (Panic PANIC_ARITH).

(** Checked [int256] addition and subtraction. *)
Definition checked_add_int256 (a b : Z) : Result Z :=
  if (- 2 ^ 255 <=? a + b) && (a + b <? 2 ^ 255)
  then Ok (a + b) else Err (Panic PANIC_ARITH).

Definition checked_sub_int256 (a b : Z) : Result Z :=
  if (- 2 ^ 255 <=? a - b) && (a - b <? 2 ^ 255)
  then Ok (a - b) else Err (Panic PANIC_ARITH).

(** ** Storage records *)

(** struct ManufacturerProfile *)
Module ManufacturerProfile.
Record t : Type := mk {
  licenseNo : string;
  legalName : string;
  active : bool
}.

(** The value an unwritten storage slot of this type reads as. *)
Definition zero : t :=
  mk EmptyString EmptyString false.
End ManufacturerProfile.

(** struct LabProfile *)
Module LabProfile.
Record t : Type := mk {
  accreditationId : string;
  active : bool
}.

(** The value an unwritten storage slot of this type reads as. *)
Definition zero : t :=
  mk EmptyString false.
End LabProfile.

(** struct ReporterProfile: reputation is int256, the counters are uint32, lastReportAt is uint64 *)
Module ReporterProfile.
Record t : Type := mk {
  reputation : Z;
  reportsSubmitted : Z;
  reportsConfirmed : Z;
  reportsRejected : Z;
  openReports : Z;
  lastReportAt : Z;
  blocked : bool
}.

(** The value an unwritten storage slot of this type reads as. *)
Definition zero : t :=
  mk 0 0 0 0 0 0 false.

Definition set_reputation (v : Z) (x : t) : t :=
  mk v (reportsSubmitted x) (reportsConfirmed x) (reportsRejected x) (openReports x) (lastReportAt x) (blocked x).

Definition set_reportsSubmitted (v : Z) (x : t) : t :=
  mk (reputation x) v (reportsConfirmed x) (reportsRejected x) (openReports x) (lastReportAt x) (blocked x).

Definition set_reportsConfirmed (v : Z) (x : t) : t :=
  mk (reputation x) (reportsSubmitted x) v (reportsRejected x) (openReports x) (lastReportAt x) (blocked x).

Definition set_reportsRejected (v : Z) (x : t) : t :=
  mk (reputation x) (reportsSubmitted x) (reportsConfirmed x) v (openReports x) (lastReportAt x) (blocked x).

Definition set_openReports (v : Z) (x : t) : t :=
  mk (reputation x) (reportsSubmitted x) (reportsConfirmed x) (reportsRejected x) v (lastReportAt x) (blocked x).

Definition set_lastReportAt (v : Z) (x : t) : t :=
  mk (reputation x) (reportsSubmitted x) (reportsConfirmed x) (reportsRejected x) (openReports x) v (blocked x).

Definition set_blocked (v : bool) (x : t) : t :=
  mk (reputation x) (reportsSubmitted x) (reportsConfirmed x) (reportsRejected x) (openReports x) (lastReportAt x) v.
End ReporterProfile.

(** struct Batch *)
Module Batch.
Record t : Type := mk {
  productName : string;
  manufacturerName : string;
  manufacturerLicenseNo : string;
  batchNumber : string;
  mfgDate : Z;
  expiryTimestamp : Z;
  apiHash : string;
  packagingHash : Z;
  currentOwnerType : string;
  currentCustodian : Z;
  lastVerified : Z;
  modelHash : string;
  openReports : Z;
  pendingSevereReports : Z;
  quarantined : bool;
  flaggedHighRisk : bool
}.

(** The value an unwritten storage slot of this type reads as. *)
Definition zero : t :=
  mk EmptyString EmptyString EmptyString EmptyString 0 0 EmptyString 0 EmptyString 0 0 EmptyString 0 0 false false.

Definition set_currentOwnerType (v : string) (x : t) : t :=
  mk (productName x) (manufacturerName x) (manufacturerLicenseNo x) (batchNumber x) (mfgDate x) (expiryTimestamp x) (apiHash x) (packagingHash x) v (currentCustodian x) (lastVerified x) (modelHash x) (openReports x) (pendingSevereReports x) (quarantined x) (flaggedHighRisk x).

Definition set_currentCustodian (v : Z) (x : t) : t :=
  mk (productName x) (manufacturerName x) (manufacturerLicenseNo x) (batchNumber x) (mfgDate x) (expiryTimestamp x) (apiHash x) (packagingHash x) (currentOwnerType x) v (lastVerified x) (modelHash x) (openReports x) (pendingSevereReports x) (quarantined x) (flaggedHighRisk x).

Definition set_lastVerified (v : Z) (x : t) : t :=
  mk (productName x) (manufacturerName x) (manufacturerLicenseNo x) (batchNumber x) (mfgDate x) (expiryTimestamp x) (apiHash x) (packagingHash x) (currentOwnerType x) (currentCustodian x) v (modelHash x) (openReports x) (pendingSevereReports x) (quarantined x) (flaggedHighRisk x).

Definition set_modelHash (v : string) (x : t) : t :=
  mk (productName x) (manufacturerName x) (manufacturerLicenseNo x) (batchNumber x) (mfgDate x) (expiryTimestamp x) (apiHash x) (packagingHash x) (currentOwnerType x) (currentCustodian x) (lastVerified x) v (openReports x) (pendingSevereReports x) (quarantined x) (flaggedHighRisk x).

Definition set_openReports (v : Z) (x : t) : t :=
  mk (productName x) (manufacturerName x) (manufacturerLicenseNo x) (batchNumber x) (mfgDate x) (expiryTimestamp x) (apiHash x) (packagingHash x) (currentOwnerType x) (currentCustodian x) (lastVerified x) (modelHash x) v (pendingSevereReports x) (quarantined x) (flaggedHighRisk x).

Definition set_pendingSevereReports (v : Z) (x : t) : t :=
  mk (productName x) (manufacturerName x) (manufacturerLicenseNo x) (batchNumber x) (mfgDate x) (expiryTimestamp x) (apiHash x) (packagingHash x) (currentOwnerType x) (currentCustodian x) (lastVerified x) (modelHash x) (openReports x) v (quarantined x) (flaggedHighRisk x).

Definition set_quarantined (v : bool) (x : t) : t :=
  mk (productName x) (manufacturerName x) (manufacturerLicenseNo x) (batchNumber x) (mfgDate x) (expiryTimestamp x) (apiHash x) (packagingHash x) (currentOwnerType x) (currentCustodian x) (lastVerified x) (modelHash x) (openReports x) (pendingSevereReports x) v (flaggedHighRisk x).

Definition set_flaggedHighRisk (v : bool) (x : t) : t :=
  mk (productName x) (manufacturerName x) (manufacturerLicenseNo x) (batchNumber x) (mfgDate x) (expiryTimestamp x) (apiHash x) (packagingHash x) (currentOwnerType x) (currentCustodian x) (lastVerified x) (modelHash x) (openReports x) (pendingSevereReports x) (quarantined x) v.
End Batch.

(** struct LabAttestation *)
Module LabAttestation.
Record t : Type := mk {
  lab : Z;
  reportHash : Z;
  passed : bool;
  confidenceBps : Z;
  attestedAt : Z
}.
End LabAttestation.

(** struct FakeReport *)
Module FakeReport.
Record t : Type := mk {
  reportId : Z;
  tokenId : Z;
  reporter : Z;
  identityNullifier : Z;
  evidenceURI : string;
  reason : string;
  severity : Z;
  stakeAmount : Z;
  createdAt : Z;
  resolvedAt : Z;
  status : ReportStatus;
  resolver : Z
}.

(** The value an unwritten storage slot of this type reads as. *)
Definition zero : t :=
  mk 0 0 0 0 EmptyString EmptyString 0 0 0 0 Pending 0.

Definition set_resolvedAt (v : Z) (x : t) : t :=
  mk (reportId x) (tokenId x) (reporter x) (identityNullifier x) (evidenceURI x) (reason x) (severity x) (stakeAmount x) (createdAt x) v (status x) (resolver x).

Definition set_status (v : ReportStatus) (x : t) : t :=
  mk (reportId x) (tokenId x) (reporter x) (identityNullifier x) (evidenceURI x) (reason x) (severity x) (stakeAmount x) (createdAt x) (resolvedAt x) v (resolver x).

Definition set_resolver (v : Z) (x : t) : t :=
  mk (reportId x) (tokenId x) (reporter x) (identityNullifier x) (evidenceURI x) (reason x) (severity x) (stakeAmount x) (createdAt x) (resolvedAt x) (status x) v.
End FakeReport.


(** The zero value of a storage type, and the read of a mapping slot. *)
Class ZeroValue (A : Type) : Type := zero_value : A.

Global Instance bool_zero : ZeroValue bool := false.
Global Instance Z_zero : ZeroValue Z := 0.
Global Instance string_zero : ZeroValue string := EmptyString.
Global Instance list_zero {A} : ZeroValue (list A) := [].
Global Instance ManufacturerProfile_zero : ZeroValue ManufacturerProfile.t :=
  ManufacturerProfile.zero.
Global Instance LabProfile_zero : ZeroValue LabProfile.t := LabProfile.zero.
Global Instance ReporterProfile_zero : ZeroValue ReporterProfile.t := ReporterProfile.zero.
Global Instance Batch_zero : ZeroValue Batch.t := Batch.zero.
Global Instance FakeReport_zero : ZeroValue FakeReport.t := FakeReport.zero.

Definition sload {K A} `{Countable K} `{ZeroValue A} (m : gmap K A) (k : K) : A :=
  default zero_value (m !! k).

Notation "m @@ k" := (sload m k) (at level 20).

(** ** Contract storage *)

Record State : Type := mkState {
  _paused : bool;
  _entered : bool;
  _roles : gmap (Role * Z) bool;
  _owners : gmap Z Z;
  _tokenURIs : gmap Z string;
  _tokenIdCounter : Z;
  _reportIdCounter : Z;
  minStakeWei : Z;
  mediumStakeWei : Z;
  highStakeWei : Z;
  baseRewardWei : Z;
  falseReportSlashBps : Z;
  bountyPoolWei : Z;
  reportCooldownSec : Z;
  maxOpenReportsPerReporter : Z;
  minReputationForSeverityThree : Z;
  totalBatchesMinted : Z;
  totalReportsFiled : Z;
  totalOpenReports : Z;
  totalConfirmedFakeReports : Z;
  manufacturers : gmap Z ManufacturerProfile.t;
  labs : gmap Z LabProfile.t;
  reporterProfiles : gmap Z ReporterProfile.t;
  batches : gmap Z Batch.t;
  _labAttestationsByBatch : gmap Z (list LabAttestation.t);
  reports : gmap Z FakeReport.t;
  _reportsByBatch : gmap Z (list Z);
  identityNullifierUsed : gmap Z bool;
  hasOpenReportForBatch : gmap (Z * Z) bool;
  _highRiskBatchIds : list Z;
  _highRiskIndexPlusOne : gmap Z Z
}.

Definition set_paused (v : bool) (s : State) : State :=
  mkState v (_entered s) (_roles s) (_owners s) (_tokenURIs s) (_tokenIdCounter s)
    (_reportIdCounter s) (minStakeWei s) (mediumStakeWei s) (highStakeWei s)
    (baseRewardWei s) (falseReportSlashBps s) (bountyPoolWei s) (reportCooldownSec s)
    (maxOpenReportsPerReporter s) (minReputationForSeverityThree s) (totalBatchesMinted
    s) (totalReportsFiled s) (totalOpenReports s) (totalConfirmedFakeReports s)
    (manufacturers s) (labs s) (reporterProfiles s) (batches s) (_labAttestationsByBatch
    s) (reports s) (_reportsByBatch s) (identityNullifierUsed s) (hasOpenReportForBatch
    s) (_highRiskBatchIds s) (_highRiskIndexPlusOne s).

Definition set_entered (v : bool) (s : State) : State :=
  mkState (_paused s) v (_roles s) (_owners s) (_tokenURIs s) (_tokenIdCounter s)
    (_reportIdCounter s) (minStakeWei s) (mediumStakeWei s) (highStakeWei s)
    (baseRewardWei s) (falseReportSlashBps s) (bountyPoolWei s) (reportCooldownSec s)
    (maxOpenReportsPerReporter s) (minReputationForSeverityThree s) (totalBatchesMinted
    s) (totalReportsFiled s) (totalOpenReports s) (totalConfirmedFakeReports s)
    (manufacturers s) (labs s) (reporterProfiles s) (batches s) (_labAttestationsByBatch
    s) (reports s) (_reportsByBatch s) (identityNullifierUsed s) (hasOpenReportForBatch
    s) (_highRiskBatchIds s) (_highRiskIndexPlusOne s).

Definition set_roles (v : gmap (Role * Z) bool) (s : State) : State :=
  mkState (_paused s) (_entered s) v (_owners s) (_tokenURIs s) (_tokenIdCounter s)
    (_reportIdCounter s) (minStakeWei s) (mediumStakeWei s) (highStakeWei s)
    (baseRewardWei s) (falseReportSlashBps s) (bountyPoolWei s) (reportCooldownSec s)
    (maxOpenReportsPerReporter s) (minReputationForSeverityThree s) (totalBatchesMinted
    s) (totalReportsFiled s) (totalOpenReports s) (totalConfirmedFakeReports s)
    (manufacturers s) (labs s) (reporterProfiles s) (batches s) (_labAttestationsByBatch
    s) (reports s) (_reportsByBatch s) (identityNullifierUsed s) (hasOpenReportForBatch
    s) (_highRiskBatchIds s) (_highRiskIndexPlusOne s).

Definition set_owners (v : gmap Z Z) (s : State) : State :=
  mkState (_paused s) (_entered s) (_roles s) v (_tokenURIs s) (_tokenIdCounter s)
    (_reportIdCounter s) (minStakeWei s) (mediumStakeWei s) (highStakeWei s)
    (baseRewardWei s) (falseReportSlashBps s) (bountyPoolWei s) (reportCooldownSec s)
    (maxOpenReportsPerReporter s) (minReputationForSeverityThree s) (totalBatchesMinted
    s) (totalReportsFiled s) (totalOpenReports s) (totalConfirmedFakeReports s)
    (manufacturers s) (labs s) (reporterProfiles s) (batches s) (_labAttestationsByBatch
    s) (reports s) (_reportsByBatch s) (identityNullifierUsed s) (hasOpenReportForBatch
    s) (_highRiskBatchIds s) (_highRiskIndexPlusOne s).

Definition set_tokenURIs (v : gmap Z string) (s : State) : State :=
  mkState (_paused s) (_entered s) (_roles s) (_owners s) v (_tokenIdCounter s)
    (_reportIdCounter s) (minStakeWei s) (mediumStakeWei s) (highStakeWei s)
    (baseRewardWei s) (falseReportSlashBps s) (bountyPoolWei s) (reportCooldownSec s)
    (maxOpenReportsPerReporter s) (minReputationForSeverityThree s) (totalBatchesMinted
    s) (totalReportsFiled s) (totalOpenReports s) (totalConfirmedFakeReports s)
    (manufacturers s) (labs s) (reporterProfiles s) (batches s) (_labAttestationsByBatch
    s) (reports s) (_reportsByBatch s) (identityNullifierUsed s) (hasOpenReportForBatch
    s) (_highRiskBatchIds s) (_highRiskIndexPlusOne s).

Definition set_tokenIdCounter (v : Z) (s : State) : State :=
  mkState (_paused s) (_entered s) (_roles s) (_owners s) (_tokenURIs s) v
    (_reportIdCounter s) (minStakeWei s) (mediumStakeWei s) (highStakeWei s)
    (baseRewardWei s) (falseReportSlashBps s) (bountyPoolWei s) (reportCooldownSec s)
    (maxOpenReportsPerReporter s) (minReputationForSeverityThree s) (totalBatchesMinted
    s) (totalReportsFiled s) (totalOpenReports s) (totalConfirmedFakeReports s)
    (manufacturers s) (labs s) (reporterProfiles s) (batches s) (_labAttestationsByBatch
    s) (reports s) (_reportsByBatch s) (identityNullifierUsed s) (hasOpenReportForBatch
    s) (_highRiskBatchIds s) (_highRiskIndexPlusOne s).

Definition set_reportIdCounter (v : Z) (s : State) : State :=
  mkState (_paused s) (_entered s) (_roles s) (_owners s) (_tokenURIs s)
    (_tokenIdCounter s) v (minStakeWei s) (mediumStakeWei s) (highStakeWei s)
    (baseRewardWei s) (falseReportSlashBps s) (bountyPoolWei s) (reportCooldownSec s)
    (maxOpenReportsPerReporter s) (minReputationForSeverityThree s) (totalBatchesMinted
    s) (totalReportsFiled s) (totalOpenReports s) (totalConfirmedFakeReports s)
    (manufacturers s) (labs s) (reporterProfiles s) (batches s) (_labAttestationsByBatch
    s) (reports s) (_reportsByBatch s) (identityNullifierUsed s) (hasOpenReportForBatch
    s) (_highRiskBatchIds s) (_highRiskIndexPlusOne s).

Definition set_minStakeWei (v : Z) (s : State) : State :=
  mkState (_paused s) (_entered s) (_roles s) (_owners s) (_tokenURIs s)
    (_tokenIdCounter s) (_reportIdCounter s) v (mediumStakeWei s) (highStakeWei s)
    (baseRewardWei s) (falseReportSlashBps s) (bountyPoolWei s) (reportCooldownSec s)
    (maxOpenReportsPerReporter s) (minReputationForSeverityThree s) (totalBatchesMinted
    s) (totalReportsFiled s) (totalOpenReports s) (totalConfirmedFakeReports s)
    (manufacturers s) (labs s) (reporterProfiles s) (batches s) (_labAttestationsByBatch
    s) (reports s) (_reportsByBatch s) (identityNullifierUsed s) (hasOpenReportForBatch
    s) (_highRiskBatchIds s) (_highRiskIndexPlusOne s).

Definition set_mediumStakeWei (v : Z) (s : State) : State :=
  mkState (_paused s) (_entered s) (_roles s) (_owners s) (_tokenURIs s)
    (_tokenIdCounter s) (_reportIdCounter s) (minStakeWei s) v (highStakeWei s)
    (baseRewardWei s) (falseReportSlashBps s) (bountyPoolWei s) (reportCooldownSec s)
    (maxOpenReportsPerReporter s) (minReputationForSeverityThree s) (totalBatchesMinted
    s) (totalReportsFiled s) (totalOpenReports s) (totalConfirmedFakeReports s)
    (manufacturers s) (labs s) (reporterProfiles s) (batches s) (_labAttestationsByBatch
    s) (reports s) (_reportsByBatch s) (identityNullifierUsed s) (hasOpenReportForBatch
    s) (_highRiskBatchIds s) (_highRiskIndexPlusOne s).

Definition set_highStakeWei (v : Z) (s : State) : State :=
  mkState (_paused s) (_entered s) (_roles s) (_owners s) (_tokenURIs s)
    (_tokenIdCounter s) (_reportIdCounter s) (minStakeWei s) (mediumStakeWei s) v
    (baseRewardWei s) (falseReportSlashBps s) (bountyPoolWei s) (reportCooldownSec s)
    (maxOpenReportsPerReporter s) (minReputationForSeverityThree s) (totalBatchesMinted
    s) (totalReportsFiled s) (totalOpenReports s) (totalConfirmedFakeReports s)
    (manufacturers s) (labs s) (reporterProfiles s) (batches s) (_labAttestationsByBatch
    s) (reports s) (_reportsByBatch s) (identityNullifierUsed s) (hasOpenReportForBatch
    s) (_highRiskBatchIds s) (_highRiskIndexPlusOne s).

Definition set_baseRewardWei (v : Z) (s : State) : State :=
  mkState (_paused s) (_entered s) (_roles s) (_owners s) (_tokenURIs s)
    (_tokenIdCounter s) (_reportIdCounter s) (minStakeWei s) (mediumStakeWei s)
    (highStakeWei s) v (falseReportSlashBps s) (bountyPoolWei s) (reportCooldownSec s)
    (maxOpenReportsPerReporter s) (minReputationForSeverityThree s) (totalBatchesMinted
    s) (totalReportsFiled s) (totalOpenReports s) (totalConfirmedFakeReports s)
    (manufacturers s) (labs s) (reporterProfiles s) (batches s) (_labAttestationsByBatch
    s) (reports s) (_reportsByBatch s) (identityNullifierUsed s) (hasOpenReportForBatch
    s) (_highRiskBatchIds s) (_highRiskIndexPlusOne s).

Definition set_falseReportSlashBps (v : Z) (s : State) : State :=
  mkState (_paused s) (_entered s) (_roles s) (_owners s) (_tokenURIs s)
    (_tokenIdCounter s) (_reportIdCounter s) (minStakeWei s) (mediumStakeWei s)
    (highStakeWei s) (baseRewardWei s) v (bountyPoolWei s) (reportCooldownSec s)
    (maxOpenReportsPerReporter s) (minReputationForSeverityThree s) (totalBatchesMinted
    s) (totalReportsFiled s) (totalOpenReports s) (totalConfirmedFakeReports s)
    (manufacturers s) (labs s) (reporterProfiles s) (batches s) (_labAttestationsByBatch
    s) (reports s) (_reportsByBatch s) (identityNullifierUsed s) (hasOpenReportForBatch
    s) (_highRiskBatchIds s) (_highRiskIndexPlusOne s).

Definition set_bountyPoolWei (v : Z) (s : State) : State :=
  mkState (_paused s) (_entered s) (_roles s) (_owners s) (_tokenURIs s)
    (_tokenIdCounter s) (_reportIdCounter s) (minStakeWei s) (mediumStakeWei s)
    (highStakeWei s) (baseRewardWei s) (falseReportSlashBps s) v (reportCooldownSec s)
    (maxOpenReportsPerReporter s) (minReputationForSeverityThree s) (totalBatchesMinted
    s) (totalReportsFiled s) (totalOpenReports s) (totalConfirmedFakeReports s)
    (manufacturers s) (labs s) (reporterProfiles s) (batches s) (_labAttestationsByBatch
    s) (reports s) (_reportsByBatch s) (identityNullifierUsed s) (hasOpenReportForBatch
    s) (_highRiskBatchIds s) (_highRiskIndexPlusOne s).

Definition set_reportCooldownSec (v : Z) (s : State) : State :=
  mkState (_paused s) (_entered s) (_roles s) (_owners s) (_tokenURIs s)
    (_tokenIdCounter s) (_reportIdCounter s) (minStakeWei s) (mediumStakeWei s)
    (highStakeWei s) (baseRewardWei s) (falseReportSlashBps s) (bountyPoolWei s) v
    (maxOpenReportsPerReporter s) (minReputationForSeverityThree s) (totalBatchesMinted
    s) (totalReportsFiled s) (totalOpenReports s) (totalConfirmedFakeReports s)
    (manufacturers s) (labs s) (reporterProfiles s) (batches s) (_labAttestationsByBatch
    s) (reports s) (_reportsByBatch s) (identityNullifierUsed s) (hasOpenReportForBatch
    s) (_highRiskBatchIds s) (_highRiskIndexPlusOne s).

Definition set_maxOpenReportsPerReporter (v : Z) (s : State) : State :=
  mkState (_paused s) (_entered s) (_roles s) (_owners s) (_tokenURIs s)
    (_tokenIdCounter s) (_reportIdCounter s) (minStakeWei s) (mediumStakeWei s)
    (highStakeWei s) (baseRewardWei s) (falseReportSlashBps s) (bountyPoolWei s)
    (reportCooldownSec s) v (minReputationForSeverityThree s) (totalBatchesMinted s)
    (totalReportsFiled s) (totalOpenReports s) (totalConfirmedFakeReports s)
    (manufacturers s) (labs s) (reporterProfiles s) (batches s) (_labAttestationsByBatch
    s) (reports s) (_reportsByBatch s) (identityNullifierUsed s) (hasOpenReportForBatch
    s) (_highRiskBatchIds s) (_highRiskIndexPlusOne s).

Definition set_minReputationForSeverityThree (v : Z) (s : State) : State :=
  mkState (_paused s) (_entered s) (_roles s) (_owners s) (_tokenURIs s)
    (_tokenIdCounter s) (_reportIdCounter s) (minStakeWei s) (mediumStakeWei s)
    (highStakeWei s) (baseRewardWei s) (falseReportSlashBps s) (bountyPoolWei s)
    (reportCooldownSec s) (maxOpenReportsPerReporter s) v (totalBatchesMinted s)
    (totalReportsFiled s) (totalOpenReports s) (totalConfirmedFakeReports s)
    (manufacturers s) (labs s) (reporterProfiles s) (batches s) (_labAttestationsByBatch
    s) (reports s) (_reportsByBatch s) (identityNullifierUsed s) (hasOpenReportForBatch
    s) (_highRiskBatchIds s) (_highRiskIndexPlusOne s).

Definition set_totalBatchesMinted (v : Z) (s : State) : State :=
  mkState (_paused s) (_entered s) (_roles s) (_owners s) (_tokenURIs s)
    (_tokenIdCounter s) (_reportIdCounter s) (minStakeWei s) (mediumStakeWei s)
    (highStakeWei s) (baseRewardWei s) (falseReportSlashBps s) (bountyPoolWei s)
    (reportCooldownSec s) (maxOpenReportsPerReporter s) (minReputationForSeverityThree
    s) v (totalReportsFiled s) (totalOpenReports s) (totalConfirmedFakeReports s)
    (manufacturers s) (labs s) (reporterProfiles s) (batches s) (_labAttestationsByBatch
    s) (reports s) (_reportsByBatch s) (identityNullifierUsed s) (hasOpenReportForBatch
    s) (_highRiskBatchIds s) (_highRiskIndexPlusOne s).

Definition set_totalReportsFiled (v : Z) (s : State) : State :=
  mkState (_paused s) (_entered s) (_roles s) (_owners s) (_tokenURIs s)
    (_tokenIdCounter s) (_reportIdCounter s) (minStakeWei s) (mediumStakeWei s)
    (highStakeWei s) (baseRewardWei s) (falseReportSlashBps s) (bountyPoolWei s)
    (reportCooldownSec s) (maxOpenReportsPerReporter s) (minReputationForSeverityThree
    s) (totalBatchesMinted s) v (totalOpenReports s) (totalConfirmedFakeReports s)
    (manufacturers s) (labs s) (reporterProfiles s) (batches s) (_labAttestationsByBatch
    s) (reports s) (_reportsByBatch s) (identityNullifierUsed s) (hasOpenReportForBatch
    s) (_highRiskBatchIds s) (_highRiskIndexPlusOne s).

Definition set_totalOpenReports (v : Z) (s : State) : State :=
  mkState (_paused s) (_entered s) (_roles s) (_owners s) (_tokenURIs s)
    (_tokenIdCounter s) (_reportIdCounter s) (minStakeWei s) (mediumStakeWei s)
    (highStakeWei s) (baseRewardWei s) (falseReportSlashBps s) (bountyPoolWei s)
    (reportCooldownSec s) (maxOpenReportsPerReporter s) (minReputationForSeverityThree
    s) (totalBatchesMinted s) (totalReportsFiled s) v (totalConfirmedFakeReports s)
    (manufacturers s) (labs s) (reporterProfiles s) (batches s) (_labAttestationsByBatch
    s) (reports s) (_reportsByBatch s) (identityNullifierUsed s) (hasOpenReportForBatch
    s) (_highRiskBatchIds s) (_highRiskIndexPlusOne s).

Definition set_totalConfirmedFakeReports (v : Z) (s : State) : State :=
  mkState (_paused s) (_entered s) (_roles s) (_owners s) (_tokenURIs s)
    (_tokenIdCounter s) (_reportIdCounter s) (minStakeWei s) (mediumStakeWei s)
    (highStakeWei s) (baseRewardWei s) (falseReportSlashBps s) (bountyPoolWei s)
    (reportCooldownSec s) (maxOpenReportsPerReporter s) (minReputationForSeverityThree
    s) (totalBatchesMinted s) (totalReportsFiled s) (totalOpenReports s) v
    (manufacturers s) (labs s) (reporterProfiles s) (batches s) (_labAttestationsByBatch
    s) (reports s) (_reportsByBatch s) (identityNullifierUsed s) (hasOpenReportForBatch
    s) (_highRiskBatchIds s) (_highRiskIndexPlusOne s).

Definition set_manufacturers (v : gmap Z ManufacturerProfile.t) (s : State) : State :=
  mkState (_paused s) (_entered s) (_roles s) (_owners s) (_tokenURIs s)
    (_tokenIdCounter s) (_reportIdCounter s) (minStakeWei s) (mediumStakeWei s)
    (highStakeWei s) (baseRewardWei s) (falseReportSlashBps s) (bountyPoolWei s)
    (reportCooldownSec s) (maxOpenReportsPerReporter s) (minReputationForSeverityThree
    s) (totalBatchesMinted s) (totalReportsFiled s) (totalOpenReports s)
    (totalConfirmedFakeReports s) v (labs s) (reporterProfiles s) (batches s)
    (_labAttestationsByBatch s) (reports s) (_reportsByBatch s) (identityNullifierUsed
    s) (hasOpenReportForBatch s) (_highRiskBatchIds s) (_highRiskIndexPlusOne s).

Definition set_labs (v : gmap Z LabProfile.t) (s : State) : State :=
  mkState (_paused s) (_entered s) (_roles s) (_owners s) (_tokenURIs s)
    (_tokenIdCounter s) (_reportIdCounter s) (minStakeWei s) (mediumStakeWei s)
    (highStakeWei s) (baseRewardWei s) (falseReportSlashBps s) (bountyPoolWei s)
    (reportCooldownSec s) (maxOpenReportsPerReporter s) (minReputationForSeverityThree
    s) (totalBatchesMinted s) (totalReportsFiled s) (totalOpenReports s)
    (totalConfirmedFakeReports s) (manufacturers s) v (reporterProfiles s) (batches s)
    (_labAttestationsByBatch s) (reports s) (_reportsByBatch s) (identityNullifierUsed
    s) (hasOpenReportForBatch s) (_highRiskBatchIds s) (_highRiskIndexPlusOne s).

Definition set_reporterProfiles (v : gmap Z ReporterProfile.t) (s : State) : State :=
  mkState (_paused s) (_entered s) (_roles s) (_owners s) (_tokenURIs s)
    (_tokenIdCounter s) (_reportIdCounter s) (minStakeWei s) (mediumStakeWei s)
    (highStakeWei s) (baseRewardWei s) (falseReportSlashBps s) (bountyPoolWei s)
    (reportCooldownSec s) (maxOpenReportsPerReporter s) (minReputationForSeverityThree
    s) (totalBatchesMinted s) (totalReportsFiled s) (totalOpenReports s)
    (totalConfirmedFakeReports s) (manufacturers s) (labs s) v (batches s)
    (_labAttestationsByBatch s) (reports s) (_reportsByBatch s) (identityNullifierUsed
    s) (hasOpenReportForBatch s) (_highRiskBatchIds s) (_highRiskIndexPlusOne s).

Definition set_batches (v : gmap Z Batch.t) (s : State) : State :=
  mkState (_paused s) (_entered s) (_roles s) (_owners s) (_tokenURIs s)
    (_tokenIdCounter s) (_reportIdCounter s) (minStakeWei s) (mediumStakeWei s)
    (highStakeWei s) (baseRewardWei s) (falseReportSlashBps s) (bountyPoolWei s)
    (reportCooldownSec s) (maxOpenReportsPerReporter s) (minReputationForSeverityThree
    s) (totalBatchesMinted s) (totalReportsFiled s) (totalOpenReports s)
    (totalConfirmedFakeReports s) (manufacturers s) (labs s) (reporterProfiles s) v
    (_labAttestationsByBatch s) (reports s) (_reportsByBatch s) (identityNullifierUsed
    s) (hasOpenReportForBatch s) (_highRiskBatchIds s) (_highRiskIndexPlusOne s).

Definition set_labAttestationsByBatch (v : gmap Z (list LabAttestation.t)) (s : State) : State :=
  mkState (_paused s) (_entered s) (_roles s) (_owners s) (_tokenURIs s)
    (_tokenIdCounter s) (_reportIdCounter s) (minStakeWei s) (mediumStakeWei s)
    (highStakeWei s) (baseRewardWei s) (falseReportSlashBps s) (bountyPoolWei s)
    (reportCooldownSec s) (maxOpenReportsPerReporter s) (minReputationForSeverityThree
    s) (totalBatchesMinted s) (totalReportsFiled s) (totalOpenReports s)
    (totalConfirmedFakeReports s) (manufacturers s) (labs s) (reporterProfiles s)
    (batches s) v (reports s) (_reportsByBatch s) (identityNullifierUsed s)
    (hasOpenReportForBatch s) (_highRiskBatchIds s) (_highRiskIndexPlusOne s).

Definition set_reports (v : gmap Z FakeReport.t) (s : State) : State :=
  mkState (_paused s) (_entered s) (_roles s) (_owners s) (_tokenURIs s)
    (_tokenIdCounter s) (_reportIdCounter s) (minStakeWei s) (mediumStakeWei s)
    (highStakeWei s) (baseRewardWei s) (falseReportSlashBps s) (bountyPoolWei s)
    (reportCooldownSec s) (maxOpenReportsPerReporter s) (minReputationForSeverityThree
    s) (totalBatchesMinted s) (totalReportsFiled s) (totalOpenReports s)
    (totalConfirmedFakeReports s) (manufacturers s) (labs s) (reporterProfiles s)
    (batches s) (_labAttestationsByBatch s) v (_reportsByBatch s) (identityNullifierUsed
    s) (hasOpenReportForBatch s) (_highRiskBatchIds s) (_highRiskIndexPlusOne s).

Definition set_reportsByBatch (v : gmap Z (list Z)) (s : State) : State :=
  mkState (_paused s) (_entered s) (_roles s) (_owners s) (_tokenURIs s)
    (_tokenIdCounter s) (_reportIdCounter s) (minStakeWei s) (mediumStakeWei s)
    (highStakeWei s) (baseRewardWei s) (falseReportSlashBps s) (bountyPoolWei s)
    (reportCooldownSec s) (maxOpenReportsPerReporter s) (minReputationForSeverityThree
    s) (totalBatchesMinted s) (totalReportsFiled s) (totalOpenReports s)
    (totalConfirmedFakeReports s) (manufacturers s) (labs s) (reporterProfiles s)
    (batches s) (_labAttestationsByBatch s) (reports s) v (identityNullifierUsed s)
    (hasOpenReportForBatch s) (_highRiskBatchIds s) (_highRiskIndexPlusOne s).

Definition set_identityNullifierUsed (v : gmap Z bool) (s : State) : State :=
  mkState (_paused s) (_entered s) (_roles s) (_owners s) (_tokenURIs s)
    (_tokenIdCounter s) (_reportIdCounter s) (minStakeWei s) (mediumStakeWei s)
    (highStakeWei s) (baseRewardWei s) (falseReportSlashBps s) (bountyPoolWei s)
    (reportCooldownSec s) (maxOpenReportsPerReporter s) (minReputationForSeverityThree
    s) (totalBatchesMinted s) (totalReportsFiled s) (totalOpenReports s)
    (totalConfirmedFakeReports s) (manufacturers s) (labs s) (reporterProfiles s)
    (batches s) (_labAttestationsByBatch s) (reports s) (_reportsByBatch s) v
    (hasOpenReportForBatch s) (_highRiskBatchIds s) (_highRiskIndexPlusOne s).

Definition set_hasOpenReportForBatch (v : gmap (Z * Z) bool) (s : State) : State :=
  mkState (_paused s) (_entered s) (_roles s) (_owners s) (_tokenURIs s)
    (_tokenIdCounter s) (_reportIdCounter s) (minStakeWei s) (mediumStakeWei s)
    (highStakeWei s) (baseRewardWei s) (falseReportSlashBps s) (bountyPoolWei s)
    (reportCooldownSec s) (maxOpenReportsPerReporter s) (minReputationForSeverityThree
    s) (totalBatchesMinted s) (totalReportsFiled s) (totalOpenReports s)
    (totalConfirmedFakeReports s) (manufacturers s) (labs s) (reporterProfiles s)
    (batches s) (_labAttestationsByBatch s) (reports s) (_reportsByBatch s)
    (identityNullifierUsed s) v (_highRiskBatchIds s) (_highRiskIndexPlusOne s).

Definition set_highRiskBatchIds (v : list Z) (s : State) : State :=
  mkState (_paused s) (_entered s) (_roles s) (_owners s) (_tokenURIs s)
    (_tokenIdCounter s) (_reportIdCounter s) (minStakeWei s) (mediumStakeWei s)
    (highStakeWei s) (baseRewardWei s) (falseReportSlashBps s) (bountyPoolWei s)
    (reportCooldownSec s) (maxOpenReportsPerReporter s) (minReputationForSeverityThree
    s) (totalBatchesMinted s) (totalReportsFiled s) (totalOpenReports s)
    (totalConfirmedFakeReports s) (manufacturers s) (labs s) (reporterProfiles s)
    (batches s) (_labAttestationsByBatch s) (reports s) (_reportsByBatch s)
    (identityNullifierUsed s) (hasOpenReportForBatch s) v (_highRiskIndexPlusOne s).

Definition set_highRiskIndexPlusOne (v : gmap Z Z) (s : State) : State :=
  mkState (_paused s) (_entered s) (_roles s) (_owners s) (_tokenURIs s)
    (_tokenIdCounter s) (_reportIdCounter s) (minStakeWei s) (mediumStakeWei s)
    (highStakeWei s) (baseRewardWei s) (falseReportSlashBps s) (bountyPoolWei s)
    (reportCooldownSec s) (maxOpenReportsPerReporter s) (minReputationForSeverityThree
    s) (totalBatchesMinted s) (totalReportsFiled s) (totalOpenReports s)
    (totalConfirmedFakeReports s) (manufacturers s) (labs s) (reporterProfiles s)
    (batches s) (_labAttestationsByBatch s) (reports s) (_reportsByBatch s)
    (identityNullifierUsed s) (hasOpenReportForBatch s) (_highRiskBatchIds s) v.

(** ** Events and outgoing calls *)

Inductive Event : Type :=
| ManufacturerRegistered (manufacturer : Z) (licenseNo : string) (active : bool)
| LabRegistered (lab : Z) (accreditationId : string) (active : bool)
| ReporterBlocked (reporter : Z) (blocked : bool)
| BatchMinted (tokenId : Z) (batchNumber productName manufacturerLicenseNo : string)
| BatchOwnershipMoved (tokenId newOwner : Z) (newOwnerType : string)
| CustodyCheckpoint (tokenId actor locationHash : Z) (ownerType : string) (at_ : Z)
| LabAttestationSubmitted (tokenId lab reportHash : Z) (passed : bool) (confidenceBps : Z)
| AIFederatedUpdate (tokenId : Z) (newModelHash : string) (updatedBy : Z)
| BountyFunded (funder amount poolAfterFunding : Z)
| SuspiciousBatchReported (reportId tokenId reporter severity stakeAmount : Z)
| ReportResolved (reportId : Z) (confirmedFake : bool) (payoutWei newReputationScore : Z)
| HighRiskFlagUpdated (tokenId : Z) (flaggedHighRisk : bool)
| BatchQuarantineUpdated (tokenId : Z) (quarantined : bool) (reasonCode : string)
| Paused (account : Z)
| Unpaused (account : Z)
| RoleGranted (role : Role) (account sender : Z)
| RoleRevoked (role : Role) (account sender : Z)
| Transfer (from to tokenId : Z)
| MetadataUpdate (tokenId : Z).

Inductive Effect : Type :=
| Emit (e : Event)
| SendValue (to amount : Z).

(** ** The environment of a call *)

(** The tuple that [_mintBatchInternal] passes to [abi.encode] before
    hashing; signature recovery is a function of it and of the signature. *)
Record MintPayload : Type := mkMintPayload {
  mp_batchNumber : string;
  mp_manufacturerName : string;
  mp_productName : string;
  mp_mfgDate : Z;
  mp_expiryTimestamp : Z;
  mp_apiHash : string;
  mp_packagingHash : Z;
  mp_to : Z;
  mp_contract : Z;
  mp_chainid : Z
}.

Record Env : Type := mkEnv {
  msg_sender : Z;
  block_timestamp : Z;
  block_chainid : Z;
  this_address : Z;
  (** Whether the callee accepts an outgoing plain-value call of [amount]. *)
  call_succeeds : Z -> Z -> bool;
  (** [keccak256(bytes(s))] *)
  keccak256_string : string -> Z;
  (** [ECDSA.recover(keccak256(abi.encode(payload)).toEthSignedMessageHash(), sig)];
      [None] when the library rejects the signature. *)
  ecdsa_recover : MintPayload -> list Byte.byte -> option Z;
  (** ERC721 [_isAuthorized(owner, spender, tokenId)] for an approved
      spender other than the owner; approvals are not part of the ledger. *)
  erc721_approved : Z -> Z -> bool
}.

Definition wf_env (env : Env) : Prop :=
  in_uint 160 (msg_sender env) /\ in_uint 256 (block_timestamp env).

(** ** The contract monad *)

Definition M (A : Type) : Type :=
  State -> list Effect -> Result (A * State * list Effect).

Definition ret {A} (a : A) : M A := fun s l => Ok (a, s, l).

Definition bind {A B} (m : M A) (f : A -> M B) : M B :=
  fun s l =>
    match m s l with
    | Err e => Err e
    | Ok (a, s1, l1) => f a s1 l1
    end.

Global Instance M_ret : MRet M := @ret.
Global Instance M_bind : MBind M := fun A B f m => bind m f.

Definition revert {A} (e : Error) : M A := fun _ _ => Err e.

Definition get : M State := fun s l => Ok (s, s, l).

Definition modify (f : State -> State) : M unit := fun s l => Ok (tt, f s, l).

Definition emit (e : Event) : M unit := fun s l => Ok (tt, s, l ++ [Emit e]).

Definition lift {A} (r : Result A) : M A :=
  fun s l => match r with Ok a => Ok (a, s, l) | Err e => Err e end.

Definition require (cond : bool) (reason : string) : M unit :=
  if cond then ret tt else revert (Revert reason).

Definition when (cond : bool) (m : M unit) : M unit :=
  if cond then m else ret tt.

(** The outgoing plain-value call [to.call{value: amount}] and its success bit. *)
Definition call_value (env : Env) (to amount : Z) : M bool :=
  fun s l =>
    if call_succeeds env to amount
    then Ok (true, s, l ++ [SendValue to amount])
    else Ok (false, s, l).

(** A transaction: the call runs on the current storage with an empty
    log; a revert discards every write. *)
Definition run {A} (m : M A) (s : State) : Result (A * State * list Effect) := m s [].

Definition transact {A} (m : M A) (s : State) : State :=
  match run m s with
  | Ok (_, s', _) => s'
  | Err _ => s
  end.

(** ** Inherited behaviour (OpenZeppelin interfaces) *)

Definition hasRole (role : Role) (account : Z) (s : State) : bool :=
  _roles s @@ (role, account).

Definition onlyRole (role : Role) (env : Env) : M unit :=
  s ← get;
  if hasRole role (msg_sender env) s then ret tt
  else revert (AccessControlUnauthorizedAccount (msg_sender env) role).

Definition whenNotPaused : M unit :=
  s ← get; if _paused s then revert EnforcedPause else ret tt.

Definition whenPaused : M unit :=
  s ← get; if _paused s then ret tt else revert ExpectedPause.

Definition nonReentrant {A} (body : M A) : M A :=
  s ← get;
  if _entered s then revert ReentrancyGuardReentrantCall
  else
    modify (set_entered true);;
    a ← body;
    modify (set_entered false);;
    ret a.

Definition _grantRole (env : Env) (role : Role) (account : Z) : M unit :=
  s ← get;
  if hasRole role account s then ret tt
  else
    modify (fun s => set_roles (<[(role, account) := true]> (_roles s)) s);;
    emit (RoleGranted role account (msg_sender env)).

Definition _revokeRole (env : Env) (role : Role) (account : Z) : M unit :=
  s ← get;
  if hasRole role account s then
    modify (fun s => set_roles (<[(role, account) := false]> (_roles s)) s);;
    emit (RoleRevoked role account (msg_sender env))
  else ret tt.

Definition _ownerOf (tokenId : Z) (s : State) : Z := _owners s @@ tokenId.

Definition ownerOf (tokenId : Z) : M Z :=
  s ← get;
  if _ownerOf tokenId s =? 0 then revert (ERC721NonexistentToken tokenId)
  else ret (_ownerOf tokenId s).

Definition _mint (to tokenId : Z) : M unit :=
  (if to =? 0 then revert (ERC721InvalidReceiver 0) else ret tt);;
  s ← get;
  let previousOwner := _ownerOf tokenId s in
  modify (fun s => set_owners (<[tokenId := to]> (_owners s)) s);;
  emit (Transfer 0 to tokenId);;
  if previousOwner =? 0 then ret tt else revert (ERC721InvalidSender 0).

Definition _transfer (from to tokenId : Z) : M unit :=
  (if to =? 0 then revert (ERC721InvalidReceiver 0) else ret tt);;
  s ← get;
  let previousOwner := _ownerOf tokenId s in
  modify (fun s => set_owners (<[tokenId := to]> (_owners s)) s);;
  emit (Transfer previousOwner to tokenId);;
  if previousOwner =? 0 then revert (ERC721NonexistentToken tokenId)
  else if previousOwner =? from then ret tt
  else revert (ERC721IncorrectOwner from tokenId previousOwner).

(** [ERC721URIStorage._setTokenURI] stores the URI and emits the
    [MetadataUpdate] event of ERC-4906. *)
Definition _setTokenURI (tokenId : Z) (uri : string) : M unit :=
  modify (fun s => set_tokenURIs (<[tokenId := uri]> (_tokenURIs s)) s);;
  emit (MetadataUpdate tokenId).

(** ** Storage-pointer writes *)

Definition modify_profile (a : Z) (f : ReporterProfile.t -> ReporterProfile.t) : M unit :=
  modify (fun s => set_reporterProfiles (<[a := f (reporterProfiles s @@ a)]> (reporterProfiles s)) s).

Definition modify_batch (tokenId : Z) (f : Batch.t -> Batch.t) : M unit :=
  modify (fun s => set_batches (<[tokenId := f (batches s @@ tokenId)]> (batches s)) s).

Definition modify_report (reportId : Z) (f : FakeReport.t -> FakeReport.t) : M unit :=
  modify (fun s => set_reports (<[reportId := f (reports s @@ reportId)]> (reports s)) s).

(** [if (x > 0) { x -= 1; }] *)
Definition dec_floor (x : Z) : Z := if 0 <? x then x - 1 else x.

(** ** The contract *)

Definition constructor (deployer : Z) : State :=
  mkState false false
    (<[(INSPECTOR_ROLE, deployer) := true]>
       (<[(LAB_ROLE, deployer) := true]>
          (<[(MANUFACTURER_ROLE, deployer) := true]>
             (<[(REGULATOR_ROLE, deployer) := true]>
                (<[(DEFAULT_ADMIN_ROLE, deployer) := true]> ∅)))))
    ∅ ∅
    0 0
    (2 * ether_milli) (5 * ether_milli) (10 * ether_milli) (2 * ether_milli) 7000 0
    (6 * 3600) 5 5
    0 0 0 0
    {[ deployer := ManufacturerProfile.mk "BOOTSTRAP-LICENSE" "Bootstrap Manufacturer" true ]}
    {[ deployer := LabProfile.mk "BOOTSTRAP-LAB" true ]}
    ∅ ∅ ∅ ∅ ∅ ∅ ∅ [] ∅.

Definition receive (env : Env) (msg_value : Z) : M unit :=
  s ← get;
  pool ← lift (checked_add 256 (bountyPoolWei s) msg_value);
  modify (set_bountyPoolWei pool);;
  emit (BountyFunded (msg_sender env) msg_value pool).

Definition registerManufacturer (env : Env) (manufacturer : Z)
    (licenseNo legalName : string) (active : bool) : M unit :=
  onlyRole REGULATOR_ROLE env;;
  require (negb (manufacturer =? 0)) "Invalid manufacturer";;
  modify (fun s => set_manufacturers
    (<[manufacturer := ManufacturerProfile.mk licenseNo legalName active]> (manufacturers s)) s);;
  (if active then _grantRole env MANUFACTURER_ROLE manufacturer
   else _revokeRole env MANUFACTURER_ROLE manufacturer);;
  emit (ManufacturerRegistered manufacturer licenseNo active).

Definition registerLab (env : Env) (lab : Z) (accreditationId : string)
    (active : bool) : M unit :=
  onlyRole REGULATOR_ROLE env;;
  require (negb (lab =? 0)) "Invalid lab";;
  modify (fun s => set_labs (<[lab := LabProfile.mk accreditationId active]> (labs s)) s);;
  (if active then _grantRole env LAB_ROLE lab else _revokeRole env LAB_ROLE lab);;
  emit (LabRegistered lab accreditationId active).

Definition setInspector (env : Env) (inspector : Z) (enabled : bool) : M unit :=
  onlyRole REGULATOR_ROLE env;;
  require (negb (inspector =? 0)) "Invalid inspector";;
  if enabled then _grantRole env INSPECTOR_ROLE inspector
  else _revokeRole env INSPECTOR_ROLE inspector.

Definition setReporterBlocked (env : Env) (reporter : Z) (blocked : bool) : M unit :=
  onlyRole REGULATOR_ROLE env;;
  modify_profile reporter (ReporterProfile.set_blocked blocked);;
  emit (ReporterBlocked reporter blocked).

Definition setPolicyParameters (env : Env)
    (newMinStakeWei newMediumStakeWei newHighStakeWei newBaseRewardWei
     newFalseReportSlashBps newReportCooldownSec newMaxOpenReportsPerReporter
     newMinReputationForSeverityThree : Z) : M unit :=
  onlyRole REGULATOR_ROLE env;;
  require (0 <? newMinStakeWei) "Min stake must be > 0";;
  require (newMinStakeWei <=? newMediumStakeWei) "Medium stake too low";;
  require (newMediumStakeWei <=? newHighStakeWei) "High stake too low";;
  require (newFalseReportSlashBps <=? BPS_DENOMINATOR) "Invalid slash bps";;
  require (0 <? newMaxOpenReportsPerReporter) "Max open reports must be > 0";;
  modify (set_minStakeWei newMinStakeWei);;
  modify (set_mediumStakeWei newMediumStakeWei);;
  modify (set_highStakeWei newHighStakeWei);;
  modify (set_baseRewardWei newBaseRewardWei);;
  modify (set_falseReportSlashBps newFalseReportSlashBps);;
  modify (set_reportCooldownSec newReportCooldownSec);;
  modify (set_maxOpenReportsPerReporter newMaxOpenReportsPerReporter);;
  modify (set_minReputationForSeverityThree newMinReputationForSeverityThree).

Definition fundBountyPool (env : Env) (msg_value : Z) : M unit :=
  onlyRole REGULATOR_ROLE env;;
  require (0 <? msg_value) "No funds provided";;
  s ← get;
  pool ← lift (checked_add 256 (bountyPoolWei s) msg_value);
  modify (set_bountyPoolWei pool);;
  emit (BountyFunded (msg_sender env) msg_value pool).

Definition withdrawBountyPool (env : Env) (amount to : Z) : M unit :=
  onlyRole DEFAULT_ADMIN_ROLE env;;
  nonReentrant (
    require (negb (to =? 0)) "Invalid receiver";;
    s ← get;
    require (amount <=? bountyPoolWei s) "Insufficient bounty pool";;
    pool ← lift (checked_sub (bountyPoolWei s) amount);
    modify (set_bountyPoolWei pool);;
    sent ← call_value env to amount;
    require sent "Transfer failed").

Definition _requireBatchExists (tokenId : Z) : M unit :=
  s ← get; require (negb (_ownerOf tokenId s =? 0)) "Unknown batch".

Definition _requiredStake (severity : Z) (s : State) : Z :=
  if severity =? 1 then minStakeWei s
  else if severity =? 2 then mediumStakeWei s
  else highStakeWei s.

(** The dense array [_highRiskBatchIds] with its position map
    [_highRiskIndexPlusOne] (position + 1, 0 for an absent id). *)
Definition _setHighRisk (tokenId : Z) (highRisk : bool) : M unit :=
  s ← get;
  let current := Batch.flaggedHighRisk (batches s @@ tokenId) in
  if eqb current highRisk then ret tt
  else
    modify_batch tokenId (Batch.set_flaggedHighRisk highRisk);;
    (if highRisk then
       modify (fun s => set_highRiskBatchIds (_highRiskBatchIds s ++ [tokenId]) s);;
       modify (fun s => set_highRiskIndexPlusOne
         (<[tokenId := Z.of_nat (length (_highRiskBatchIds s))]> (_highRiskIndexPlusOne s)) s)
     else
       s ← get;
       let indexPlusOne := _highRiskIndexPlusOne s @@ tokenId in
       if 0 <? indexPlusOne then
         let index := indexPlusOne - 1 in
         lastIndex ← lift (checked_sub (Z.of_nat (length (_highRiskBatchIds s))) 1);
         (if index =? lastIndex then ret tt
          else
            match _highRiskBatchIds s !! Z.to_nat lastIndex with
            | None => revert (Panic PANIC_INDEX)
            | Some movedTokenId =>
                (if index <? Z.of_nat (length (_highRiskBatchIds s))
                 then modify (fun s => set_highRiskBatchIds
                        (<[Z.to_nat index := movedTokenId]> (_highRiskBatchIds s)) s)
                 else revert (Panic PANIC_INDEX));;
                (* index + 1 is indexPlusOne again, a stored uint256 *)
                modify (fun s => set_highRiskIndexPlusOne
                  (<[movedTokenId := index + 1]> (_highRiskIndexPlusOne s)) s)
            end);;
         s ← get;
         (match _highRiskBatchIds s with
          | [] => revert (Panic PANIC_POP_EMPTY)
          | _ => modify (fun s => set_highRiskBatchIds (removelast (_highRiskBatchIds s)) s)
          end);;
         modify (fun s => set_highRiskIndexPlusOne
           (<[tokenId := 0]> (_highRiskIndexPlusOne s)) s)
       else ret tt);;
    emit (HighRiskFlagUpdated tokenId highRisk).

Definition _mintBatchInternal (env : Env) (to : Z)
    (batchNumber manufacturerName productName : string)
    (mfgDate expiryTimestamp : Z) (apiHash : string) (packagingHash : Z)
    (tokenURI : string) (manufacturerSignature : list Byte.byte) : M Z :=
  s ← get;
  let profile := manufacturers s @@ msg_sender env in
  require (ManufacturerProfile.active profile) "Manufacturer inactive";;
  require (negb (String.length (ManufacturerProfile.licenseNo profile) =? 0)%nat)
    "Manufacturer license missing";;
  require (negb (to =? 0)) "Invalid recipient";;
  require (block_timestamp env <? expiryTimestamp) "Expiry must be future";;
  require (mfgDate <=? expiryTimestamp) "Invalid mfg/expiry";;
  require (negb (length manufacturerSignature =? 0)%nat) "Manufacturer signature required";;
  let payload := mkMintPayload batchNumber manufacturerName productName mfgDate
                   expiryTimestamp apiHash packagingHash to (this_address env)
                   (block_chainid env) in
  recovered ← match ecdsa_recover env payload manufacturerSignature with
              | Some a => ret a
              | None => revert ECDSAInvalidSignature
              end;
  require (recovered =? msg_sender env) "Invalid manufacturer signature";;
  let tokenId := _tokenIdCounter s in
  next ← lift (checked_add 256 tokenId 1);
  modify (set_tokenIdCounter next);;
  _mint to tokenId;;
  _setTokenURI tokenId tokenURI;;
  modify (fun s => set_batches
    (<[tokenId := Batch.mk productName manufacturerName
         (ManufacturerProfile.licenseNo profile) batchNumber mfgDate expiryTimestamp
         apiHash packagingHash "Manufacturer" to (to_uint64 (block_timestamp env))
         EmptyString 0 0 false false]> (batches s)) s);;
  s ← get;
  minted ← lift (checked_add 256 (totalBatchesMinted s) 1);
  modify (set_totalBatchesMinted minted);;
  emit (BatchMinted tokenId batchNumber productName (ManufacturerProfile.licenseNo profile));;
  ret tokenId.

Definition mintBatch (env : Env) (to : Z) (batchNumber manufacturerName : string)
    (expiryTimestamp : Z) (apiHash tokenURI : string)
    (manufacturerSignature : list Byte.byte) : M Z :=
  whenNotPaused;;
  onlyRole MANUFACTURER_ROLE env;;
  _mintBatchInternal env to batchNumber manufacturerName "Unknown Product"
    (to_uint64 (block_timestamp env)) (to_uint64 expiryTimestamp) apiHash
    (keccak256_string env tokenURI) tokenURI manufacturerSignature.

Definition mintBatchWithCompliance (env : Env) (to : Z)
    (batchNumber manufacturerName productName : string)
    (mfgDate expiryTimestamp : Z) (apiHash : string) (packagingHash : Z)
    (tokenURI : string) (manufacturerSignature : list Byte.byte) : M Z :=
  whenNotPaused;;
  onlyRole MANUFACTURER_ROLE env;;
  _mintBatchInternal env to batchNumber manufacturerName productName mfgDate
    expiryTimestamp apiHash packagingHash tokenURI manufacturerSignature.

Definition transferToNextOwner (env : Env) (tokenId newOwner : Z)
    (newOwnerType : string) : M unit :=
  whenNotPaused;;
  _requireBatchExists tokenId;;
  owner ← ownerOf tokenId;
  require (owner =? msg_sender env) "Not token owner";;
  _transfer (msg_sender env) newOwner tokenId;;
  modify_batch tokenId (Batch.set_currentOwnerType newOwnerType);;
  modify_batch tokenId (Batch.set_currentCustodian newOwner);;
  modify_batch tokenId (Batch.set_lastVerified (to_uint64 (block_timestamp env)));;
  emit (BatchOwnershipMoved tokenId newOwner newOwnerType).

Definition recordCustodyCheckpoint (env : Env) (tokenId locationHash : Z)
    (ownerType : string) : M unit :=
  whenNotPaused;;
  _requireBatchExists tokenId;;
  owner ← ownerOf tokenId;
  s ← get;
  require ((owner =? msg_sender env)
           || hasRole INSPECTOR_ROLE (msg_sender env) s
           || hasRole REGULATOR_ROLE (msg_sender env) s) "Not authorized";;
  emit (CustodyCheckpoint tokenId (msg_sender env) locationHash ownerType
          (to_uint64 (block_timestamp env))).

Definition submitLabAttestation (env : Env) (tokenId reportHash : Z)
    (passed : bool) (confidenceBps : Z) : M unit :=
  whenNotPaused;;
  onlyRole LAB_ROLE env;;
  _requireBatchExists tokenId;;
  s ← get;
  require (LabProfile.active (labs s @@ msg_sender env)) "Lab inactive";;
  require (confidenceBps <=? BPS_DENOMINATOR) "Invalid confidence";;
  modify (fun s => set_labAttestationsByBatch
    (<[tokenId := (_labAttestationsByBatch s @@ tokenId)
         ++ [LabAttestation.mk (msg_sender env) reportHash passed confidenceBps
               (to_uint64 (block_timestamp env))]]> (_labAttestationsByBatch s)) s);;
  modify_batch tokenId (Batch.set_lastVerified (to_uint64 (block_timestamp env)));;
  when (negb passed) (_setHighRisk tokenId true);;
  emit (LabAttestationSubmitted tokenId (msg_sender env) reportHash passed confidenceBps).

Definition updateFederatedModel (env : Env) (tokenId : Z) (newModelHash : string) : M unit :=
  whenNotPaused;;
  _requireBatchExists tokenId;;
  s ← get;
  require (hasRole LAB_ROLE (msg_sender env) s || hasRole REGULATOR_ROLE (msg_sender env) s)
    "Not authorized";;
  modify_batch tokenId (Batch.set_modelHash newModelHash);;
  modify_batch tokenId (Batch.set_lastVerified (to_uint64 (block_timestamp env)));;
  emit (AIFederatedUpdate tokenId newModelHash (msg_sender env)).

Definition setBatchQuarantine (env : Env) (tokenId : Z) (quarantined : bool)
    (reasonCode : string) : M unit :=
  whenNotPaused;;
  onlyRole REGULATOR_ROLE env;;
  _requireBatchExists tokenId;;
  modify_batch tokenId (Batch.set_quarantined quarantined);;
  s ← get;
  (if quarantined then _setHighRisk tokenId true
   else if Batch.pendingSevereReports (batches s @@ tokenId) =? 0
        then _setHighRisk tokenId false
        else ret tt);;
  emit (BatchQuarantineUpdated tokenId quarantined reasonCode).

Definition reportSuspiciousBatch (env : Env) (msg_value : Z) (tokenId identityNullifier : Z)
    (evidenceURI reason : string) (severity : Z) : M Z :=
  whenNotPaused;;
  nonReentrant (
    _requireBatchExists tokenId;;
    require (negb (identityNullifier =? 0)) "Identity nullifier required";;
    s ← get;
    require (negb (identityNullifierUsed s @@ identityNullifier)) "Nullifier already used";;
    require ((1 <=? severity) && (severity <=? 3)) "Severity must be 1-3";;
    let reporter := reporterProfiles s @@ msg_sender env in
    require (negb (ReporterProfile.blocked reporter)) "Reporter blocked";;
    require (negb (hasOpenReportForBatch s @@ (msg_sender env, tokenId)))
      "Open report already exists for this batch";;
    require (ReporterProfile.openReports reporter <? maxOpenReportsPerReporter s)
      "Too many open reports";;
    (if ReporterProfile.lastReportAt reporter =? 0 then ret tt
     else
       cooldownEnd ← lift (checked_add 256 (ReporterProfile.lastReportAt reporter)
                             (reportCooldownSec s));
       require (cooldownEnd <=? block_timestamp env) "Reporter cooldown active");;
    when (severity =? 3)
      (require (minReputationForSeverityThree s <=? ReporterProfile.reputation reporter)
         "Reputation too low for severity-3");;
    let requiredStake := _requiredStake severity s in
    require (requiredStake <=? msg_value) "Stake too low";;
    let reportId := _reportIdCounter s in
    next ← lift (checked_add 256 reportId 1);
    modify (set_reportIdCounter next);;
    modify (fun s => set_reports
      (<[reportId := FakeReport.mk reportId tokenId (msg_sender env) identityNullifier
           evidenceURI reason severity msg_value (to_uint64 (block_timestamp env)) 0
           Pending 0]> (reports s)) s);;
    modify (fun s => set_identityNullifierUsed
      (<[identityNullifier := true]> (identityNullifierUsed s)) s);;
    modify (fun s => set_reportsByBatch
      (<[tokenId := (_reportsByBatch s @@ tokenId) ++ [reportId]]> (_reportsByBatch s)) s);;
    modify (fun s => set_hasOpenReportForBatch
      (<[(msg_sender env, tokenId) := true]> (hasOpenReportForBatch s)) s);;
    submitted ← lift (checked_add 32 (ReporterProfile.reportsSubmitted reporter) 1);
    modify_profile (msg_sender env) (ReporterProfile.set_reportsSubmitted submitted);;
    opened ← lift (checked_add 32 (ReporterProfile.openReports reporter) 1);
    modify_profile (msg_sender env) (ReporterProfile.set_openReports opened);;
    modify_profile (msg_sender env)
      (ReporterProfile.set_lastReportAt (to_uint64 (block_timestamp env)));;
    batchOpen ← lift (checked_add 32 (Batch.openReports (batches s @@ tokenId)) 1);
    modify_batch tokenId (Batch.set_openReports batchOpen);;
    when (severity =? 3) (
      severe ← lift (checked_add 32 (Batch.pendingSevereReports (batches s @@ tokenId)) 1);
      modify_batch tokenId (Batch.set_pendingSevereReports severe);;
      _setHighRisk tokenId true);;
    filed ← lift (checked_add 256 (totalReportsFiled s) 1);
    modify (set_totalReportsFiled filed);;
    open ← lift (checked_add 256 (totalOpenReports s) 1);
    modify (set_totalOpenReports open);;
    emit (SuspiciousBatchReported reportId tokenId (msg_sender env) severity msg_value);;
    ret reportId).

Definition resolveReport (env : Env) (reportId : Z) (confirmedFake : bool) : M unit :=
  whenNotPaused;;
  onlyRole REGULATOR_ROLE env;;
  nonReentrant (
    s ← get;
    let report := reports s @@ reportId in
    require (negb (FakeReport.reporter report =? 0)) "Unknown report";;
    require (bool_decide (FakeReport.status report = Pending)) "Already resolved";;
    let tokenId := FakeReport.tokenId report in
    let reporter := FakeReport.reporter report in
    let severity := FakeReport.severity report in
    let stakeAmount := FakeReport.stakeAmount report in
    modify_report reportId (FakeReport.set_resolver (msg_sender env));;
    modify_report reportId (FakeReport.set_resolvedAt (to_uint64 (block_timestamp env)));;
    modify_batch tokenId (fun b => Batch.set_openReports (dec_floor (Batch.openReports b)) b);;
    when (severity =? 3)
      (modify_batch tokenId (fun b =>
         Batch.set_pendingSevereReports (dec_floor (Batch.pendingSevereReports b)) b));;
    modify_profile reporter (fun p =>
      ReporterProfile.set_openReports (dec_floor (ReporterProfile.openReports p)) p);;
    modify (fun s => set_hasOpenReportForBatch
      (<[(reporter, tokenId) := false]> (hasOpenReportForBatch s)) s);;
    modify (fun s => set_totalOpenReports (dec_floor (totalOpenReports s)) s);;
    payoutWei ←
      (if confirmedFake then
         modify_report reportId (FakeReport.set_status ConfirmedFake);;
         s ← get;
         confirmedTotal ← lift (checked_add 256 (totalConfirmedFakeReports s) 1);
         modify (set_totalConfirmedFakeReports confirmedTotal);;
         let p := reporterProfiles s @@ reporter in
         confirmed ← lift (checked_add 32 (ReporterProfile.reportsConfirmed p) 1);
         modify_profile reporter (ReporterProfile.set_reportsConfirmed confirmed);;
         reputation ← lift (checked_add_int256 (ReporterProfile.reputation p)
                              (10 + severity * 4));
         modify_profile reporter (ReporterProfile.set_reputation reputation);;
         scaled ← lift (checked_mul 256 (baseRewardWei s) severity);
         let rewardWei := if bountyPoolWei s <? scaled then bountyPoolWei s else scaled in
         payoutWei ←
           (if 0 <? rewardWei then
              pool ← lift (checked_sub (bountyPoolWei s) rewardWei);
              modify (set_bountyPoolWei pool);;
              lift (checked_add 256 stakeAmount rewardWei)
            else ret stakeAmount);
         modify_batch tokenId (Batch.set_quarantined true);;
         _setHighRisk tokenId true;;
         ret payoutWei
       else
         modify_report reportId (FakeReport.set_status RejectedFalse);;
         s ← get;
         let p := reporterProfiles s @@ reporter in
         rejected ← lift (checked_add 32 (ReporterProfile.reportsRejected p) 1);
         modify_profile reporter (ReporterProfile.set_reportsRejected rejected);;
         reputation ← lift (checked_sub_int256 (ReporterProfile.reputation p)
                              (12 + severity * 6));
         modify_profile reporter (ReporterProfile.set_reputation reputation);;
         product ← lift (checked_mul 256 stakeAmount (falseReportSlashBps s));
         let slashedWei := product / BPS_DENOMINATOR in
         pool ← lift (checked_add 256 (bountyPoolWei s) slashedWei);
         modify (set_bountyPoolWei pool);;
         payoutWei ← lift (checked_sub stakeAmount slashedWei);
         let batch := batches s @@ tokenId in
         when (negb (Batch.quarantined batch) && (Batch.pendingSevereReports batch =? 0))
           (_setHighRisk tokenId false);;
         when (reputation <=? -100) (
           modify_profile reporter (ReporterProfile.set_blocked true);;
           emit (ReporterBlocked reporter true));;
         ret payoutWei);
    when (0 <? payoutWei) (
      sent ← call_value env reporter payoutWei;
      require sent "Payout failed");;
    s ← get;
    emit (ReportResolved reportId confirmedFake payoutWei
            (ReporterProfile.reputation (reporterProfiles s @@ reporter)))).

Definition pause (env : Env) : M unit :=
  onlyRole REGULATOR_ROLE env;;
  whenNotPaused;;
  modify (set_paused true);;
  emit (Paused (msg_sender env)).

Definition unpause (env : Env) : M unit :=
  onlyRole REGULATOR_ROLE env;;
  whenPaused;;
  modify (set_paused false);;
  emit (Unpaused (msg_sender env)).

(** *** Inherited entry points *)

(** AccessControl: every role is administered by [DEFAULT_ADMIN_ROLE],
    since the contract never calls [_setRoleAdmin]. *)
Definition grantRole (env : Env) (role : Role) (account : Z) : M unit :=
  onlyRole DEFAULT_ADMIN_ROLE env;; _grantRole env role account.

Definition revokeRole (env : Env) (role : Role) (account : Z) : M unit :=
  onlyRole DEFAULT_ADMIN_ROLE env;; _revokeRole env role account.

Definition renounceRole (env : Env) (role : Role) (callerConfirmation : Z) : M unit :=
  (if callerConfirmation =? msg_sender env then ret tt
   else revert AccessControlBadConfirmation);;
  _revokeRole env role callerConfirmation.

(** ERC721 [transferFrom]: moves the token without touching the batch record. *)
Definition transferFrom (env : Env) (from to tokenId : Z) : M unit :=
  (if to =? 0 then revert (ERC721InvalidReceiver 0) else ret tt);;
  s ← get;
  let previousOwner := _ownerOf tokenId s in
  (if previousOwner =? 0 then revert (ERC721NonexistentToken tokenId)
   else if (previousOwner =? msg_sender env) || erc721_approved env (msg_sender env) tokenId
        then ret tt
        else revert (ERC721InsufficientApproval (msg_sender env) tokenId));;
  modify (fun s => set_owners (<[tokenId := to]> (_owners s)) s);;
  emit (Transfer previousOwner to tokenId);;
  if previousOwner =? from then ret tt
  else revert (ERC721IncorrectOwner from tokenId previousOwner).

(** ** Entry points and reachable states *)

Inductive Call : Type :=
| call_receive (msg_value : Z)
| call_registerManufacturer (manufacturer : Z) (licenseNo legalName : string) (active : bool)
| call_registerLab (lab : Z) (accreditationId : string) (active : bool)
| call_setInspector (inspector : Z) (enabled : bool)
| call_setReporterBlocked (reporter : Z) (blocked : bool)
| call_setPolicyParameters (newMinStakeWei newMediumStakeWei newHighStakeWei
    newBaseRewardWei newFalseReportSlashBps newReportCooldownSec
    newMaxOpenReportsPerReporter newMinReputationForSeverityThree : Z)
| call_fundBountyPool (msg_value : Z)
| call_withdrawBountyPool (amount to : Z)
| call_mintBatch (to : Z) (batchNumber manufacturerName : string) (expiryTimestamp : Z)
    (apiHash tokenURI : string) (manufacturerSignature : list Byte.byte)
| call_mintBatchWithCompliance (to : Z) (batchNumber manufacturerName productName : string)
    (mfgDate expiryTimestamp : Z) (apiHash : string) (packagingHash : Z)
    (tokenURI : string) (manufacturerSignature : list Byte.byte)
| call_transferToNextOwner (tokenId newOwner : Z) (newOwnerType : string)
| call_recordCustodyCheckpoint (tokenId locationHash : Z) (ownerType : string)
| call_submitLabAttestation (tokenId reportHash : Z) (passed : bool) (confidenceBps : Z)
| call_updateFederatedModel (tokenId : Z) (newModelHash : string)
| call_setBatchQuarantine (tokenId : Z) (quarantined : bool) (reasonCode : string)
| call_reportSuspiciousBatch (msg_value tokenId identityNullifier : Z)
    (evidenceURI reason : string) (severity : Z)
| call_resolveReport (reportId : Z) (confirmedFake : bool)
| call_pause
| call_unpause
| call_grantRole (role : Role) (account : Z)
| call_revokeRole (role : Role) (account : Z)
| call_renounceRole (role : Role) (callerConfirmation : Z)
| call_transferFrom (from to tokenId : Z).

(** The arguments of a call lie in the ranges of their Solidity types. *)
Definition wf_call (c : Call) : Prop :=
  match c with
  | call_receive v => in_uint 256 v
  | call_registerManufacturer a _ _ _ => in_uint 160 a
  | call_registerLab a _ _ => in_uint 160 a
  | call_setInspector a _ => in_uint 160 a
  | call_setReporterBlocked a _ => in_uint 160 a
  | call_setPolicyParameters a b c d e f g h =>
      in_uint 256 a /\ in_uint 256 b /\ in_uint 256 c /\ in_uint 256 d /\
      in_uint 256 e /\ in_uint 256 f /\ in_uint 256 g /\ in_int256 h
  | call_fundBountyPool v => in_uint 256 v
  | call_withdrawBountyPool amount to => in_uint 256 amount /\ in_uint 160 to
  | call_mintBatch to _ _ expiry _ _ _ => in_uint 160 to /\ in_uint 256 expiry
  | call_mintBatchWithCompliance to _ _ _ mfg expiry _ ph _ _ =>
      in_uint 160 to /\ in_uint 64 mfg /\ in_uint 64 expiry /\ in_uint 256 ph
  | call_transferToNextOwner t o _ => in_uint 256 t /\ in_uint 160 o
  | call_recordCustodyCheckpoint t h _ => in_uint 256 t /\ in_uint 256 h
  | call_submitLabAttestation t h _ c => in_uint 256 t /\ in_uint 256 h /\ in_uint 16 c
  | call_updateFederatedModel t _ => in_uint 256 t
  | call_setBatchQuarantine t _ _ => in_uint 256 t
  | call_reportSuspiciousBatch v t n _ _ sev =>
      in_uint 256 v /\ in_uint 256 t /\ in_uint 256 n /\ in_uint 8 sev
  | call_resolveReport r _ => in_uint 256 r
  | call_pause => True
  | call_unpause => True
  | call_grantRole _ a => in_uint 160 a
  | call_revokeRole _ a => in_uint 160 a
  | call_renounceRole _ a => in_uint 160 a
  | call_transferFrom f t i => in_uint 160 f /\ in_uint 160 t /\ in_uint 256 i
  end.

Definition discard {A} (m : M A) : M unit := m ;; ret tt.

Definition execute (env : Env) (c : Call) : M unit :=
  match c with
  | call_receive v => receive env v
  | call_registerManufacturer a l n b => registerManufacturer env a l n b
  | call_registerLab a i b => registerLab env a i b
  | call_setInspector a b => setInspector env a b
  | call_setReporterBlocked a b => setReporterBlocked env a b
  | call_setPolicyParameters a b c d e f g h => setPolicyParameters env a b c d e f g h
  | call_fundBountyPool v => fundBountyPool env v
  | call_withdrawBountyPool amount to => withdrawBountyPool env amount to
  | call_mintBatch to bn mn expiry ah uri sig =>
      discard (mintBatch env to bn mn expiry ah uri sig)
  | call_mintBatchWithCompliance to bn mn pn mfg expiry ah ph uri sig =>
      discard (mintBatchWithCompliance env to bn mn pn mfg expiry ah ph uri sig)
  | call_transferToNextOwner t o ty => transferToNextOwner env t o ty
  | call_recordCustodyCheckpoint t h ty => recordCustodyCheckpoint env t h ty
  | call_submitLabAttestation t h p c => submitLabAttestation env t h p c
  | call_updateFederatedModel t h => updateFederatedModel env t h
  | call_setBatchQuarantine t q r => setBatchQuarantine env t q r
  | call_reportSuspiciousBatch v t n e r sev =>
      discard (reportSuspiciousBatch env v t n e r sev)
  | call_resolveReport r b => resolveReport env r b
  | call_pause => pause env
  | call_unpause => unpause env
  | call_grantRole r a => grantRole env r a
  | call_revokeRole r a => revokeRole env r a
  | call_renounceRole r a => renounceRole env r a
  | call_transferFrom f t i => transferFrom env f t i
  end.

(** One successful transaction. *)
Definition step (s s' : State) : Prop :=
  exists env c l, wf_env env /\ wf_call c /\ run (execute env c) s = Ok (tt, s', l).

(** The states the deployed contract can be in. *)
Inductive reachable : State -> Prop :=
| reachable_init (deployer : Z) :
    in_uint 160 deployer -> reachable (constructor deployer)
| reachable_step (s s' : State) :
    reachable s -> step s s' -> reachable s'.

(** [later s s']: [s'] is [s] after any number of successful transactions. *)
Inductive later (s : State) : State -> Prop :=
| later_refl : later s s
| later_step (s1 s2 : State) : later s s1 -> step s1 s2 -> later s s2.

(** * Specification vocabulary *)

(** ** Triples for [M] *)

(** [wp m Q s l]: if [m] returns from storage [s] and log [l], the result,
    the final storage and the final log satisfy [Q]. Success itself is
    stated with [run] where a claim needs it. *)
Definition wp {A} (m : M A) (Q : A -> State -> list Effect -> Prop)
    (s : State) (l : list Effect) : Prop :=
  match m s l with
  | Ok (a, s', l') => Q a s' l'
  | Err _ => True
  end.

(** Total-correctness triple: [m] returns and the result satisfies [Q]. *)
Definition wpt {A} (m : M A) (Q : A -> State -> list Effect -> Prop)
    (s : State) (l : list Effect) : Prop :=
  match m s l with
  | Ok (a, s', l') => Q a s' l'
  | Err _ => False
  end.

(** [fails m s]: the call reverts. *)
Definition fails {A} (m : M A) (s : State) : Prop :=
  exists e, run m s = Err e.

(** A computation that does not write to storage. *)
Definition neutral {A} (m : M A) : Prop :=
  forall s l a s' l', m s l = Ok (a, s', l') -> s' = s.

(** ** Logs *)

(** The value transfers recorded in a log. *)
Definition transfers (l : list Effect) : list (Z * Z) :=
  omap (fun e => match e with SendValue to amount => Some (to, amount) | Emit _ => None end) l.

(** The events recorded in a log. *)
Definition events (l : list Effect) : list Event :=
  omap (fun e => match e with Emit ev => Some ev | SendValue _ _ => None end) l.

(** The log of a call, empty when it reverts. *)
Definition log_of {A} (m : M A) (s : State) : list Effect :=
  match run m s with
  | Ok (_, _, l) => l
  | Err _ => []
  end.

(** ** The high-risk index *)

(** The high-risk flag of item [t]. *)
Definition flagged (s : State) (t : Z) : bool :=
  Batch.flaggedHighRisk (batches s @@ t).

(** Every slot of the dense array is recorded in the position map as
    position + 1, and every nonzero entry of the position map points to
    the slot of the array that holds its key. *)
Definition index_coherent (arr : list Z) (idx : gmap Z Z) : Prop :=
  (forall t (i : nat), arr !! i = Some t <-> idx @@ t = Z.of_nat i + 1) /\
  (forall t, 0 <= idx @@ t).

(** The dense array, the position map and the flags of the items agree. *)
Definition hr_coherent (s : State) : Prop :=
  index_coherent (_highRiskBatchIds s) (_highRiskIndexPlusOne s) /\
  (forall t, flagged s t = true <-> _highRiskIndexPlusOne s @@ t <> 0).

(** The storage after [_setHighRisk] changed the flag of [t]. *)
Definition hr_written (t : Z) (b : bool) (arr : list Z) (idx : gmap Z Z) (s : State) : State :=
  set_highRiskIndexPlusOne idx
    (set_highRiskBatchIds arr
       (set_batches (<[t := Batch.set_flaggedHighRisk b (batches s @@ t)]> (batches s)) s)).

(** What [_setHighRisk t b] does to the storage and the log. *)
Definition hr_post (t : Z) (b : bool) (s : State) (l : list Effect)
    (s' : State) (l' : list Effect) : Prop :=
  (flagged s t = b /\ s' = s /\ l' = l) \/
  (flagged s t = negb b /\ l' = l ++ [Emit (HighRiskFlagUpdated t b)] /\
   exists arr idx, s' = hr_written t b arr idx s).

(** A sequence of flag operations, run one after the other. *)
Fixpoint setFlags (ops : list (Z * bool)) : M unit :=
  match ops with
  | [] => ret tt
  | (t, b) :: rest => _setHighRisk t b ;; setFlags rest
  end.

(** In the words of the specification: the last [setFlag (t, true)] of the
    sequence was not followed by a later [setFlag (t, false)]. *)
Definition last_set_true (ops : list (Z * bool)) (t : Z) : Prop :=
  exists before after, ops = before ++ (t, true) :: after /\ (t, false) ∉ after.

(** The flag of [t] after the operations [ops], starting from [acc]. *)
Fixpoint final_flag (t : Z) (ops : list (Z * bool)) (acc : bool) : bool :=
  match ops with
  | [] => acc
  | (t', b) :: rest => final_flag t rest (if decide (t' = t) then b else acc)
  end.

(** ** Reports and reporters *)

(** The status of report [id]. *)
Definition status_of (s : State) (id : Z) : ReportStatus :=
  FakeReport.status (reports s @@ id).

(** A report that exists and has left [Pending]. *)
Definition settled (s : State) (id : Z) : Prop :=
  FakeReport.reporter (reports s @@ id) <> 0 /\ status_of s id <> Pending.

(** Every reporter is within the cap on open reports. *)
Definition open_capped (s : State) : Prop :=
  forall a, ReporterProfile.openReports (reporterProfiles s @@ a)
            <= maxOpenReportsPerReporter s.

(** The number of open reports in the profile of [a]. *)
Definition open_reports_of (s : State) (a : Z) : Z :=
  ReporterProfile.openReports (reporterProfiles s @@ a).

(** [history (s :: h)]: the contract is in state [s], and [h] lists the
    states it has been in since its deployment, the latest first. *)
Inductive history : list State -> Prop :=
| history_init (deployer : Z) :
    in_uint 160 deployer -> history [constructor deployer]
| history_step (s s' : State) (h : list State) :
    history (s :: h) -> step s s' -> history (s' :: s :: h).

(** The largest cap on open reports among the states of [h]. *)
Definition largest_cap (h : list State) : Z :=
  foldr (fun s m => Z.max (maxOpenReportsPerReporter s) m) 0 h.

(** The [blocked] field of the profile of [a]. *)
Definition is_blocked (s : State) (a : Z) : bool :=
  ReporterProfile.blocked (reporterProfiles s @@ a).

(** A report that is pending, of severity 3 and filed against item [t]. *)
Definition pending_severe_on (t : Z) (kr : Z * FakeReport.t) : Prop :=
  FakeReport.tokenId kr.2 = t /\ FakeReport.status kr.2 = Pending /\
  FakeReport.severity kr.2 = 3.

Global Instance pending_severe_on_dec t kr : Decision (pending_severe_on t kr).
Proof. unfold pending_severe_on. apply _. Defined.

(** The number of pending severity-3 reports against item [t]. *)
Definition pending_severe_count (s : State) (t : Z) : nat :=
  size (filter (pending_severe_on t) (reports s)).

(** Item [t] has a pending severity-3 report. *)
Definition pending_severe_report (s : State) (t : Z) : Prop :=
  exists id r, reports s !! id = Some r /\ pending_severe_on t (id, r).




(** What a successful [resolveReport (reportId, true)] has done. *)
Definition confirmed_post (reportId : Z) (s s' : State) (l : list Effect) : Prop :=
  let report := reports s @@ reportId in
  let who := FakeReport.reporter report in
  let stake := FakeReport.stakeAmount report in
  let reward := Z.min (baseRewardWei s * FakeReport.severity report) (bountyPoolWei s) in
  let payout := stake + reward in
  ReporterProfile.reputation (reporterProfiles s' @@ who)
    = ReporterProfile.reputation (reporterProfiles s @@ who)
      + (10 + FakeReport.severity report * 4) /\
  0 <= reward <= bountyPoolWei s /\
  bountyPoolWei s' = bountyPoolWei s - reward /\
  transfers l = (if 0 <? payout then [(who, payout)] else []) /\
  last (events l)
    = Some (ReportResolved reportId true payout
              (ReporterProfile.reputation (reporterProfiles s' @@ who))) /\
  FakeReport.status (reports s' @@ reportId) = ConfirmedFake /\
  FakeReport.status report = Pending /\
  Batch.quarantined (batches s' @@ FakeReport.tokenId report) = true /\
  flagged s' (FakeReport.tokenId report) = true.

(** ** The ledger invariant *)

(** The numeric ranges that the pool accounting relies on. *)
Definition pool_inv (s : State) : Prop :=
  0 <= bountyPoolWei s /\ 0 <= falseReportSlashBps s /\ 0 <= baseRewardWei s /\
  forall id, 0 <= FakeReport.stakeAmount (reports s @@ id) /\
             0 <= FakeReport.severity (reports s @@ id) <= 3.

(** Report ids at or above the counter are unused. *)
Definition ids_inv (s : State) : Prop :=
  forall id, _reportIdCounter s <= id -> reports s !! id = None.

(** A report refers to an existing item, and an item that does not exist
    has no batch record. *)
Definition exists_inv (s : State) : Prop :=
  (forall id, reports s !! id <> None ->
     _ownerOf (FakeReport.tokenId (reports s @@ id)) s <> 0) /\
  (forall t, _ownerOf t s = 0 -> batches s @@ t = Batch.zero).

(** A quarantined item, and an item whose counter of pending severe
    reports is positive, is flagged. *)
Definition flag_inv (s : State) : Prop :=
  forall t,
    (Batch.quarantined (batches s @@ t) = true -> flagged s t = true) /\
    (0 < Batch.pendingSevereReports (batches s @@ t) -> flagged s t = true).

(** The counter of pending severe reports of an item is the number of
    such reports. *)
Definition count_inv (s : State) : Prop :=
  forall t, Batch.pendingSevereReports (batches s @@ t)
            = Z.of_nat (pending_severe_count s t).

(** What holds in every reachable state. *)
Definition ledger_inv (s : State) : Prop :=
  _entered s = false /\ pool_inv s /\ ids_inv s /\ exists_inv s /\
  flag_inv s /\ count_inv s /\ hr_coherent s.

(** ** A concrete deployment, used to exhibit runs of the contract *)

(** An environment in which the caller is [sender], the block time is
    [now], every outgoing transfer is accepted and the signature over a
    mint payload recovers to the caller. *)
Definition env_at (sender now : Z) : Env :=
  mkEnv sender now 1 999 (fun _ _ => true) (fun _ => 0)
    (fun _ _ => Some sender) (fun _ _ => false).

(** The deployer, and two reporters. *)
Definition regulator : Z := 1.
Definition alice : Z := 2.
Definition bob : Z := 3.

Definition sc_deployed : State := constructor regulator.

(** Item 0 is minted, and the pool is funded with one ether. *)
Definition sc_minted : State :=
  transact (execute (env_at regulator 100)
    (call_mintBatch regulator "PG-2026-001" "Maker" 100000000 "api" "ipfs://b0" [Byte.x01]))
    sc_deployed.

Definition sc_funded : State :=
  transact (execute (env_at regulator 200) (call_fundBountyPool (1000 * ether_milli)))
    sc_minted.

(** [alice] files a severity-2 report on item 0 with the medium stake. *)
Definition sc_reported : State :=
  transact (execute (env_at alice 1000)
    (call_reportSuspiciousBatch (5 * ether_milli) 0 77 "ipfs://ev" "odd print" 2))
    sc_funded.

(** The regulator settles that report, one way or the other. *)
Definition sc_rejected : State :=
  transact (execute (env_at regulator 2000) (call_resolveReport 0 false)) sc_reported.

Definition sc_confirmed : State :=
  transact (execute (env_at regulator 2000) (call_resolveReport 0 true)) sc_reported.

(** Anyone sends 9 wei to the contract after the rejection. *)
Definition sc_after_rejection : State :=
  transact (execute (env_at bob 2500) (call_receive 9)) sc_rejected.

(** The regulator pauses the contract while the report is pending. *)
Definition sc_paused : State :=
  transact (execute (env_at regulator 3000) call_pause) sc_reported.

(** A second item, a second report of [alice] after the cooldown, and
    then a regulator who lowers the cap to one open report. *)
Definition sc_minted2 : State :=
  transact (execute (env_at regulator 1500)
    (call_mintBatch regulator "PG-2026-002" "Maker" 100000000 "api" "ipfs://b1" [Byte.x01]))
    sc_reported.

Definition sc_reported2 : State :=
  transact (execute (env_at alice 22600)
    (call_reportSuspiciousBatch (2 * ether_milli) 1 78 "ipfs://ev2" "torn seal" 1))
    sc_minted2.

Definition sc_cap_lowered : State :=
  transact (execute (env_at regulator 23000)
    (call_setPolicyParameters (2 * ether_milli) (5 * ether_milli) (10 * ether_milli)
       (2 * ether_milli) 7000 21600 1 5))
    sc_reported2.

(** [alice] files her [k]-th severity-1 report on item 0 (report id
    [k - 1]) and the regulator rejects it. *)
Definition report_then_reject (k : Z) (s : State) : State :=
  transact (execute (env_at regulator (k * 30000 + 10)) (call_resolveReport (k - 1) false))
    (transact (execute (env_at alice (k * 30000))
       (call_reportSuspiciousBatch (2 * ether_milli) 0 (100 + k) "ipfs://ev" "odd" 1))
       s).

Definition sc_five_rejections : State :=
  report_then_reject 5 (report_then_reject 4 (report_then_reject 3
    (report_then_reject 2 (report_then_reject 1 sc_minted)))).

Definition sc_sixth_report : State :=
  transact (execute (env_at alice (6 * 30000))
    (call_reportSuspiciousBatch (2 * ether_milli) 0 106 "ipfs://ev" "odd" 1))
    sc_five_rejections.

(** The sixth rejection takes the reputation to -108 and blocks [alice]. *)
Definition sc_blocked : State :=
  transact (execute (env_at regulator (6 * 30000 + 10)) (call_resolveReport 5 false))
    sc_sixth_report.

(** The regulator unblocks [alice]. *)
Definition sc_unblocked : State :=
  transact (execute (env_at regulator 200000) (call_setReporterBlocked alice false))
    sc_blocked.


(** A lab fails item 0 while the severity-2 report of [alice] is pending,
    and the regulator then rejects that report. *)
Definition sc_lab_failed : State :=
  transact (execute (env_at regulator 1200) (call_submitLabAttestation 0 4242 false 9000))
    sc_reported.


(** * Views, and the vocabulary of the further properties *)

(** ** View functions *)

Definition verifyBatch (env : Env) (tokenId : Z) : M (bool * string) :=
  _requireBatchExists tokenId;;
  s ← get;
  let b := batches s @@ tokenId in
  if Batch.expiryTimestamp b <? block_timestamp env then ret (false, "Expired")
  else if Batch.quarantined b then ret (false, "Regulator quarantined")
  else if Batch.flaggedHighRisk b then ret (false, "High-risk batch")
  else if 0 <? Batch.openReports b then ret (true, "Under investigation")
  else if (String.length (Batch.modelHash b) =? 0)%nat
       then ret (true, "No model attestation yet")
  else ret (true, "Clean").

Definition getReportsForBatch (tokenId : Z) : M (list Z) :=
  _requireBatchExists tokenId;;
  s ← get;
  ret (_reportsByBatch s @@ tokenId).

(** The tuple returned by [getDashboardSummary]. *)
Record DashboardSummary : Type := mkDashboardSummary {
  ds_minted : Z;
  ds_reportsFiled : Z;
  ds_openReports : Z;
  ds_highRiskBatches : Z;
  ds_confirmedFakeReports : Z;
  ds_poolBalanceWei : Z
}.

Definition getDashboardSummary : M DashboardSummary :=
  s ← get;
  ret (mkDashboardSummary (totalBatchesMinted s) (totalReportsFiled s) (totalOpenReports s)
         (Z.of_nat (length (_highRiskBatchIds s))) (totalConfirmedFakeReports s)
         (bountyPoolWei s)).

(** The copy loop of [getHighRiskBatchIds]:
    [for (i = 0; i < length; i++) ids[i] = _highRiskBatchIds[cursor + i]],
    with [todo] iterations left. *)
Fixpoint copy_ids (arr : list Z) (cursor : Z) (todo : nat) (i : Z) (ids : list Z)
    : Result (list Z) :=
  match todo with
  | O => Ok ids
  | S todo' =>
      match checked_add 256 cursor i with
      | Err e => Err e
      | Ok k =>
          match arr !! Z.to_nat k with
          | None => Err (Panic PANIC_INDEX)
          | Some x =>
              if i <? Z.of_nat (length ids)
              then copy_ids arr cursor todo' (i + 1) (<[Z.to_nat i := x]> ids)
              else Err (Panic PANIC_INDEX)
          end
      end
  end.

Definition getHighRiskBatchIds (cursor limit : Z) : M (list Z * Z) :=
  s ← get;
  let len := Z.of_nat (length (_highRiskBatchIds s)) in
  if (limit =? 0) || (len <=? cursor) then ret ([], cursor)
  else
    sum ← lift (checked_add 256 cursor limit);
    let endExclusive := if len <? sum then len else sum in
    count ← lift (checked_sub endExclusive cursor);
    ids ← lift (copy_ids (_highRiskBatchIds s) cursor (Z.to_nat count) 0
                 (replicate (Z.to_nat count) 0));
    ret (ids, endExclusive).

(** The ids returned by [getHighRiskBatchIds], when [cursor + limit] does
    not overflow: the slice of at most [limit] ids from position [cursor]. *)
Definition page_of (arr : list Z) (cursor limit : Z) : list Z :=
  take (Z.to_nat limit) (drop (Z.to_nat cursor) arr).

(** A reader of the index: it asks for [limit] ids at a time, starting at
    [cursor], and stops at the first empty page ([fuel] bounds the number
    of calls). *)
Fixpoint read_pages (fuel : nat) (cursor limit : Z) (s : State) : Result (list Z) :=
  match fuel with
  | O => Ok []
  | S fuel' =>
      match run (getHighRiskBatchIds cursor limit) s with
      | Err e => Err e
      | Ok (([], _), _, _) => Ok []
      | Ok ((ids, nextCursor), _, _) =>
          match read_pages fuel' nextCursor limit s with
          | Err e => Err e
          | Ok rest => Ok (ids ++ rest)
          end
      end
  end.

(** ** Further invariants of the ledger *)

(** The constraints that [setPolicyParameters] checks, which the initial
    parameters satisfy as well. *)
Definition policy_inv (s : State) : Prop :=
  0 < minStakeWei s /\ minStakeWei s <= mediumStakeWei s /\
  mediumStakeWei s <= highStakeWei s /\
  0 <= falseReportSlashBps s <= BPS_DENOMINATOR /\
  0 < maxOpenReportsPerReporter s.

(** Token ids are handed out consecutively from 0 and never given back. *)
Definition mint_inv (s : State) : Prop :=
  _tokenIdCounter s = totalBatchesMinted s /\ 0 <= _tokenIdCounter s /\
  forall t, _ownerOf t s <> 0 <-> 0 <= t < _tokenIdCounter s.

(** The fields of a batch record that describe the product. *)
Definition batch_identity (b : Batch.t)
    : string * string * string * string * Z * Z * string * Z :=
  (Batch.productName b, Batch.manufacturerName b, Batch.manufacturerLicenseNo b,
   Batch.batchNumber b, Batch.mfgDate b, Batch.expiryTimestamp b, Batch.apiHash b,
   Batch.packagingHash b).

(** The fields of a report that are written when it is filed. *)
Definition report_identity (r : FakeReport.t)
    : Z * Z * Z * Z * string * string * Z * Z * Z :=
  (FakeReport.reportId r, FakeReport.tokenId r, FakeReport.reporter r,
   FakeReport.identityNullifier r, FakeReport.evidenceURI r, FakeReport.reason r,
   FakeReport.severity r, FakeReport.stakeAmount r, FakeReport.createdAt r).

(** Report ids are handed out consecutively from 0, and a report is stored
    under its own id. *)
Definition report_ids_inv (s : State) : Prop :=
  _reportIdCounter s = totalReportsFiled s /\ 0 <= _reportIdCounter s /\
  (forall id, reports s !! id <> None <-> 0 <= id < _reportIdCounter s) /\
  (forall id r, reports s !! id = Some r -> FakeReport.reportId r = id).

(** ** Counting reports *)

(** The number of reports on the ledger that satisfy [Q]. *)
Definition count_reports (Q : FakeReport.t -> Prop) `{!forall r, Decision (Q r)}
    (m : gmap Z FakeReport.t) : nat :=
  size (filter (fun kr : Z * FakeReport.t => Q kr.2) m).

(** 1 when [P] holds, 0 otherwise. *)
Definition ind (P : Prop) `{!Decision P} : Z := if decide P then 1 else 0.

(** The three ledger-wide counters are exact. *)
Definition totals_inv (s : State) : Prop :=
  totalReportsFiled s = Z.of_nat (size (reports s)) /\
  totalOpenReports s
    = Z.of_nat (count_reports (fun r => FakeReport.status r = Pending) (reports s)) /\
  totalConfirmedFakeReports s
    = Z.of_nat (count_reports (fun r => FakeReport.status r = ConfirmedFake) (reports s)).

(** The counters of a reporter profile are exact. *)
Definition profile_counts_inv (s : State) : Prop :=
  forall a,
    let p := reporterProfiles s @@ a in
    ReporterProfile.reportsSubmitted p
      = Z.of_nat (count_reports (fun r => FakeReport.reporter r = a) (reports s)) /\
    ReporterProfile.openReports p
      = Z.of_nat (count_reports (fun r => FakeReport.reporter r = a /\
                                          FakeReport.status r = Pending) (reports s)) /\
    ReporterProfile.reportsConfirmed p
      = Z.of_nat (count_reports (fun r => FakeReport.reporter r = a /\
                                          FakeReport.status r = ConfirmedFake) (reports s)) /\
    ReporterProfile.reportsRejected p
      = Z.of_nat (count_reports (fun r => FakeReport.reporter r = a /\
                                          FakeReport.status r = RejectedFalse) (reports s)).

(** The open-report counter of a batch is exact. *)
Definition batch_counts_inv (s : State) : Prop :=
  forall t,
    Batch.openReports (batches s @@ t)
    = Z.of_nat (count_reports (fun r => FakeReport.tokenId r = t /\
                                        FakeReport.status r = Pending) (reports s)).

(** [hasOpenReportForBatch] is set exactly for the pairs of a reporter and
    a batch with a pending report, and there is at most one such report. *)
Definition open_flag_inv (s : State) : Prop :=
  forall a t,
    Z.of_nat (count_reports (fun r => FakeReport.reporter r = a /\ FakeReport.tokenId r = t /\
                                      FakeReport.status r = Pending) (reports s))
    = if hasOpenReportForBatch s @@ (a, t) then 1 else 0.

(** ** Funds *)

(** The stake that the contract holds for a report: the whole stake while
    the report is pending, nothing once it is resolved. *)
Definition held (r : FakeReport.t) : Z :=
  if decide (FakeReport.status r = Pending) then FakeReport.stakeAmount r else 0.

(** The sum of [f] over the reports of the ledger. *)
Definition sum_reports (f : FakeReport.t -> Z) (m : gmap Z FakeReport.t) : Z :=
  map_fold (fun _ r acc => f r + acc) 0 m.

(** The stakes held for the pending reports of the ledger. *)
Definition escrowed (m : gmap Z FakeReport.t) : Z := sum_reports held m.

(** What a report has added to the reputation of [a]: nothing while it is
    pending or when it is the report of somebody else, [10 + severity * 4]
    when confirmed, [- (12 + severity * 6)] when rejected. *)
Definition verdict_score (a : Z) (r : FakeReport.t) : Z :=
  if decide (FakeReport.reporter r = a) then
    match FakeReport.status r with
    | Pending => 0
    | ConfirmedFake => 10 + FakeReport.severity r * 4
    | RejectedFalse => - (12 + FakeReport.severity r * 6)
    end
  else 0.

(** The reputation of a reporter is the sum of the verdicts on their reports. *)
Definition reputation_inv (s : State) : Prop :=
  forall a, ReporterProfile.reputation (reporterProfiles s @@ a)
            = sum_reports (verdict_score a) (reports s).

(** The value that comes with a call: the three payable entry points. *)
Definition msg_value_of (c : Call) : Z :=
  match c with
  | call_receive v => v
  | call_fundBountyPool v => v
  | call_reportSuspiciousBatch v _ _ _ _ _ => v
  | _ => 0
  end.

(** The value that a call has sent out, by its log. *)
Definition paid_out (l : list Effect) : Z :=
  foldr (fun ta acc => ta.2 + acc) 0 (transfers l).

(** ** Per-batch lists *)

(** [_reportsByBatch] lists, for every batch, the ids of the reports filed
    against it, each id once. *)
Definition reports_by_batch_inv (s : State) : Prop :=
  forall t,
    NoDup (_reportsByBatch s @@ t) /\
    forall id, id ∈ _reportsByBatch s @@ t
               <-> exists r, reports s !! id = Some r /\ FakeReport.tokenId r = t.

(** Every recorded lab attestation carries a confidence of at most 100%. *)
Definition attestations_inv (s : State) : Prop :=
  forall t att, att ∈ _labAttestationsByBatch s @@ t ->
                0 <= LabAttestation.confidenceBps att <= BPS_DENOMINATOR.

(** ** The audit invariant *)

(** The counters, lists and parameters of the ledger agree with the
    reports and batches it holds. *)
Definition audit_inv (s : State) : Prop :=
  policy_inv s /\ mint_inv s /\ report_ids_inv s /\ totals_inv s /\
  profile_counts_inv s /\ batch_counts_inv s /\ open_flag_inv s /\
  reputation_inv s /\ reports_by_batch_inv s /\ attestations_inv s.

(** ** Modifiers *)

(** The role that the [onlyRole] modifier of an entry point asks of the
    caller, for the entry points that carry one. *)
Definition required_role (c : Call) : option Role :=
  match c with
  | call_registerManufacturer _ _ _ _ => Some REGULATOR_ROLE
  | call_registerLab _ _ _ => Some REGULATOR_ROLE
  | call_setInspector _ _ => Some REGULATOR_ROLE
  | call_setReporterBlocked _ _ => Some REGULATOR_ROLE
  | call_setPolicyParameters _ _ _ _ _ _ _ _ => Some REGULATOR_ROLE
  | call_fundBountyPool _ => Some REGULATOR_ROLE
  | call_withdrawBountyPool _ _ => Some DEFAULT_ADMIN_ROLE
  | call_mintBatch _ _ _ _ _ _ _ => Some MANUFACTURER_ROLE
  | call_mintBatchWithCompliance _ _ _ _ _ _ _ _ _ _ => Some MANUFACTURER_ROLE
  | call_submitLabAttestation _ _ _ _ => Some LAB_ROLE
  | call_setBatchQuarantine _ _ _ => Some REGULATOR_ROLE
  | call_resolveReport _ _ => Some REGULATOR_ROLE
  | call_pause => Some REGULATOR_ROLE
  | call_unpause => Some REGULATOR_ROLE
  | call_grantRole _ _ => Some DEFAULT_ADMIN_ROLE
  | call_revokeRole _ _ => Some DEFAULT_ADMIN_ROLE
  | _ => None
  end.

(** The entry points that carry the modifier [whenNotPaused]. *)
Definition pausable (c : Call) : bool :=
  match c with
  | call_mintBatch _ _ _ _ _ _ _ => true
  | call_mintBatchWithCompliance _ _ _ _ _ _ _ _ _ _ => true
  | call_transferToNextOwner _ _ _ => true
  | call_recordCustodyCheckpoint _ _ _ => true
  | call_submitLabAttestation _ _ _ _ => true
  | call_updateFederatedModel _ _ => true
  | call_setBatchQuarantine _ _ _ => true
  | call_reportSuspiciousBatch _ _ _ _ _ _ => true
  | call_resolveReport _ _ => true
  | _ => false
  end.

(** ** Further runs of the concrete deployment *)

(** With two items minted and two reports of [alice] pending, the
    regulator quarantines both items. *)
Definition sc_two_flagged : State :=
  transact (execute (env_at regulator 24000) (call_setBatchQuarantine 1 true "RECALL"))
    (transact (execute (env_at regulator 23500) (call_setBatchQuarantine 0 true "RECALL"))
       sc_reported2).

(** The owner of item 0 hands it to [bob]. *)
Definition sc_handed_over : State :=
  transact (execute (env_at regulator 300) (call_transferToNextOwner 0 bob "Distributor"))
    sc_minted.

(** The regulator registers the deployer as an inactive manufacturer. *)
Definition sc_deregistered : State :=
  transact (execute (env_at regulator 300)
    (call_registerManufacturer regulator "LIC-001" "Maker" false)) sc_minted.

(** A second item is minted before anybody reports, and [alice] then
    files her first report, on item 0. *)
Definition sc_two_items : State :=
  transact (execute (env_at regulator 300)
    (call_mintBatch regulator "PG-2026-002" "Maker" 100000000 "api" "ipfs://b1" [Byte.x01]))
    sc_funded.

Definition sc_first_report : State :=
  transact (execute (env_at alice 1000)
    (call_reportSuspiciousBatch (5 * ether_milli) 0 77 "ipfs://ev" "odd print" 2))
    sc_two_items.

(** * Reasoning infrastructure *)

Section sload.
Context {K A : Type} `{Countable K} `{ZeroValue A}.
Implicit Types (m : gmap K A) (k : K) (v : A).

Lemma sload_insert_eq m k v : (<[k := v]> m) @@ k = v.
Proof. unfold sload. by rewrite lookup_insert_eq. Qed.

Lemma sload_insert_ne m k k' v : k <> k' -> (<[k := v]> m) @@ k' = m @@ k'.
Proof. intros. unfold sload. by rewrite lookup_insert_ne. Qed.

Lemma sload_insert m k k' v :
  (<[k := v]> m) @@ k' = if decide (k = k') then v else m @@ k'.
Proof.
  case_decide; [subst; apply sload_insert_eq | by apply sload_insert_ne].
Qed.

Lemma sload_empty k : (∅ : gmap K A) @@ k = zero_value.
Proof. unfold sload. by rewrite lookup_empty. Qed.

Lemma sload_Some m k v : m !! k = Some v -> m @@ k = v.
Proof. unfold sload. by intros ->. Qed.

Lemma sload_None m k : m !! k = None -> m @@ k = zero_value.
Proof. unfold sload. by intros ->. Qed.
End sload.

Section wp.
Context {A B : Type}.
Implicit Types (Q : B -> State -> list Effect -> Prop) (s : State) (l : list Effect).

Lemma wp_elim (m : M B) Q s l b s' l' :
  wp m Q s l -> m s l = Ok (b, s', l') -> Q b s' l'.
Proof. unfold wp. intros Hwp Heq. by rewrite Heq in Hwp. Qed.

Lemma wp_bind_eqn (m : M A) (k : A -> M B) Q s l :
  (forall a s' l', m s l = Ok (a, s', l') -> wp (k a) Q s' l') ->
  wp (bind m k) Q s l.
Proof.
  intros Hk. unfold wp, bind. destruct (m s l) as [[[a s'] l']|] eqn:E; [|done].
  by apply (Hk a s' l').
Qed.

Lemma wp_ret (b : B) Q s l : Q b s l -> wp (ret b) Q s l.
Proof. done. Qed.

Lemma wp_revert e Q s l : wp (revert e) Q s l.
Proof. done. Qed.

Lemma wp_bind_ret (a : A) (k : A -> M B) Q s l :
  wp (k a) Q s l -> wp (bind (ret a) k) Q s l.
Proof. done. Qed.

Lemma wp_bind_revert e (k : A -> M B) Q s l : wp (bind (revert e) k) Q s l.
Proof. done. Qed.

Lemma wp_bind_get (k : State -> M B) Q s l :
  wp (k s) Q s l -> wp (bind get k) Q s l.
Proof. done. Qed.

Lemma wp_bind_modify f (k : unit -> M B) Q s l :
  wp (k tt) Q (f s) l -> wp (bind (modify f) k) Q s l.
Proof. done. Qed.

Lemma wp_bind_emit e (k : unit -> M B) Q s l :
  wp (k tt) Q s (l ++ [Emit e]) -> wp (bind (emit e) k) Q s l.
Proof. done. Qed.

Lemma wp_bind_require c r (k : unit -> M B) Q s l :
  (c = true -> wp (k tt) Q s l) -> wp (bind (require c r) k) Q s l.
Proof. destruct c; [intros Hk; by apply Hk | done]. Qed.

Lemma wp_bind_lift (r : Result A) (k : A -> M B) Q s l :
  (forall a, r = Ok a -> wp (k a) Q s l) -> wp (bind (lift r) k) Q s l.
Proof. destruct r; [intros Hk; by apply Hk | done]. Qed.

Lemma wp_bind_assoc {C} (m : M C) (k1 : C -> M A) (k2 : A -> M B) Q s l :
  wp (bind m (fun c => bind (k1 c) k2)) Q s l -> wp (bind (bind m k1) k2) Q s l.
Proof. unfold wp, bind. by destruct (m s l) as [[[c s'] l']|]. Qed.

Lemma wp_bind_call_value env to amount (k : bool -> M B) Q s l :
  (call_succeeds env to amount = true ->
   wp (k true) Q s (l ++ [SendValue to amount])) ->
  (call_succeeds env to amount = false -> wp (k false) Q s l) ->
  wp (bind (call_value env to amount) k) Q s l.
Proof.
  intros Ht Hf. unfold wp, bind, call_value.
  destruct (call_succeeds _ _ _); [by apply Ht | by apply Hf].
Qed.
End wp.

Lemma wp_right_unit {A} (m : M A) Q s l : wp (bind m ret) Q s l -> wp m Q s l.
Proof. unfold wp, bind, ret. by destruct (m s l) as [[[a s'] l']|]. Qed.

Lemma wp_fails {A} (m : M A) s : wp m (fun _ _ _ => False) s [] -> fails m s.
Proof.
  unfold wp, fails, run. destruct (m s []) as [[[a s'] l']|e]; [done | by exists e].
Qed.

Lemma fails_transact {A} (m : M A) s : fails m s -> transact m s = s.
Proof. intros [e He]. unfold transact. by rewrite He. Qed.

Lemma checked_add_Ok bits a b c : checked_add bits a b = Ok c -> c = a + b /\ a + b <= MAX_UINT bits.
Proof. unfold checked_add. case_match; [|done]. intros [= <-]. split; [done | lia]. Qed.

Lemma checked_sub_Ok a b c : checked_sub a b = Ok c -> c = a - b /\ b <= a.
Proof. unfold checked_sub. case_match; [|done]. intros [= <-]. split; [done | lia]. Qed.

Lemma checked_mul_Ok bits a b c : checked_mul bits a b = Ok c -> c = a * b /\ a * b <= MAX_UINT bits.
Proof. unfold checked_mul. case_match; [|done]. intros [= <-]. split; [done | lia]. Qed.

Lemma checked_add_int256_Ok a b c : checked_add_int256 a b = Ok c -> c = a + b /\ in_int256 (a + b).
Proof.
  unfold checked_add_int256, in_int256. case_match; [|done]. intros [= <-].
  split; [done | lia].
Qed.

Lemma checked_sub_int256_Ok a b c : checked_sub_int256 a b = Ok c -> c = a - b /\ in_int256 (a - b).
Proof.
  unfold checked_sub_int256, in_int256. case_match; [|done]. intros [= <-].
  split; [done | lia].
Qed.

Lemma dec_floor_le x : dec_floor x <= x.
Proof. unfold dec_floor. case_match; lia. Qed.

Lemma dec_floor_pos x : 0 < x -> dec_floor x = x - 1.
Proof. unfold dec_floor. intros. case_match; lia. Qed.

(** Reduce the reads of storage fields through the writes before them. *)
Ltac norm_state :=
  cbn [
_paused _entered _roles _owners _tokenURIs _tokenIdCounter _reportIdCounter
    minStakeWei mediumStakeWei highStakeWei baseRewardWei falseReportSlashBps
    bountyPoolWei reportCooldownSec maxOpenReportsPerReporter
    minReputationForSeverityThree totalBatchesMinted totalReportsFiled totalOpenReports
    totalConfirmedFakeReports manufacturers labs reporterProfiles batches
    _labAttestationsByBatch reports _reportsByBatch identityNullifierUsed
    hasOpenReportForBatch _highRiskBatchIds _highRiskIndexPlusOne set_paused set_entered
    set_roles set_owners set_tokenURIs set_tokenIdCounter set_reportIdCounter
    set_minStakeWei set_mediumStakeWei set_highStakeWei set_baseRewardWei
    set_falseReportSlashBps set_bountyPoolWei set_reportCooldownSec
    set_maxOpenReportsPerReporter set_minReputationForSeverityThree
    set_totalBatchesMinted set_totalReportsFiled set_totalOpenReports
    set_totalConfirmedFakeReports set_manufacturers set_labs set_reporterProfiles
    set_batches set_labAttestationsByBatch set_reports set_reportsByBatch
    set_identityNullifierUsed set_hasOpenReportForBatch set_highRiskBatchIds
    set_highRiskIndexPlusOne ];
  rewrite ?sload_insert_eq, ?insert_insert_eq.

Ltac norm_state_in H :=
  cbn [
_paused _entered _roles _owners _tokenURIs _tokenIdCounter _reportIdCounter
    minStakeWei mediumStakeWei highStakeWei baseRewardWei falseReportSlashBps
    bountyPoolWei reportCooldownSec maxOpenReportsPerReporter
    minReputationForSeverityThree totalBatchesMinted totalReportsFiled totalOpenReports
    totalConfirmedFakeReports manufacturers labs reporterProfiles batches
    _labAttestationsByBatch reports _reportsByBatch identityNullifierUsed
    hasOpenReportForBatch _highRiskBatchIds _highRiskIndexPlusOne set_paused set_entered
    set_roles set_owners set_tokenURIs set_tokenIdCounter set_reportIdCounter
    set_minStakeWei set_mediumStakeWei set_highStakeWei set_baseRewardWei
    set_falseReportSlashBps set_bountyPoolWei set_reportCooldownSec
    set_maxOpenReportsPerReporter set_minReputationForSeverityThree
    set_totalBatchesMinted set_totalReportsFiled set_totalOpenReports
    set_totalConfirmedFakeReports set_manufacturers set_labs set_reporterProfiles
    set_batches set_labAttestationsByBatch set_reports set_reportsByBatch
    set_identityNullifierUsed set_hasOpenReportForBatch set_highRiskBatchIds
    set_highRiskIndexPlusOne ] in H;
  rewrite ?sload_insert_eq, ?insert_insert_eq in H.

Ltac checked_inv :=
  repeat match goal with
  | H : checked_add _ _ _ = Ok _ |- _ => apply checked_add_Ok in H; destruct H as [-> ?]
  | H : checked_sub _ _ = Ok _ |- _ => apply checked_sub_Ok in H; destruct H as [-> ?]
  | H : checked_mul _ _ _ = Ok _ |- _ => apply checked_mul_Ok in H; destruct H as [-> ?]
  | H : checked_add_int256 _ _ = Ok _ |- _ =>
      apply checked_add_int256_Ok in H; destruct H as [-> ?]
  | H : checked_sub_int256 _ _ = Ok _ |- _ =>
      apply checked_sub_int256_Ok in H; destruct H as [-> ?]
  end.

(** ** The swap-remove index, as pure list and map facts *)

Lemma removelast_lookup_lt {A} (l : list A) (i : nat) :
  (S i < length l)%nat -> removelast l !! i = l !! i.
Proof.
  intros Hi. rewrite removelast_firstn_len. apply lookup_take_lt. lia.
Qed.

Lemma removelast_lookup_ge {A} (l : list A) (i : nat) :
  (length l <= S i)%nat -> removelast l !! i = None.
Proof.
  intros Hi. rewrite removelast_firstn_len. apply lookup_take_ge. lia.
Qed.

Lemma index_coherent_absent arr idx t :
  index_coherent arr idx -> idx @@ t = 0 -> forall i : nat, arr !! i <> Some t.
Proof.
  intros [Hpos _] Hz i Hi. apply Hpos in Hi. lia.
Qed.

Lemma index_coherent_push arr idx t :
  index_coherent arr idx -> idx @@ t = 0 ->
  index_coherent (arr ++ [t]) (<[t := Z.of_nat (length (arr ++ [t]))]> idx).
Proof.
  intros Hc Hz. pose proof (index_coherent_absent _ _ _ Hc Hz) as Habs.
  destruct Hc as [Hpos Hnn]. split.
  - intros t' i. rewrite sload_insert, length_app. simpl.
    rewrite lookup_snoc_Some. case_decide as Ht; subst.
    + split.
      * intros [[_ Hi] | [-> _]]; [by apply Habs in Hi | lia].
      * intros Hi. right. split; [lia | done].
    + rewrite <- Hpos. split; [intros [[_ Hi] | [_ ?]]; done | intros Hi].
      left. split; [by eapply lookup_lt_Some | done].
  - intros t'. rewrite sload_insert. case_decide; [lia | apply Hnn].
Qed.

Lemma index_coherent_pop arr idx t :
  index_coherent arr idx -> 0 < idx @@ t -> idx @@ t = Z.of_nat (length arr) ->
  index_coherent (removelast arr) (<[t := 0]> idx).
Proof.
  intros [Hpos Hnn] Hgt Hlast. split.
  - intros t' i. rewrite sload_insert. case_decide as Ht; subst.
    + split; [intros Hi | lia].
      destruct (decide (S i < length arr)%nat) as [Hlt|Hge].
      * rewrite removelast_lookup_lt in Hi by done. apply Hpos in Hi. lia.
      * rewrite removelast_lookup_ge in Hi by lia. done.
    + destruct (decide (S i < length arr)%nat) as [Hlt|Hge].
      * rewrite removelast_lookup_lt by done. apply Hpos.
      * rewrite removelast_lookup_ge by lia. split; [done | intros Hi].
        pose proof (proj2 (Hpos t' i) Hi) as Hl.
        apply lookup_lt_Some in Hl as Hlen.
        assert (Z.of_nat i + 1 = Z.of_nat (length arr)) as Heq by lia.
        assert (arr !! i = Some t) as Ht'.
        { apply Hpos. lia. }
        congruence.
  - intros t'. rewrite sload_insert. case_decide; [lia | apply Hnn].
Qed.

Lemma index_coherent_swap arr idx t m (i : nat) :
  index_coherent arr idx -> idx @@ t = Z.of_nat i + 1 ->
  S i <> length arr -> arr !! (length arr - 1)%nat = Some m ->
  index_coherent (removelast (<[i := m]> arr)) (<[t := 0]> (<[m := Z.of_nat i + 1]> idx)).
Proof.
  intros [Hpos Hnn] Hti Hne Hm.
  assert (arr !! i = Some t) as Hit by by apply Hpos.
  apply lookup_lt_Some in Hit as Hilt.
  assert (idx @@ m = Z.of_nat (length arr - 1)%nat + 1) as Hmi by by apply Hpos.
  assert (m <> t) as Hmt by (intros ->; lia).
  assert (forall (j : nat) x, removelast (<[i := m]> arr) !! j = Some x <->
            (S j < length arr)%nat /\ (if decide (i = j) then x = m else arr !! j = Some x))
    as Hlk.
  { intros j x. destruct (decide (S j < length arr)%nat) as [Hlt|Hge].
    - rewrite removelast_lookup_lt by (by rewrite length_insert).
      rewrite list_lookup_insert. repeat case_decide; try lia; intuition congruence.
    - rewrite removelast_lookup_ge by (rewrite length_insert; lia). intuition congruence. }
  split.
  - intros t' j. rewrite Hlk, !sload_insert.
    destruct (decide (t = t')) as [<-|Htt'].
    + split; [intros [Hj Hx] | lia]. case_decide; [done|]. apply Hpos in Hx. lia.
    + destruct (decide (m = t')) as [<-|Hmt']; case_decide; subst.
      * split; [done | intros _; split; [lia | done]].
      * split; [intros [Hj Hx] | lia]. apply Hpos in Hx. lia.
      * split; [intros [_ ->]; done | intros Hx]. apply Hpos in Hx. congruence.
      * rewrite <- Hpos. split; [by intros [_ ?] | intros Hx; split; [|done]].
        apply lookup_lt_Some in Hx as Hjl.
        destruct (decide (S j = length arr)) as [Hjlast|]; [|lia].
        replace (length arr - 1)%nat with j in Hm by lia. congruence.
  - intros t'. rewrite !sload_insert. repeat case_decide; try lia. apply Hnn.
Qed.

(** ** Symbolic execution *)

(** Reduce the reads of struct fields through the writes before them. *)
Ltac norm_rec :=
  cbn [
    ReporterProfile.reputation ReporterProfile.reportsSubmitted
    ReporterProfile.reportsConfirmed ReporterProfile.reportsRejected
    ReporterProfile.openReports ReporterProfile.lastReportAt ReporterProfile.blocked
    ReporterProfile.set_reputation ReporterProfile.set_reportsSubmitted
    ReporterProfile.set_reportsConfirmed ReporterProfile.set_reportsRejected
    ReporterProfile.set_openReports ReporterProfile.set_lastReportAt
    ReporterProfile.set_blocked Batch.productName Batch.manufacturerName
    Batch.manufacturerLicenseNo Batch.batchNumber Batch.mfgDate Batch.expiryTimestamp
    Batch.apiHash Batch.packagingHash Batch.currentOwnerType Batch.currentCustodian
    Batch.lastVerified Batch.modelHash Batch.openReports Batch.pendingSevereReports
    Batch.quarantined Batch.flaggedHighRisk Batch.set_currentOwnerType
    Batch.set_currentCustodian Batch.set_lastVerified Batch.set_modelHash
    Batch.set_openReports Batch.set_pendingSevereReports Batch.set_quarantined
    Batch.set_flaggedHighRisk FakeReport.reportId FakeReport.tokenId FakeReport.reporter
    FakeReport.identityNullifier FakeReport.evidenceURI FakeReport.reason
    FakeReport.severity FakeReport.stakeAmount FakeReport.createdAt
    FakeReport.resolvedAt FakeReport.status FakeReport.resolver
    FakeReport.set_resolvedAt FakeReport.set_status FakeReport.set_resolver
    ManufacturerProfile.licenseNo ManufacturerProfile.legalName
    ManufacturerProfile.active LabProfile.accreditationId LabProfile.active
    LabAttestation.lab LabAttestation.reportHash LabAttestation.passed
    LabAttestation.confidenceBps LabAttestation.attestedAt ].

Ltac norm_rec_in H :=
  cbn [
    ReporterProfile.reputation ReporterProfile.reportsSubmitted
    ReporterProfile.reportsConfirmed ReporterProfile.reportsRejected
    ReporterProfile.openReports ReporterProfile.lastReportAt ReporterProfile.blocked
    ReporterProfile.set_reputation ReporterProfile.set_reportsSubmitted
    ReporterProfile.set_reportsConfirmed ReporterProfile.set_reportsRejected
    ReporterProfile.set_openReports ReporterProfile.set_lastReportAt
    ReporterProfile.set_blocked Batch.productName Batch.manufacturerName
    Batch.manufacturerLicenseNo Batch.batchNumber Batch.mfgDate Batch.expiryTimestamp
    Batch.apiHash Batch.packagingHash Batch.currentOwnerType Batch.currentCustodian
    Batch.lastVerified Batch.modelHash Batch.openReports Batch.pendingSevereReports
    Batch.quarantined Batch.flaggedHighRisk Batch.set_currentOwnerType
    Batch.set_currentCustodian Batch.set_lastVerified Batch.set_modelHash
    Batch.set_openReports Batch.set_pendingSevereReports Batch.set_quarantined
    Batch.set_flaggedHighRisk FakeReport.reportId FakeReport.tokenId FakeReport.reporter
    FakeReport.identityNullifier FakeReport.evidenceURI FakeReport.reason
    FakeReport.severity FakeReport.stakeAmount FakeReport.createdAt
    FakeReport.resolvedAt FakeReport.status FakeReport.resolver
    FakeReport.set_resolvedAt FakeReport.set_status FakeReport.set_resolver
    ManufacturerProfile.licenseNo ManufacturerProfile.legalName
    ManufacturerProfile.active LabProfile.accreditationId LabProfile.active
    LabAttestation.lab LabAttestation.reportHash LabAttestation.passed
    LabAttestation.confidenceBps LabAttestation.attestedAt ] in H.

Section wpt.
Context {A B : Type}.
Implicit Types (Q : B -> State -> list Effect -> Prop) (s : State) (l : list Effect).

Lemma wpt_elim (m : M B) Q s l :
  wpt m Q s l -> exists b s' l', m s l = Ok (b, s', l') /\ Q b s' l'.
Proof. unfold wpt. destruct (m s l) as [[[b s'] l']|]; [eauto | done]. Qed.

Lemma wpt_ret (b : B) Q s l : Q b s l -> wpt (ret b) Q s l.
Proof. done. Qed.

Lemma wpt_bind_ret (a : A) (k : A -> M B) Q s l :
  wpt (k a) Q s l -> wpt (bind (ret a) k) Q s l.
Proof. done. Qed.

Lemma wpt_bind_get (k : State -> M B) Q s l :
  wpt (k s) Q s l -> wpt (bind get k) Q s l.
Proof. done. Qed.

Lemma wpt_bind_modify f (k : unit -> M B) Q s l :
  wpt (k tt) Q (f s) l -> wpt (bind (modify f) k) Q s l.
Proof. done. Qed.

Lemma wpt_bind_emit e (k : unit -> M B) Q s l :
  wpt (k tt) Q s (l ++ [Emit e]) -> wpt (bind (emit e) k) Q s l.
Proof. done. Qed.

Lemma wpt_bind_lift (r : Result A) (a : A) (k : A -> M B) Q s l :
  r = Ok a -> wpt (k a) Q s l -> wpt (bind (lift r) k) Q s l.
Proof. by intros ->. Qed.

Lemma wpt_bind_assoc {C} (m : M C) (k1 : C -> M A) (k2 : A -> M B) Q s l :
  wpt (bind m (fun c => bind (k1 c) k2)) Q s l -> wpt (bind (bind m k1) k2) Q s l.
Proof. unfold wpt, bind. by destruct (m s l) as [[[c s'] l']|]. Qed.
End wpt.

Lemma wpt_right_unit {A} (m : M A) Q s l : wpt (bind m ret) Q s l -> wpt m Q s l.
Proof. unfold wpt, bind, ret. by destruct (m s l) as [[[a s'] l']|]. Qed.

Ltac wp_unfold_head := unfold mbind, mret, M_bind, M_ret.

(** One step of symbolic execution of a [wp] goal. *)
Ltac wp_step :=
  wp_unfold_head;
  lazymatch goal with
  | |- wp (bind (bind _ _) _) _ _ _ => apply wp_bind_assoc
  | |- wp (bind (ret _) _) _ _ _ => apply wp_bind_ret
  | |- wp (bind (revert _) _) _ _ _ => apply wp_bind_revert
  | |- wp (bind get _) _ _ _ => apply wp_bind_get; norm_state
  | |- wp (bind (modify _) _) _ _ _ => apply wp_bind_modify; norm_state
  | |- wp (bind (emit _) _) _ _ _ => apply wp_bind_emit
  | |- wp (bind (require _ _) _) _ _ _ => apply wp_bind_require; intros ?
  | |- wp (bind (lift _) _) _ _ _ => apply wp_bind_lift; intros ? ?
  | |- wp (bind (call_value _ _ _) _) _ _ _ => apply wp_bind_call_value; intros ?
  | |- wp (bind (when ?c _) _) _ _ _ => unfold when at 1; destruct c eqn:?
  | |- wp (bind (if ?c then _ else _) _) _ _ _ => destruct c eqn:?
  | |- wp (bind (match ?c with _ => _ end) _) _ _ _ => destruct c eqn:?
  | |- wp (bind (onlyRole _ _) _) _ _ _ => unfold onlyRole at 1
  | |- wp (bind whenNotPaused _) _ _ _ => unfold whenNotPaused at 1
  | |- wp (bind whenPaused _) _ _ _ => unfold whenPaused at 1
  | |- wp (bind (nonReentrant _) _) _ _ _ => unfold nonReentrant at 1
  | |- wp (bind (modify_profile _ _) _) _ _ _ => unfold modify_profile at 1
  | |- wp (bind (modify_batch _ _) _) _ _ _ => unfold modify_batch at 1
  | |- wp (bind (modify_report _ _) _) _ _ _ => unfold modify_report at 1
  | |- wp (bind (_requireBatchExists _) _) _ _ _ => unfold _requireBatchExists at 1
  | |- wp (bind (_grantRole _ _ _) _) _ _ _ => unfold _grantRole at 1
  | |- wp (bind (_revokeRole _ _ _) _) _ _ _ => unfold _revokeRole at 1
  | |- wp (bind (ownerOf _) _) _ _ _ => unfold ownerOf at 1
  | |- wp (bind (_mint _ _) _) _ _ _ => unfold _mint at 1
  | |- wp (bind (_transfer _ _ _) _) _ _ _ => unfold _transfer at 1
  | |- wp (bind (_setTokenURI _ _) _) _ _ _ => unfold _setTokenURI at 1
  | |- wp (bind (_mintBatchInternal _ _ _ _ _ _ _ _ _ _ _) _) _ _ _ =>
      unfold _mintBatchInternal at 1
  | |- wp (bind (discard _) _) _ _ _ => unfold discard at 1
  | |- wp (ret _) _ _ _ => apply wp_ret
  | |- wp (revert _) _ _ _ => apply wp_revert
  | |- wp (if ?c then _ else _) _ _ _ => destruct c eqn:?
  | |- wp (match ?c with _ => _ end) _ _ _ => destruct c eqn:?
  | |- wp (bind _ _) _ _ _ => fail
  | |- wp _ _ _ _ => apply wp_right_unit
  end.

Ltac wp_go := repeat (wp_step; cbv zeta).

Ltac wpt_step :=
  wp_unfold_head;
  lazymatch goal with
  | |- wpt (bind (bind _ _) _) _ _ _ => apply wpt_bind_assoc
  | |- wpt (bind (ret _) _) _ _ _ => apply wpt_bind_ret
  | |- wpt (bind get _) _ _ _ => apply wpt_bind_get; norm_state
  | |- wpt (bind (modify _) _) _ _ _ => apply wpt_bind_modify; norm_state
  | |- wpt (bind (emit _) _) _ _ _ => apply wpt_bind_emit
  | |- wpt (bind (modify_batch _ _) _) _ _ _ => unfold modify_batch at 1
  | |- wpt (ret _) _ _ _ => apply wpt_ret
  | |- wpt (bind _ _) _ _ _ => fail
  | |- wpt (revert _) _ _ _ => fail
  | |- wpt (if _ then _ else _) _ _ _ => fail
  | |- wpt (match _ with _ => _ end) _ _ _ => fail
  | |- wpt _ _ _ _ => apply wpt_right_unit
  end.

Ltac wpt_go := repeat (wpt_step; cbv zeta).

(** Two storages with the same fields are equal. *)
Lemma state_ext (s1 s2 : State) :
  _paused s1 = _paused s2 ->
  _entered s1 = _entered s2 ->
  _roles s1 = _roles s2 ->
  _owners s1 = _owners s2 ->
  _tokenURIs s1 = _tokenURIs s2 ->
  _tokenIdCounter s1 = _tokenIdCounter s2 ->
  _reportIdCounter s1 = _reportIdCounter s2 ->
  minStakeWei s1 = minStakeWei s2 ->
  mediumStakeWei s1 = mediumStakeWei s2 ->
  highStakeWei s1 = highStakeWei s2 ->
  baseRewardWei s1 = baseRewardWei s2 ->
  falseReportSlashBps s1 = falseReportSlashBps s2 ->
  bountyPoolWei s1 = bountyPoolWei s2 ->
  reportCooldownSec s1 = reportCooldownSec s2 ->
  maxOpenReportsPerReporter s1 = maxOpenReportsPerReporter s2 ->
  minReputationForSeverityThree s1 = minReputationForSeverityThree s2 ->
  totalBatchesMinted s1 = totalBatchesMinted s2 ->
  totalReportsFiled s1 = totalReportsFiled s2 ->
  totalOpenReports s1 = totalOpenReports s2 ->
  totalConfirmedFakeReports s1 = totalConfirmedFakeReports s2 ->
  manufacturers s1 = manufacturers s2 ->
  labs s1 = labs s2 ->
  reporterProfiles s1 = reporterProfiles s2 ->
  batches s1 = batches s2 ->
  _labAttestationsByBatch s1 = _labAttestationsByBatch s2 ->
  reports s1 = reports s2 ->
  _reportsByBatch s1 = _reportsByBatch s2 ->
  identityNullifierUsed s1 = identityNullifierUsed s2 ->
  hasOpenReportForBatch s1 = hasOpenReportForBatch s2 ->
  _highRiskBatchIds s1 = _highRiskBatchIds s2 ->
  _highRiskIndexPlusOne s1 = _highRiskIndexPlusOne s2 ->
  s1 = s2.
Proof. destruct s1, s2. cbn. intros. by subst. Qed.

Ltac state_eq := apply state_ext; norm_state; reflexivity.

Lemma setHighRisk_frame t b s l u s' l' :
  _setHighRisk t b s l = Ok (u, s', l') -> hr_post t b s l s' l'.
Proof.
  apply (wp_elim _ (fun _ s' l' => hr_post t b s l s' l')).
  unfold _setHighRisk, hr_post, hr_written, flagged. wp_go.
  all: try (left; split; [by apply eqb_prop | done]).
  all: right; (split; [by destruct (Batch.flaggedHighRisk _)|]); (split; [done|]).
  all: match goal with
       | |- exists arr idx, ?s1 = _ =>
           exists (_highRiskBatchIds s1), (_highRiskIndexPlusOne s1)
       end; state_eq.
Qed.

Lemma flagged_hr_written t b arr idx s t' :
  flagged (hr_written t b arr idx s) t' = if decide (t = t') then b else flagged s t'.
Proof.
  unfold flagged, hr_written. norm_state. rewrite sload_insert. by case_decide.
Qed.

Lemma hr_coherent_position s t :
  hr_coherent s -> flagged s t = true ->
  exists i : nat, _highRiskIndexPlusOne s @@ t = Z.of_nat i + 1 /\
                  _highRiskBatchIds s !! i = Some t /\
                  (i < length (_highRiskBatchIds s))%nat.
Proof.
  intros [[Hpos Hnn] Hflag] Ht. apply Hflag in Ht. specialize (Hnn t).
  exists (Z.to_nat (_highRiskIndexPlusOne s @@ t - 1)).
  assert (_highRiskIndexPlusOne s @@ t =
          Z.of_nat (Z.to_nat (_highRiskIndexPlusOne s @@ t - 1)) + 1) as Heq by lia.
  split; [done|]. apply Hpos in Heq as Hl. split; [done|]. by eapply lookup_lt_Some.
Qed.

Lemma setHighRisk_total t b s l :
  hr_coherent s -> wpt (_setHighRisk t b) (fun _ s' _ => hr_coherent s') s l.
Proof.
  intros Hc. unfold _setHighRisk. wpt_go.
  destruct (eqb _ b) eqn:Heqb; [by wpt_go|].
  apply eqb_false_iff in Heqb. wpt_go.
  destruct b.
  - (* push *)
    assert (flagged s t = false) as Hf by (unfold flagged; by destruct (Batch.flaggedHighRisk _)).
    wpt_go. destruct Hc as [Hidx Hflag]. split; norm_state.
    + apply index_coherent_push; [done|].
      destruct (decide (_highRiskIndexPlusOne s @@ t = 0)) as [|Hne]; [done|].
      apply Hflag in Hne. congruence.
    + intros t'. unfold flagged. norm_state. rewrite !sload_insert, length_app. simpl.
      case_decide; subst; [split; [lia | done] | apply Hflag].
  - (* swap-remove *)
    assert (flagged s t = true) as Hf by (unfold flagged; by destruct (Batch.flaggedHighRisk _)).
    destruct (hr_coherent_position _ _ Hc Hf) as (i & Hi & Hit & Hilt).
    destruct Hc as [Hidx Hflag]. wpt_go.
    rewrite Hi. replace (0 <? Z.of_nat i + 1) with true by (symmetry; apply Z.ltb_lt; lia).
    replace (Z.of_nat i + 1 - 1) with (Z.of_nat i) by lia.
    wpt_go. eapply wpt_bind_lift.
    { unfold checked_sub. case_match; [reflexivity | lia]. }
    destruct (Z.eqb_spec (Z.of_nat i) (Z.of_nat (length (_highRiskBatchIds s)) - 1)) as [Hlast|Hnl].
    + wpt_go. destruct (_highRiskBatchIds s) as [|x arr] eqn:Harr; [simpl in Hilt; lia|].
      rewrite <- Harr in *. wpt_go. split; norm_state.
      * apply index_coherent_pop; [done | lia | lia].
      * intros t'. unfold flagged. norm_state. rewrite !sload_insert.
        case_decide; subst; [split; [done | lia] | apply Hflag].
    + apply wpt_bind_assoc.
      replace (Z.to_nat (Z.of_nat (length (_highRiskBatchIds s)) - 1))
        with (length (_highRiskBatchIds s) - 1)%nat by lia.
      destruct (_highRiskBatchIds s !! (length (_highRiskBatchIds s) - 1)%nat) as [m|] eqn:Hm.
      2:{ apply lookup_ge_None in Hm. lia. }
      replace (Z.of_nat i <? Z.of_nat (length (_highRiskBatchIds s))) with true
        by (symmetry; apply Z.ltb_lt; lia).
      rewrite Nat2Z.id. wpt_go.
      destruct (<[i:=m]> (_highRiskBatchIds s)) as [|x arr] eqn:Harr.
      { apply (f_equal length) in Harr. rewrite length_insert in Harr. simpl in Harr. lia. }
      rewrite <- Harr. wpt_go. split; norm_state.
      * apply index_coherent_swap; [done | done | lia | done].
      * intros t'. unfold flagged. norm_state. rewrite !sload_insert.
        assert (_highRiskIndexPlusOne s @@ m <> 0) as Hmz.
        { destruct Hidx as [Hpos _]. apply Hpos in Hm. lia. }
        repeat case_decide; subst; try (split; [done | lia]).
        -- split; [lia|]. intros _. by apply Hflag.
        -- apply Hflag.
Qed.

Lemma setHighRisk_coherent t b s l u s' l' :
  _setHighRisk t b s l = Ok (u, s', l') -> hr_coherent s -> hr_coherent s'.
Proof.
  intros Hrun Hc. destruct (wpt_elim _ _ _ _ (setHighRisk_total t b s l Hc))
    as (u' & s'' & l'' & Hrun' & Hc'). congruence.
Qed.

Lemma setHighRisk_succeeds t b s l :
  hr_coherent s -> exists s' l', _setHighRisk t b s l = Ok (tt, s', l').
Proof.
  intros Hc. destruct (wpt_elim _ _ _ _ (setHighRisk_total t b s l Hc))
    as ([] & s' & l' & Hrun & _). eauto.
Qed.

(** [_setHighRisk] inside a caller: replace its result by the frame
    description and keep what it does to a coherent index. *)
Ltac wp_hr :=
  wp_unfold_head;
  lazymatch goal with
  | |- wp (bind (_setHighRisk _ _) _) _ _ _ =>
      apply wp_bind_eqn;
      let H := fresh "Hhr" in
      intros [] ? ? H;
      destruct (setHighRisk_frame _ _ _ _ _ _ _ H)
        as [(? & -> & ->) | (? & -> & ? & ? & ->)];
      clear H; unfold hr_written, flagged in *; norm_state
  end.

Ltac wp_run := repeat (first [wp_hr | wp_step]; cbv zeta).

(** Enter the symbolic execution of a successful call. *)
Ltac wp_start Hrun Q :=
  revert Hrun; unfold run; apply (wp_elim _ Q).

Lemma neutral_ret {A} (a : A) : neutral (ret a).
Proof. intros s l a' s' l' [= _ -> _]. done. Qed.

Lemma neutral_revert {A} e : neutral (@revert A e).
Proof. by intros s l a' s' l'. Qed.

Lemma neutral_require c r : neutral (require c r).
Proof. destruct c; [apply neutral_ret | apply neutral_revert]. Qed.

Lemma neutral_lift {A} (r : Result A) : neutral (lift r).
Proof. intros s l a s' l'. unfold lift. destruct r; [by intros [= _ -> _] | done]. Qed.

Lemma neutral_call_value env to amount : neutral (call_value env to amount).
Proof.
  intros s l a s' l'. unfold call_value. by destruct (call_succeeds _ _ _); intros [= _ -> _].
Qed.

Lemma neutral_bind {A B} (m : M A) (k : A -> M B) :
  neutral m -> (forall a, neutral (k a)) -> neutral (bind m k).
Proof.
  intros Hm Hk s l b s' l'. unfold bind.
  destruct (m s l) as [[[a s1] l1]|] eqn:Hrun; [|done].
  apply Hm in Hrun as ->. apply Hk.
Qed.

Lemma neutral_when c m : neutral m -> neutral (when c m).
Proof. intros Hm. destruct c; [done | apply neutral_ret]. Qed.

Lemma neutral_if {A} (c : bool) (m1 m2 : M A) :
  neutral m1 -> neutral m2 -> neutral (if c then m1 else m2).
Proof. by destruct c. Qed.

Lemma wp_skip_neutral {A B} (m : M A) (k : A -> M B) Q s l :
  neutral m -> (forall a l', wp (k a) Q s l') -> wp (bind m k) Q s l.
Proof.
  intros Hm Hk. apply wp_bind_eqn. intros a s' l' Hrun.
  apply Hm in Hrun as ->. apply Hk.
Qed.

Ltac solve_neutral :=
  wp_unfold_head;
  repeat first
    [ apply neutral_ret | apply neutral_revert | apply neutral_require
    | apply neutral_lift | apply neutral_call_value
    | apply neutral_when | apply neutral_if
    | apply neutral_bind; [|intros ?] ].

(** As [wp_step], for properties of the storage alone: a guard, a
    cooldown check or a value transfer is passed without forking. *)
Ltac wp_step_storage :=
  wp_unfold_head;
  lazymatch goal with
  | |- wp (bind (when _ (bind (call_value _ _ _) _)) _) _ _ _ =>
      apply wp_skip_neutral; [solve_neutral | intros [] ?]
  | |- wp (bind (bind (call_value _ _ _) _) _) _ _ _ =>
      apply wp_skip_neutral; [solve_neutral | intros [] ?]
  | |- wp (bind (when _ (require _ _)) _) _ _ _ =>
      apply wp_skip_neutral; [solve_neutral | intros [] ?]
  | |- wp (bind (if _ then ret tt else bind (lift _) _) _) _ _ _ =>
      apply wp_skip_neutral; [solve_neutral | intros [] ?]
  end.

Ltac wp_run_storage := repeat (first [wp_step_storage | wp_hr | wp_step]; cbv zeta).

Ltac unfold_calls :=
  unfold execute, receive, registerManufacturer, registerLab, setInspector,
    setReporterBlocked, setPolicyParameters, fundBountyPool, withdrawBountyPool,
    mintBatch, mintBatchWithCompliance, transferToNextOwner, recordCustodyCheckpoint,
    submitLabAttestation, updateFederatedModel, setBatchQuarantine,
    reportSuspiciousBatch, resolveReport, pause, unpause, grantRole, revokeRole,
    renounceRole, transferFrom.

Ltac bool_hyps :=
  repeat match goal with
  | H : negb _ && _ = true |- _ => apply andb_true_iff in H; destruct H
  | H : (_ && _) = true |- _ => apply andb_true_iff in H; destruct H
  | H : negb _ = true |- _ => apply negb_true_iff in H
  | H : bool_decide _ = true |- _ => apply bool_decide_eq_true in H
  | H : (_ =? _) = true |- _ => apply Z.eqb_eq in H
  | H : (_ =? _) = false |- _ => apply Z.eqb_neq in H
  | H : (_ <=? _) = true |- _ => apply Z.leb_le in H
  | H : (_ <=? _) = false |- _ => apply Z.leb_gt in H
  | H : (_ <? _) = true |- _ => apply Z.ltb_lt in H
  | H : (_ <? _) = false |- _ => apply Z.ltb_ge in H
  end.

Lemma pool_inv_step s s' : step s s' -> pool_inv s -> pool_inv s'.
Proof.
  intros (env & c & l & Henv & Hc & Hrun) (Hpool & Hbps & Hbase & Hrep).
  wp_start Hrun (fun (_ : unit) s' (_ : list Effect) => pool_inv s').
  unfold pool_inv.
  destruct c; unfold_calls; simpl in Hc; wp_run_storage.
  all: checked_inv; norm_state; bool_hyps.
  all: unfold in_uint in *.
  all: split_and!; try lia.
  all: try (intros id0; rewrite ?sload_insert;
            repeat case_decide; subst; norm_rec; first [apply Hrep | lia]).
  all: try (destruct (Hrep reportId) as [Hstake _]; apply Z.add_nonneg_nonneg; [done|];
            apply Z.div_pos; [by apply Z.mul_nonneg_nonneg | done]).
Qed.

Lemma entered_step s s' : step s s' -> _entered s = false -> _entered s' = false.
Proof.
  intros (env & c & l & Henv & Hc & Hrun) Hent.
  wp_start Hrun (fun (_ : unit) s' (_ : list Effect) => _entered s' = false).
  destruct c; unfold_calls; wp_run_storage; norm_state; done.
Qed.

Lemma report_known s id :
  (FakeReport.reporter (reports s @@ id) =? 0) = false -> reports s !! id <> None.
Proof.
  unfold sload. destruct (reports s !! id); [done|]. by cbn.
Qed.

Lemma report_known_ne s id :
  FakeReport.reporter (reports s @@ id) <> 0 -> reports s !! id <> None.
Proof. intros H. apply report_known. by apply Z.eqb_neq. Qed.

Lemma ids_inv_step s s' : step s s' -> ids_inv s -> ids_inv s'.
Proof.
  intros (env & c & l & Henv & Hc & Hrun) Hids.
  wp_start Hrun (fun (_ : unit) s' (_ : list Effect) => ids_inv s').
  unfold ids_inv in *.
  destruct c; unfold_calls; wp_run_storage; checked_inv; norm_state; try done.
  all: intros id0 Hid0.
  all: try (rewrite lookup_insert_ne by lia; apply Hids; lia).
  all: match goal with
       | H : negb (FakeReport.reporter _ =? 0) = true |- _ =>
           apply negb_true_iff, report_known in H
       end.
  all: rewrite lookup_insert_ne; [by apply Hids|].
  all: intros ->; by apply Hids in Hid0.
Qed.

Ltac norm_rec_in_all :=
  repeat match goal with
  | H : _ |- _ => progress norm_rec_in H
  end.

Ltac norm_all :=
  unfold _ownerOf, hasRole in *; norm_state;
  repeat match goal with
  | H : _ |- _ => progress norm_state_in H
  end.

Lemma exists_inv_step s s' : step s s' -> exists_inv s -> exists_inv s'.
Proof.
  intros (env & c & l & Henv & Hc & Hrun) (Hrep & Hbat).
  wp_start Hrun (fun (_ : unit) s' (_ : list Effect) => exists_inv s').
  unfold exists_inv in *.
  destruct c; unfold_calls; wp_run_storage; checked_inv; norm_all.
  all: try (split; assumption).
  all: split; [intros id0 Hid0 | intros t0 Ht0].
  all: repeat match goal with
       | H : negb (_ =? 0) = true |- _ => apply negb_true_iff in H
       | H : (_ =? 0) = false |- _ => apply Z.eqb_neq in H
       | H : (_ =? 0) = true |- _ => apply Z.eqb_eq in H
       | H : (_ =? _) = true |- _ => apply Z.eqb_eq in H
       end.
  all: try match goal with
       | H : FakeReport.reporter (reports _ @@ ?id) <> 0 |- _ =>
           pose proof (Hrep id (report_known_ne _ _ H))
       end.
  all: rewrite ?sload_insert, ?lookup_insert in *.
  all: repeat case_decide; subst; norm_rec; try done.
  all: try (by apply Hrep).
  all: try (by apply Hbat).
Qed.

Lemma dec_floor_pos_inv x : 0 < dec_floor x -> 0 < x.
Proof. pose proof (dec_floor_le x). lia. Qed.

Lemma flag_inv_step s s' : step s s' -> flag_inv s -> flag_inv s'.
Proof.
  intros (env & c & l & Henv & Hc & Hrun) Hflag.
  wp_start Hrun (fun (_ : unit) s' (_ : list Effect) => flag_inv s').
  unfold flag_inv, flagged in *.
  destruct c; unfold_calls; wp_run_storage; checked_inv; norm_all; try done.
  all: intros t0; specialize (Hflag t0) as Hflag0.
  all: rewrite ?sload_insert in *.
  all: repeat case_decide; subst; norm_rec; norm_rec_in Hflag0; try done.
  all: repeat match goal with
       | H : negb _ && _ = true |- _ => apply andb_true_iff in H; destruct H
       | H : negb _ = true |- _ => apply negb_true_iff in H
       | H : (_ =? 0) = true |- _ => apply Z.eqb_eq in H
       end.
  all: norm_rec_in_all.
  all: destruct Hflag0 as [Hq Hp]; split; intros Hx;
       first [done | by apply Hq | by apply Hp | congruence | lia
             | apply dec_floor_pos_inv in Hx; by apply Hp].
Qed.

Lemma hr_coherent_ext s1 s2 :
  hr_coherent s1 ->
  _highRiskBatchIds s2 = _highRiskBatchIds s1 ->
  _highRiskIndexPlusOne s2 = _highRiskIndexPlusOne s1 ->
  (forall t, flagged s2 t = flagged s1 t) ->
  hr_coherent s2.
Proof.
  unfold hr_coherent. intros [Hidx Hflag] -> -> Hfl. split; [done|].
  intros t. rewrite Hfl. apply Hflag.
Qed.

(** As [wp_hr], keeping the effect of [_setHighRisk] on a coherent index. *)
Ltac wp_hr_coh :=
  wp_unfold_head;
  lazymatch goal with
  | |- wp (bind (_setHighRisk _ _) _) _ _ _ =>
      apply wp_bind_eqn;
      let H := fresh "Hhr" in
      let Hc := fresh "Hcoh" in
      intros [] ? ? H;
      pose proof (setHighRisk_coherent _ _ _ _ _ _ _ H) as Hc;
      clear H
  end.

Ltac wp_run_coh := repeat (first [wp_step_storage | wp_hr_coh | wp_step]; cbv zeta).

Ltac flags_same :=
  intros ?; unfold flagged; norm_state; rewrite ?sload_insert;
  repeat case_decide; subst; norm_rec; try reflexivity.

Lemma hr_coherent_step s s' : step s s' -> exists_inv s -> hr_coherent s -> hr_coherent s'.
Proof.
  intros (env & c & l & Henv & Hc & Hrun) [_ Hbat] Hcoh0.
  wp_start Hrun (fun (_ : unit) s' (_ : list Effect) => hr_coherent s').
  destruct c; unfold_calls; wp_run_coh; checked_inv; norm_all; try done.
  all: try match goal with
       | Hcoh : hr_coherent _ -> hr_coherent _ |- _ =>
           eapply hr_coherent_ext;
           [apply Hcoh; eapply hr_coherent_ext; [exact Hcoh0 | ..] | ..]
       end.
  all: try (eapply hr_coherent_ext; [exact Hcoh0 | ..]).
  all: try (norm_state; reflexivity).
  all: try (by flags_same).
  all: flags_same.
  all: apply Z.eqb_eq, Hbat in Heqb2; by rewrite Heqb2.
Qed.

Lemma count_insert_new t (m : gmap Z FakeReport.t) id r :
  m !! id = None ->
  size (filter (pending_severe_on t) (<[id := r]> m))
  = if decide (pending_severe_on t (id, r))
    then S (size (filter (pending_severe_on t) m))
    else size (filter (pending_severe_on t) m).
Proof.
  intros Hnone. case_decide as HP.
  - rewrite map_filter_insert_True by done.
    rewrite map_size_insert_None; [done|].
    apply map_lookup_filter_None. by left.
  - rewrite map_filter_insert_not'; [done | done |]. intros y Hy. congruence.
Qed.

Lemma count_insert_settled t (m : gmap Z FakeReport.t) id r' :
  ~ pending_severe_on t (id, r') ->
  Z.of_nat (size (filter (pending_severe_on t) (<[id := r']> m)))
  = if decide (m !! id <> None /\ pending_severe_on t (id, m @@ id))
    then Z.of_nat (size (filter (pending_severe_on t) m)) - 1
    else Z.of_nat (size (filter (pending_severe_on t) m)).
Proof.
  intros HP. rewrite map_filter_insert_False by done.
  rewrite map_filter_delete, map_size_delete.
  destruct (filter (pending_severe_on t) m !! id) as [r|] eqn:Hf.
  - apply map_lookup_filter_Some in Hf as [Hm Hr].
    rewrite decide_True by (rewrite (sload_Some _ _ _ Hm); split; [congruence | done]).
    assert (size (filter (pending_severe_on t) m) <> 0%nat) as Hsz.
    { apply (map_size_ne_0_lookup_2 _ id). exists r. by apply map_lookup_filter_Some_2. }
    simpl. lia.
  - rewrite decide_False; [done|]. intros [Hm Hr].
    apply map_lookup_filter_None in Hf as [Hf|Hf]; [done|].
    destruct (m !! id) as [r|] eqn:Hmid; [|done].
    rewrite (sload_Some _ _ _ Hmid) in Hr. by eapply Hf.
Qed.

Lemma count_none t (m : gmap Z FakeReport.t) :
  (forall id, m !! id <> None -> FakeReport.tokenId (m @@ id) <> t) ->
  size (filter (pending_severe_on t) m) = 0%nat.
Proof.
  intros Hno. apply map_size_empty_iff, map_empty_filter.
  intros id r Hr [Ht _]. simpl in Ht.
  apply (Hno id); [congruence|]. by rewrite (sload_Some _ _ _ Hr).
Qed.

Lemma count_pos t (m : gmap Z FakeReport.t) id r :
  m !! id = Some r -> pending_severe_on t (id, r) ->
  0 < Z.of_nat (size (filter (pending_severe_on t) m)).
Proof.
  intros Hm HP.
  assert (size (filter (pending_severe_on t) m) <> 0%nat); [|lia].
  apply (map_size_ne_0_lookup_2 _ id). exists r. by apply map_lookup_filter_Some_2.
Qed.

Lemma pending_severe_on_settled t id r st :
  st <> Pending -> ~ pending_severe_on t (id, FakeReport.set_status st r).
Proof. intros Hst (_ & Hp & _). by norm_rec_in Hp. Qed.

Ltac unfold_pending :=
  repeat match goal with
  | H : pending_severe_on _ _ |- _ =>
      unfold pending_severe_on in H; cbn [snd] in H; norm_rec_in H
  | H : ~ pending_severe_on _ _ |- _ =>
      unfold pending_severe_on in H; cbn [snd] in H; norm_rec_in H
  end.

Lemma count_inv_step s s' :
  step s s' -> ids_inv s -> exists_inv s -> count_inv s -> count_inv s'.
Proof.
  intros (env & c & l & Henv & Hc & Hrun) Hids [Hrep Hbat] Hcount.
  wp_start Hrun (fun (_ : unit) s' (_ : list Effect) => count_inv s').
  unfold count_inv, pending_severe_count, ids_inv in *.
  destruct c; unfold_calls; wp_run_storage; checked_inv; norm_all; try done.
  all: intros t0; specialize (Hcount t0) as Hcount0.
  all: try (rewrite ?sload_insert; repeat case_decide; subst; norm_rec; exact Hcount0).
  all: bool_hyps.
  (* minting: no report refers to the fresh token *)
  1-2: rewrite sload_insert; case_decide; subst; norm_rec; [|done];
       rewrite count_none; [done|]; intros id Hid Ht; apply (Hrep id Hid); congruence.
  (* a new report *)
  all: try (rewrite count_insert_new by (apply Hids; lia);
            rewrite ?sload_insert;
            repeat case_decide; subst; norm_rec; unfold_pending; destruct_and?;
            first [lia | exfalso; intuition (congruence || lia)]).
  (* a settled report *)
  all: rewrite count_insert_settled by (by apply pending_severe_on_settled).
  all: match goal with
       | H : FakeReport.reporter (reports _ @@ ?id) <> 0 |- _ =>
           pose proof (report_known_ne _ _ H) as Hknown
       end.
  all: rewrite ?sload_insert; repeat case_decide; subst; norm_rec; destruct_and?.
  all: try match goal with
       | H : pending_severe_on _ (?id, reports ?s0 @@ ?id) |- _ =>
           let r := fresh "r" in
           let Hr := fresh "Hr" in
           destruct (reports s0 !! id) as [r|] eqn:Hr; [|done];
           rewrite (sload_Some _ _ _ Hr) in *;
           pose proof (count_pos _ _ _ _ Hr H)
       end.
  all: repeat match goal with
       | |- context [size (filter ?P ?m)] =>
           let n := fresh "n" in set (n := size (filter P m)) in *; clearbody n
       end.
  all: unfold pending_severe_on in *; cbn [snd] in *.
  all: try first [lia | rewrite dec_floor_pos by lia; lia | exfalso; intuition (congruence || lia)].
Qed.

(** ** The ledger invariant *)

Lemma ledger_inv_init deployer : ledger_inv (constructor deployer).
Proof.
  unfold ledger_inv, pool_inv, ids_inv, exists_inv, flag_inv, count_inv, hr_coherent,
    index_coherent, flagged, pending_severe_count, _ownerOf, constructor.
  norm_state. repeat split; intros; rewrite ?sload_empty, ?lookup_empty in *;
    try done; try (unfold zero_value, Z_zero in *; lia).
Qed.

Lemma ledger_inv_step s s' : step s s' -> ledger_inv s -> ledger_inv s'.
Proof.
  intros Hstep (Hent & Hpool & Hids & Hex & Hflag & Hcount & Hcoh).
  unfold ledger_inv. split_and!.
  - by eapply entered_step.
  - by eapply pool_inv_step.
  - by eapply ids_inv_step.
  - by eapply exists_inv_step.
  - by eapply flag_inv_step.
  - by eapply count_inv_step.
  - by eapply hr_coherent_step.
Qed.

Lemma ledger_inv_reachable s : reachable s -> ledger_inv s.
Proof.
  induction 1 as [deployer _ | s s' _ IH Hstep].
  - apply ledger_inv_init.
  - by eapply ledger_inv_step.
Qed.

Lemma reachable_later s s' : reachable s -> later s s' -> reachable s'.
Proof. intros Hs. induction 1; [done | by eapply reachable_step]. Qed.

Lemma later_trans s1 s2 s3 : later s1 s2 -> later s2 s3 -> later s1 s3.
Proof. intros H12. induction 1; [done | by eapply later_step]. Qed.

Lemma later_one s s' : step s s' -> later s s'.
Proof. intros. eapply later_step; [apply later_refl | done]. Qed.

(** ** Logs *)

Lemma transfers_app l1 l2 : transfers (l1 ++ l2) = transfers l1 ++ transfers l2.
Proof. unfold transfers. apply omap_app. Qed.

Lemma events_app l1 l2 : events (l1 ++ l2) = events l1 ++ events l2.
Proof. unfold events. apply omap_app. Qed.

Lemma transfers_snoc_emit l e : transfers (l ++ [Emit e]) = transfers l.
Proof. rewrite transfers_app. simpl. apply app_nil_r. Qed.

Lemma transfers_snoc_send l to amount :
  transfers (l ++ [SendValue to amount]) = transfers l ++ [(to, amount)].
Proof. by rewrite transfers_app. Qed.

Lemma events_snoc_emit l e : events (l ++ [Emit e]) = events l ++ [e].
Proof. by rewrite events_app. Qed.

Lemma events_snoc_send l to amount : events (l ++ [SendValue to amount]) = events l.
Proof. rewrite events_app. simpl. apply app_nil_r. Qed.

Ltac norm_log :=
  cbn [app]; unfold transfers, events; cbn [omap list_omap last].

(** ** The rejected branch of [resolveReport] *)

Lemma resolve_rejected_spec env reportId s s' l :
  run (resolveReport env reportId false) s = Ok (tt, s', l) ->
  let report := reports s @@ reportId in
  let who := FakeReport.reporter report in
  let stake := FakeReport.stakeAmount report in
  let slashed := stake * falseReportSlashBps s / BPS_DENOMINATOR in
  let payout := stake - slashed in
  bountyPoolWei s' = bountyPoolWei s + slashed /\
  transfers l = (if 0 <? payout then [(who, payout)] else []) /\
  last (events l)
    = Some (ReportResolved reportId false payout
              (ReporterProfile.reputation (reporterProfiles s' @@ who))) /\
  ReporterProfile.reputation (reporterProfiles s' @@ who)
    = ReporterProfile.reputation (reporterProfiles s @@ who)
      - (12 + FakeReport.severity report * 6) /\
  FakeReport.status (reports s' @@ reportId) = RejectedFalse /\
  FakeReport.status report = Pending /\
  slashed <= stake.
Proof.
  intros Hrun. cbv zeta.
  wp_start Hrun (fun (_ : unit) s' l =>
    bountyPoolWei s' = bountyPoolWei s
      + FakeReport.stakeAmount (reports s @@ reportId) * falseReportSlashBps s
        / BPS_DENOMINATOR /\
    transfers l = (if 0 <? FakeReport.stakeAmount (reports s @@ reportId)
                     - FakeReport.stakeAmount (reports s @@ reportId)
                       * falseReportSlashBps s / BPS_DENOMINATOR
                   then [(FakeReport.reporter (reports s @@ reportId),
                          FakeReport.stakeAmount (reports s @@ reportId)
                          - FakeReport.stakeAmount (reports s @@ reportId)
                            * falseReportSlashBps s / BPS_DENOMINATOR)]
                   else []) /\
    last (events l)
      = Some (ReportResolved reportId false
                (FakeReport.stakeAmount (reports s @@ reportId)
                 - FakeReport.stakeAmount (reports s @@ reportId)
                   * falseReportSlashBps s / BPS_DENOMINATOR)
                (ReporterProfile.reputation
                   (reporterProfiles s' @@ FakeReport.reporter (reports s @@ reportId)))) /\
    ReporterProfile.reputation
      (reporterProfiles s' @@ FakeReport.reporter (reports s @@ reportId))
      = ReporterProfile.reputation
          (reporterProfiles s @@ FakeReport.reporter (reports s @@ reportId))
        - (12 + FakeReport.severity (reports s @@ reportId) * 6) /\
    FakeReport.status (reports s' @@ reportId) = RejectedFalse /\
    FakeReport.status (reports s @@ reportId) = Pending /\
    FakeReport.stakeAmount (reports s @@ reportId) * falseReportSlashBps s
      / BPS_DENOMINATOR <= FakeReport.stakeAmount (reports s @@ reportId)).
  unfold resolveReport. wp_run. 
  all: checked_inv; norm_all; norm_rec; norm_rec_in_all; bool_hyps.
  all: norm_log.
  all: split_and!; try done; try lia.
  all: case_match; bool_hyps; first [done | lia].
Qed.

(** ** The confirmed branch of [resolveReport] *)

Lemma resolve_confirmed_spec env reportId s s' l :
  pool_inv s ->
  run (resolveReport env reportId true) s = Ok (tt, s', l) ->
  confirmed_post reportId s s' l.
Proof.
  intros (Hpool & _ & Hbase & Hrep) Hrun.
  destruct (Hrep reportId) as [Hstake Hsev].
  wp_start Hrun (fun (_ : unit) s' l => confirmed_post reportId s s' l).
  unfold resolveReport, confirmed_post, flagged. wp_run.
  all: checked_inv; norm_all; norm_rec; norm_rec_in_all; bool_hyps.
  all: norm_log.
  all: repeat match goal with
       | H : context [if ?c then _ else _] |- _ => destruct c eqn:?
       end; bool_hyps.
  all: assert (0 <= baseRewardWei s * FakeReport.severity (reports s @@ reportId))
         by (apply Z.mul_nonneg_nonneg; lia).
  all: split_and!; try done; try lia.
  all: try (case_match; bool_hyps; first [done | lia | repeat f_equal; lia]).
  all: try (repeat f_equal; lia).
Qed.

(** ** Nullifiers *)

Lemma nullifier_step s s' n :
  step s s' -> identityNullifierUsed s @@ n = true -> identityNullifierUsed s' @@ n = true.
Proof.
  intros (env & c & l & Henv & Hc & Hrun) Hused.
  wp_start Hrun (fun (_ : unit) s' (_ : list Effect) =>
    identityNullifierUsed s' @@ n = true).
  destruct c; unfold_calls; wp_run_storage; norm_all; try done.
  all: rewrite sload_insert; by case_decide.
Qed.

Lemma nullifier_later s s' n :
  later s s' -> identityNullifierUsed s @@ n = true -> identityNullifierUsed s' @@ n = true.
Proof. induction 1; [done | intros; eapply nullifier_step; eauto]. Qed.

Lemma report_marks_nullifier env v t n e r sev s id s' l :
  run (reportSuspiciousBatch env v t n e r sev) s = Ok (id, s', l) ->
  identityNullifierUsed s' @@ n = true /\ n <> 0 /\ identityNullifierUsed s @@ n = false.
Proof.
  intros Hrun.
  wp_start Hrun (fun (_ : Z) s' (_ : list Effect) =>
    identityNullifierUsed s' @@ n = true /\ n <> 0 /\ identityNullifierUsed s @@ n = false).
  unfold reportSuspiciousBatch. wp_run_storage; norm_all; bool_hyps.
  all: by rewrite ?sload_insert_eq.
Qed.

Lemma report_fails_on_used_nullifier env v t n e r sev s :
  identityNullifierUsed s @@ n = true ->
  fails (reportSuspiciousBatch env v t n e r sev) s.
Proof.
  intros Hused. apply wp_fails.
  unfold reportSuspiciousBatch. wp_run_storage; norm_all; bool_hyps. all: congruence.
Qed.

(** ** Reachability of the concrete deployment *)

Lemma reachable_transact env c s :
  reachable s -> wf_env env -> wf_call c -> reachable (transact (execute env c) s).
Proof.
  intros Hs Henv Hc. unfold transact.
  destruct (run (execute env c) s) as [[[[] s'] l]|] eqn:Hrun; [|done].
  eapply reachable_step; [done|]. by exists env, c, l.
Qed.

Ltac solve_range :=
  unfold wf_env, wf_call, in_uint, in_int256; vm_compute;
  repeat split; discriminate.

Ltac reach_step := apply reachable_transact; [| solve_range | solve_range].

Lemma reachable_sc_deployed : reachable sc_deployed.
Proof. apply reachable_init. solve_range. Qed.

Lemma reachable_sc_minted : reachable sc_minted.
Proof. unfold sc_minted. reach_step. apply reachable_sc_deployed. Qed.

Lemma reachable_sc_funded : reachable sc_funded.
Proof. unfold sc_funded. reach_step. apply reachable_sc_minted. Qed.

Lemma reachable_sc_reported : reachable sc_reported.
Proof. unfold sc_reported. reach_step. apply reachable_sc_funded. Qed.

(** * The claims *)

(** C1. A report resolved with [confirmedFake = false]: the slashed amount
    is [floor (stakeAmount * falseReportSlashBps / 10000)], the pool grows
    by exactly that amount, the reporter is paid the stake minus the
    slashed amount (so the stake is the payout plus the pool credit), and
    the reporter's reputation drops by exactly [12 + severity * 6]. *)
Theorem resolve_rejected_conserves_stake env reportId s s' l :
  run (resolveReport env reportId false) s = Ok (tt, s', l) ->
  let report := reports s @@ reportId in
  let who := FakeReport.reporter report in
  let stake := FakeReport.stakeAmount report in
  let slashed := stake * falseReportSlashBps s / 10000 in
  let payout := stake - slashed in
  bountyPoolWei s' = bountyPoolWei s + slashed /\
  stake = payout + slashed /\
  transfers l = (if 0 <? payout then [(who, payout)] else []) /\
  (exists newReputation,
     last (events l) = Some (ReportResolved reportId false payout newReputation)) /\
  ReporterProfile.reputation (reporterProfiles s' @@ who)
    = ReporterProfile.reputation (reporterProfiles s @@ who)
      - (12 + FakeReport.severity report * 6).
Proof.
  intros Hrun. apply resolve_rejected_spec in Hrun. cbv zeta in *.
  unfold BPS_DENOMINATOR in Hrun.
  destruct Hrun as (Hpool & Htr & Hev & Hrep & _).
  split_and!; [done | lia | done | eauto | done].
Qed.

Lemma resolve_rejected_conserves_stake_witness :
  run (resolveReport (env_at regulator 2000) 0 false) sc_reported
    = Ok (tt, sc_rejected, log_of (resolveReport (env_at regulator 2000) 0 false) sc_reported)
  /\ bountyPoolWei sc_rejected = 1000 * ether_milli + 3500000000000000
  /\ transfers (log_of (resolveReport (env_at regulator 2000) 0 false) sc_reported)
     = [(alice, 1500000000000000)]
  /\ ReporterProfile.reputation (reporterProfiles sc_rejected @@ alice) = -24.
Proof.
  assert (run (resolveReport (env_at regulator 2000) 0 false) sc_reported
    = Ok (tt, sc_rejected, log_of (resolveReport (env_at regulator 2000) 0 false) sc_reported))
    as Hrun by (vm_compute; reflexivity).
  split; [exact Hrun|].
  destruct (resolve_rejected_conserves_stake _ _ _ _ _ Hrun) as (Hpool & _ & Htr & _ & Hrep).
  split; [|split].
  - rewrite Hpool. vm_compute. reflexivity.
  - rewrite Htr. vm_compute. reflexivity.
  - vm_compute in Hrep |- *. exact Hrep.
Defined.

Lemma withdraw_spec env amount to s s' l :
  run (withdrawBountyPool env amount to) s = Ok (tt, s', l) ->
  amount <= bountyPoolWei s /\ bountyPoolWei s' = bountyPoolWei s - amount.
Proof.
  intros Hrun.
  wp_start Hrun (fun (_ : unit) s' (_ : list Effect) =>
    amount <= bountyPoolWei s /\ bountyPoolWei s' = bountyPoolWei s - amount).
  unfold withdrawBountyPool. wp_run_storage; checked_inv; norm_all; bool_hyps; done.
Qed.

(** C2. A report resolved with [confirmedFake = true]: the reporter's
    reputation grows by exactly [10 + severity * 4], the payout is the
    stake plus [min (baseRewardWei * severity) pool], and the pool is
    debited by exactly that reward. Every debit of the pool, here and in
    [withdrawBountyPool], is bounded by the balance at call time, and the
    balance is never negative in a reachable state. *)
Theorem resolve_confirmed_pays_bounded_reward env reportId s s' l :
  reachable s ->
  run (resolveReport env reportId true) s = Ok (tt, s', l) ->
  let report := reports s @@ reportId in
  let who := FakeReport.reporter report in
  let stake := FakeReport.stakeAmount report in
  let reward := Z.min (baseRewardWei s * FakeReport.severity report) (bountyPoolWei s) in
  let payout := stake + reward in
  (ReporterProfile.reputation (reporterProfiles s' @@ who)
     = ReporterProfile.reputation (reporterProfiles s @@ who)
       + (10 + FakeReport.severity report * 4) /\
   transfers l = (if 0 <? payout then [(who, payout)] else []) /\
   (exists newReputation,
      last (events l) = Some (ReportResolved reportId true payout newReputation)) /\
   0 <= reward <= bountyPoolWei s /\
   bountyPoolWei s' = bountyPoolWei s - reward /\
   0 <= bountyPoolWei s') /\
  (forall env0 amount to s0 s1 l1,
     run (withdrawBountyPool env0 amount to) s0 = Ok (tt, s1, l1) ->
     amount <= bountyPoolWei s0 /\ bountyPoolWei s1 = bountyPoolWei s0 - amount) /\
  (forall s0, reachable s0 -> 0 <= bountyPoolWei s0).
Proof.
  intros Hs Hrun. cbv zeta.
  pose proof (ledger_inv_reachable _ Hs) as (_ & Hpool & _).
  destruct (resolve_confirmed_spec _ _ _ _ _ Hpool Hrun)
    as (Hrep & Hreward & Hdebit & Htr & Hev & _).
  split_and!; try done; try lia; eauto.
  - intros. by eapply withdraw_spec.
  - intros s0 Hs0. by apply ledger_inv_reachable in Hs0 as (_ & (? & _) & _).
Qed.

Lemma resolve_confirmed_pays_bounded_reward_witness :
  reachable sc_reported
  /\ run (resolveReport (env_at regulator 2000) 0 true) sc_reported
     = Ok (tt, sc_confirmed, log_of (resolveReport (env_at regulator 2000) 0 true) sc_reported)
  /\ bountyPoolWei sc_confirmed = 1000 * ether_milli - 4 * ether_milli
  /\ transfers (log_of (resolveReport (env_at regulator 2000) 0 true) sc_reported)
     = [(alice, 9 * ether_milli)]
  /\ ReporterProfile.reputation (reporterProfiles sc_confirmed @@ alice) = 18.
Proof.
  assert (run (resolveReport (env_at regulator 2000) 0 true) sc_reported
    = Ok (tt, sc_confirmed, log_of (resolveReport (env_at regulator 2000) 0 true) sc_reported))
    as Hrun by (vm_compute; reflexivity).
  split; [exact reachable_sc_reported|]. split; [exact Hrun|].
  destruct (resolve_confirmed_pays_bounded_reward _ _ _ _ _ reachable_sc_reported Hrun)
    as ((Hrep & Htr & _ & _ & Hpool & _) & _).
  split; [|split].
  - rewrite Hpool. vm_compute. reflexivity.
  - rewrite Htr. vm_compute. reflexivity.
  - vm_compute in Hrep |- *. exact Hrep.
Defined.

(** C9. The plain-value [receive] function credits the whole amount to
    the bounty pool for every sender, whatever roles the sender holds and
    whether or not the contract is paused, while [fundBountyPool] reverts
    for a sender without the regulator role. *)
Theorem receive_credits_pool_for_any_sender env msg_value s :
  bountyPoolWei s + msg_value <= MAX_UINT 256 ->
  run (receive env msg_value) s
    = Ok (tt, set_bountyPoolWei (bountyPoolWei s + msg_value) s,
          [Emit (BountyFunded (msg_sender env) msg_value (bountyPoolWei s + msg_value))])
  /\ (hasRole REGULATOR_ROLE (msg_sender env) s = false ->
      run (fundBountyPool env msg_value) s
        = Err (AccessControlUnauthorizedAccount (msg_sender env) REGULATOR_ROLE)).
Proof.
  intros Hfit. split.
  - unfold run, receive, checked_add. wp_unfold_head. unfold bind, get, lift.
    destruct (Z.leb_spec (bountyPoolWei s + msg_value) (MAX_UINT 256)); [done | lia].
  - intros Hrole. unfold run, fundBountyPool, onlyRole. wp_unfold_head.
    unfold bind, get. by rewrite Hrole.
Qed.

Lemma receive_credits_pool_for_any_sender_witness :
  bountyPoolWei sc_reported + 7 <= MAX_UINT 256
  /\ hasRole REGULATOR_ROLE alice sc_reported = false
  /\ bountyPoolWei (transact (receive (env_at alice 5000) 7) sc_reported)
     = 1000 * ether_milli + 7
  /\ fails (fundBountyPool (env_at alice 5000) 7) sc_reported.
Proof.
  assert (bountyPoolWei sc_reported + 7 <= MAX_UINT 256) as Hfit
    by (vm_compute; discriminate).
  assert (hasRole REGULATOR_ROLE alice sc_reported = false) as Hrole
    by (vm_compute; reflexivity).
  destruct (receive_credits_pool_for_any_sender (env_at alice 5000) 7 sc_reported Hfit)
    as [Hrecv Hfund].
  split; [exact Hfit|]. split; [exact Hrole|]. split.
  - unfold transact. rewrite Hrecv. vm_compute. reflexivity.
  - eexists. apply Hfund. exact Hrole.
Defined.

(** C10. While the contract is paused every [reportSuspiciousBatch] and
    [resolveReport] call reverts and leaves the storage as it was; [pause]
    writes nothing but the paused bit, and [unpause] restores the storage
    of before the pause, so that both operations behave as before. *)
Theorem paused_contract_rejects_reports_and_resolutions env s0 s1 l s :
  run (pause env) s0 = Ok (tt, s1, l) ->
  _paused s = true ->
  (s1 = set_paused true s0 /\ _paused s0 = false /\
   forall env' s2 l2, run (unpause env') s1 = Ok (tt, s2, l2) -> s2 = s0) /\
  (forall env' msg_value tokenId identityNullifier evidenceURI reason severity,
     let call := reportSuspiciousBatch env' msg_value tokenId identityNullifier
                   evidenceURI reason severity in
     run call s = Err EnforcedPause /\ transact call s = s) /\
  (forall env' reportId confirmedFake,
     run (resolveReport env' reportId confirmedFake) s = Err EnforcedPause /\
     transact (resolveReport env' reportId confirmedFake) s = s).
Proof.
  intros Hpause Hpaused.
  assert (s1 = set_paused true s0 /\ _paused s0 = false) as [-> Hwas].
  { wp_start Hpause (fun (_ : unit) s1 (_ : list Effect) =>
      s1 = set_paused true s0 /\ _paused s0 = false).
    unfold pause. wp_run_storage; norm_all; done. }
  split_and!; [done | done | | |].
  - intros env' s2 l2 Hun.
    wp_start Hun (fun (_ : unit) s2 (_ : list Effect) => s2 = s0).
    unfold unpause. wp_run_storage; norm_all; try done.
    apply state_ext; norm_state; done.
  - intros. subst call.
    assert (run (reportSuspiciousBatch env' msg_value tokenId identityNullifier
                   evidenceURI reason severity) s = Err EnforcedPause) as Herr.
    { unfold run, reportSuspiciousBatch, whenNotPaused. wp_unfold_head.
      unfold bind, get. by rewrite Hpaused. }
    split; [done|]. unfold transact. by rewrite Herr.
  - intros.
    assert (run (resolveReport env' reportId confirmedFake) s = Err EnforcedPause) as Herr.
    { unfold run, resolveReport, whenNotPaused. wp_unfold_head.
      unfold bind, get. by rewrite Hpaused. }
    split; [done|]. unfold transact. by rewrite Herr.
Qed.

Lemma paused_contract_rejects_reports_and_resolutions_witness :
  run (pause (env_at regulator 3000)) sc_reported
    = Ok (tt, sc_paused, log_of (pause (env_at regulator 3000)) sc_reported)
  /\ _paused sc_paused = true
  /\ transact (unpause (env_at regulator 4000)) sc_paused = sc_reported
  /\ run (resolveReport (env_at regulator 3500) 0 true) sc_paused = Err EnforcedPause.
Proof.
  assert (run (pause (env_at regulator 3000)) sc_reported
    = Ok (tt, sc_paused, log_of (pause (env_at regulator 3000)) sc_reported))
    as Hrun by (vm_compute; reflexivity).
  assert (_paused sc_paused = true) as Hp by (vm_compute; reflexivity).
  destruct (paused_contract_rejects_reports_and_resolutions _ _ _ _ _ Hrun Hp)
    as ((_ & _ & Hun) & _ & Hres).
  split; [exact Hrun|]. split; [exact Hp|]. split.
  - unfold transact.
    destruct (run (unpause (env_at regulator 4000)) sc_paused) as [[[[] s2] l2]|e] eqn:E.
    + by apply Hun in E.
    + vm_compute in E. discriminate.
  - apply Hres.
Defined.

Lemma later_transact env c s :
  wf_env env -> wf_call c -> later s (transact (execute env c) s).
Proof.
  intros Henv Hc. unfold transact.
  destruct (run (execute env c) s) as [[[[] s'] l]|] eqn:Hrun; [|apply later_refl].
  apply later_one. by exists env, c, l.
Qed.

(** C4. Once a [reportSuspiciousBatch] call has succeeded with an identity
    nullifier, every later call that presents the same nullifier reverts,
    whoever the caller and whatever the item, in every later state. *)
Theorem nullifier_accepted_once
    env msg_value tokenId identityNullifier evidenceURI reason severity s reportId s1 l
    s2 env' msg_value' tokenId' evidenceURI' reason' severity' :
  run (reportSuspiciousBatch env msg_value tokenId identityNullifier
         evidenceURI reason severity) s = Ok (reportId, s1, l) ->
  later s1 s2 ->
  identityNullifierUsed s2 @@ identityNullifier = true /\
  fails (reportSuspiciousBatch env' msg_value' tokenId' identityNullifier
           evidenceURI' reason' severity') s2 /\
  transact (reportSuspiciousBatch env' msg_value' tokenId' identityNullifier
              evidenceURI' reason' severity') s2 = s2.
Proof.
  intros Hrun Hlater.
  apply report_marks_nullifier in Hrun as (Hused & _).
  pose proof (nullifier_later _ _ _ Hlater Hused) as Hused2.
  pose proof (report_fails_on_used_nullifier env' msg_value' tokenId' identityNullifier
                evidenceURI' reason' severity' s2 Hused2) as Hfails.
  split_and!; [done | done | by apply fails_transact].
Qed.

Lemma nullifier_accepted_once_witness :
  run (reportSuspiciousBatch (env_at alice 1000) (5 * ether_milli) 0 77
         "ipfs://ev" "odd print" 2) sc_funded
    = Ok (0, sc_reported,
          log_of (reportSuspiciousBatch (env_at alice 1000) (5 * ether_milli) 0 77
                    "ipfs://ev" "odd print" 2) sc_funded)
  /\ later sc_reported sc_rejected
  /\ fails (reportSuspiciousBatch (env_at bob 90000) (10 * ether_milli) 0 77
              "ipfs://other" "again" 1) sc_rejected.
Proof.
  assert (run (reportSuspiciousBatch (env_at alice 1000) (5 * ether_milli) 0 77
                 "ipfs://ev" "odd print" 2) sc_funded
          = Ok (0, sc_reported,
                log_of (reportSuspiciousBatch (env_at alice 1000) (5 * ether_milli) 0 77
                          "ipfs://ev" "odd print" 2) sc_funded))
    as Hrun by (vm_compute; reflexivity).
  assert (later sc_reported sc_rejected) as Hlater
    by (apply later_transact; solve_range).
  split; [exact Hrun|]. split; [exact Hlater|].
  apply (nullifier_accepted_once _ _ _ _ _ _ _ _ _ _ _ _
           (env_at bob 90000) (10 * ether_milli) 0 "ipfs://other" "again" 1 Hrun Hlater).
Defined.

(** ** Open reports per reporter *)

Lemma step_transact env c s :
  wf_env env -> wf_call c -> (exists r, run (execute env c) s = Ok r) ->
  step s (transact (execute env c) s).
Proof.
  intros Henv Hc [[[[] s'] l] Hrun]. unfold transact. rewrite Hrun.
  by exists env, c, l.
Qed.

Ltac solve_step := apply step_transact; [solve_range | solve_range | eexists; vm_compute; reflexivity].

Lemma reachable_sc_reported2 : reachable sc_reported2.
Proof.
  unfold sc_reported2. reach_step. unfold sc_minted2. reach_step.
  apply reachable_sc_reported.
Qed.

Lemma open_reports_exceed_lowered_cap :
  reachable sc_cap_lowered
  /\ ReporterProfile.openReports (reporterProfiles sc_cap_lowered @@ alice) = 2
  /\ maxOpenReportsPerReporter sc_cap_lowered = 1
  /\ ~ open_capped sc_cap_lowered.
Proof.
  split_and!.
  - unfold sc_cap_lowered. reach_step. apply reachable_sc_reported2.
  - vm_compute. reflexivity.
  - vm_compute. reflexivity.
  - intros Hcap. specialize (Hcap alice). vm_compute in Hcap. by apply Hcap.
Qed.

(** A transaction leaves a reporter with at most the larger of the open
    reports the reporter had and the cap in force after it. *)
Lemma open_reports_step s s' a :
  step s s' ->
  open_reports_of s' a <= Z.max (open_reports_of s a) (maxOpenReportsPerReporter s').
Proof.
  intros (env & c & l & _ & _ & Hrun).
  wp_start Hrun (fun (_ : unit) s' (_ : list Effect) =>
    open_reports_of s' a <= Z.max (open_reports_of s a) (maxOpenReportsPerReporter s')).
  unfold open_reports_of.
  destruct c; unfold_calls; wp_run_storage; checked_inv; norm_all; try lia.
  all: rewrite ?sload_insert; repeat case_decide; subst; norm_rec; bool_hyps.
  all: try (pose proof (dec_floor_le
              (ReporterProfile.openReports
                 (reporterProfiles s @@ FakeReport.reporter (reports s @@ reportId)))));
       try lia.
Qed.

Lemma report_fails_at_cap env v t n e rs sev s :
  maxOpenReportsPerReporter s <= open_reports_of s (msg_sender env) ->
  fails (reportSuspiciousBatch env v t n e rs sev) s.
Proof.
  unfold open_reports_of. intros Hcap. apply wp_fails.
  unfold reportSuspiciousBatch.
  repeat (first [wp_hr | wp_step]; cbv zeta;
          try match goal with
              | H : (ReporterProfile.openReports _ <? maxOpenReportsPerReporter _) = true
                |- _ => apply Z.ltb_lt in H; lia
              end).
Qed.

Lemma history_reachable hs :
  history hs -> exists s h, hs = s :: h /\ reachable s.
Proof.
  induction 1 as [d Hd|s s' h _ (s0 & h0 & [= <- <-] & Hs) Hstep].
  - eexists _, _. split; [done|]. by apply reachable_init.
  - eexists _, _. split; [done|]. by eapply reachable_step.
Qed.

Lemma reachable_history s : reachable s -> exists h, history (s :: h).
Proof.
  induction 1 as [d Hd|s s' _ [h Hh] Hstep].
  - exists []. by apply history_init.
  - exists (s :: h). by apply history_step.
Qed.

Lemma history_open_reports hs a :
  history hs -> forall s h, hs = s :: h -> open_reports_of s a <= largest_cap hs.
Proof.
  induction 1 as [d Hd|s s' h _ IH Hstep]; intros s0 h0 [= <- <-].
  - unfold open_reports_of, constructor. norm_state. rewrite sload_empty.
    cbn. lia.
  - specialize (IH s h eq_refl). pose proof (open_reports_step s s' a Hstep).
    change (largest_cap (s' :: s :: h))
      with (Z.max (maxOpenReportsPerReporter s') (largest_cap (s :: h))).
    lia.
Qed.

(** C5, as the code has it. The cap is compared with the open reports of
    the caller when a report is filed, and nowhere else. For every
    reporter and every transaction: a reporter whose open reports are
    within the cap in force after the transaction is within it afterwards,
    also when the transaction lowers the cap; a reporter whom a lowered cap
    leaves above it gets no further open report, and cannot file while at
    or above the cap. Over a whole history, a reporter never has more open
    reports than the largest cap that was in force in it, and every
    reachable state has such a history. *)
Theorem open_reports_within_cap_unless_lowered :
  (forall s s' a, step s s' ->
     (open_reports_of s a <= maxOpenReportsPerReporter s' ->
      open_reports_of s' a <= maxOpenReportsPerReporter s') /\
     (maxOpenReportsPerReporter s' < open_reports_of s a ->
      open_reports_of s' a <= open_reports_of s a)) /\
  (forall env v t n e rs sev s,
     maxOpenReportsPerReporter s <= open_reports_of s (msg_sender env) ->
     fails (reportSuspiciousBatch env v t n e rs sev) s) /\
  (forall s h a, history (s :: h) -> open_reports_of s a <= largest_cap (s :: h)) /\
  (forall s, reachable s <-> exists h, history (s :: h)).
Proof.
  split_and!.
  - intros s s' a Hstep. pose proof (open_reports_step s s' a Hstep). lia.
  - apply report_fails_at_cap.
  - intros s h a Hh. by eapply history_open_reports.
  - intros s. split; [apply reachable_history|].
    intros [h Hh]. destruct (history_reachable _ Hh) as (s0 & h0 & [= <- <-] & Hs). done.
Qed.

Lemma open_reports_within_cap_unless_lowered_witness :
  (step sc_minted2 sc_reported2 /\
   open_reports_of sc_minted2 alice = 1 /\ maxOpenReportsPerReporter sc_reported2 = 5 /\
   open_reports_of sc_reported2 alice = 2 /\
   open_reports_of sc_reported2 alice <= maxOpenReportsPerReporter sc_reported2) /\
  (step sc_reported2 sc_cap_lowered /\
   maxOpenReportsPerReporter sc_cap_lowered = 1 /\
   open_reports_of sc_reported2 bob <= maxOpenReportsPerReporter sc_cap_lowered /\
   open_reports_of sc_cap_lowered bob <= maxOpenReportsPerReporter sc_cap_lowered /\
   maxOpenReportsPerReporter sc_cap_lowered < open_reports_of sc_reported2 alice /\
   open_reports_of sc_cap_lowered alice <= open_reports_of sc_reported2 alice) /\
  (maxOpenReportsPerReporter sc_cap_lowered
     <= open_reports_of sc_cap_lowered (msg_sender (env_at alice 50000)) /\
   fails (reportSuspiciousBatch (env_at alice 50000) (2 * ether_milli) 1 79
            "ipfs://ev3" "odd print" 1) sc_cap_lowered) /\
  (history [sc_cap_lowered; sc_reported2; sc_minted2; sc_reported; sc_funded; sc_minted;
            sc_deployed] /\
   largest_cap [sc_cap_lowered; sc_reported2; sc_minted2; sc_reported; sc_funded;
                sc_minted; sc_deployed] = 5 /\
   open_reports_of sc_cap_lowered alice <= 5).
Proof.
  destruct open_reports_within_cap_unless_lowered as (Hstep & Hfile & Hhist & _).
  assert (step sc_deployed sc_minted) as H1 by (unfold sc_minted; solve_step).
  assert (step sc_minted sc_funded) as H2 by (unfold sc_funded; solve_step).
  assert (step sc_funded sc_reported) as H3 by (unfold sc_reported; solve_step).
  assert (step sc_reported sc_minted2) as H4 by (unfold sc_minted2; solve_step).
  assert (step sc_minted2 sc_reported2) as H5 by (unfold sc_reported2; solve_step).
  assert (step sc_reported2 sc_cap_lowered) as H6 by (unfold sc_cap_lowered; solve_step).
  assert (history [sc_cap_lowered; sc_reported2; sc_minted2; sc_reported; sc_funded;
                   sc_minted; sc_deployed]) as Hh.
  { repeat (apply history_step; [|assumption]). apply history_init. solve_range. }
  assert (open_reports_of sc_minted2 alice <= maxOpenReportsPerReporter sc_reported2) as Ha
    by (vm_compute; discriminate).
  assert (open_reports_of sc_reported2 bob <= maxOpenReportsPerReporter sc_cap_lowered) as Hb
    by (vm_compute; discriminate).
  assert (maxOpenReportsPerReporter sc_cap_lowered < open_reports_of sc_reported2 alice) as Hc
    by (vm_compute; reflexivity).
  assert (maxOpenReportsPerReporter sc_cap_lowered
          <= open_reports_of sc_cap_lowered (msg_sender (env_at alice 50000))) as Hd
    by (vm_compute; discriminate).
  split_and!.
  - exact H5.
  - vm_compute. reflexivity.
  - vm_compute. reflexivity.
  - vm_compute. reflexivity.
  - exact (proj1 (Hstep sc_minted2 sc_reported2 alice H5) Ha).
  - exact H6.
  - vm_compute. reflexivity.
  - exact Hb.
  - exact (proj1 (Hstep sc_reported2 sc_cap_lowered bob H6) Hb).
  - exact Hc.
  - exact (proj2 (Hstep sc_reported2 sc_cap_lowered alice H6) Hc).
  - exact Hd.
  - exact (Hfile (env_at alice 50000) (2 * ether_milli) 1 79 "ipfs://ev3" "odd print" 1
             sc_cap_lowered Hd).
  - exact Hh.
  - vm_compute. reflexivity.
  - pose proof (Hhist sc_cap_lowered _ alice Hh) as Hle.
    assert (largest_cap [sc_cap_lowered; sc_reported2; sc_minted2; sc_reported; sc_funded;
                         sc_minted; sc_deployed] = 5) as Heq by (vm_compute; reflexivity).
    rewrite Heq in Hle. exact Hle.
Defined.

(** ** Blocked reporters *)

Lemma blocked_step env c s s' l a :
  run (execute env c) s = Ok (tt, s', l) ->
  is_blocked s a = true ->
  c <> call_setReporterBlocked a false ->
  is_blocked s' a = true.
Proof.
  intros Hrun Hb Hc.
  wp_start Hrun (fun (_ : unit) s' (_ : list Effect) => is_blocked s' a = true).
  unfold is_blocked in *.
  destruct c; unfold_calls; wp_run_storage; norm_all; try done.
  all: rewrite ?sload_insert; repeat case_decide; subst; norm_rec; try done.
  destruct blocked; [done|]. by destruct Hc.
Qed.

Lemma report_fails_when_blocked env v t n e r sev s :
  is_blocked s (msg_sender env) = true ->
  fails (reportSuspiciousBatch env v t n e r sev) s.
Proof.
  intros Hb. apply wp_fails. unfold is_blocked in Hb.
  unfold reportSuspiciousBatch. wp_run_storage; norm_all; bool_hyps. all: congruence.
Qed.

Lemma rejection_blocks_at_floor env reportId s s' l :
  run (resolveReport env reportId false) s = Ok (tt, s', l) ->
  ReporterProfile.reputation
    (reporterProfiles s' @@ FakeReport.reporter (reports s @@ reportId)) <= -100 ->
  is_blocked s' (FakeReport.reporter (reports s @@ reportId)) = true.
Proof.
  intros Hrun.
  wp_start Hrun (fun (_ : unit) s' (_ : list Effect) =>
    ReporterProfile.reputation
      (reporterProfiles s' @@ FakeReport.reporter (reports s @@ reportId)) <= -100 ->
    is_blocked s' (FakeReport.reporter (reports s @@ reportId)) = true).
  unfold resolveReport, is_blocked. wp_run_storage; checked_inv; norm_all; norm_rec; bool_hyps.
  all: intros Hrep; norm_rec_in_all; first [done | lia].
Qed.

Lemma reachable_report_then_reject k s :
  in_uint 64 k -> 1 <= k -> reachable s -> reachable (report_then_reject k s).
Proof.
  intros [Hk0 Hk1] Hk Hs. unfold report_then_reject.
  assert (MAX_UINT 64 < MAX_UINT 256) by (vm_compute; reflexivity).
  assert (MAX_UINT 64 * 30000 + 10 < MAX_UINT 256) by (vm_compute; reflexivity).
  assert (0 <= 2 * ether_milli <= MAX_UINT 256) by (vm_compute; split; discriminate).
  assert (alice <= MAX_UINT 160 /\ regulator <= MAX_UINT 160 /\ 1 <= MAX_UINT 8)
    as (? & ? & ?) by (vm_compute; repeat split; discriminate).
  apply reachable_transact; [apply reachable_transact; [done | |] | |];
    unfold wf_env, wf_call, in_uint; cbn [msg_sender block_timestamp env_at];
    unfold alice, regulator in *; lia.
Qed.

Lemma reachable_sc_blocked : reachable sc_blocked.
Proof.
  unfold sc_blocked. reach_step. unfold sc_sixth_report. reach_step.
  unfold sc_five_rejections.
  repeat (apply reachable_report_then_reject; [solve_range | lia |]).
  apply reachable_sc_minted.
Qed.

Lemma blocked_reporter_unblocked_by_regulator :
  reachable sc_blocked
  /\ ReporterProfile.reputation (reporterProfiles sc_blocked @@ alice) = -108
  /\ is_blocked sc_blocked alice = true
  /\ later sc_blocked sc_unblocked
  /\ is_blocked sc_unblocked alice = false
  /\ run (reportSuspiciousBatch (env_at alice 300000) (2 * ether_milli) 0 107
            "ipfs://ev" "odd" 1) sc_unblocked
     = Ok (6, transact (reportSuspiciousBatch (env_at alice 300000) (2 * ether_milli) 0 107
                          "ipfs://ev" "odd" 1) sc_unblocked,
           log_of (reportSuspiciousBatch (env_at alice 300000) (2 * ether_milli) 0 107
                     "ipfs://ev" "odd" 1) sc_unblocked).
Proof.
  split_and!.
  - apply reachable_sc_blocked.
  - vm_compute. reflexivity.
  - vm_compute. reflexivity.
  - apply later_transact; solve_range.
  - vm_compute. reflexivity.
  - vm_compute. reflexivity.
Qed.

(** C8, as the code has it. [blocked] stays set under every transaction
    except the regulator's [setReporterBlocked (a, false)]; while it is
    set every report of that actor reverts; a rejection that leaves the
    reputation at or below -100 sets it. *)
Theorem blocked_stays_until_regulator_unblocks env c s s' l a :
  run (execute env c) s = Ok (tt, s', l) ->
  is_blocked s a = true ->
  c <> call_setReporterBlocked a false ->
  is_blocked s' a = true /\
  (forall env' msg_value tokenId identityNullifier evidenceURI reason severity,
     msg_sender env' = a ->
     fails (reportSuspiciousBatch env' msg_value tokenId identityNullifier
              evidenceURI reason severity) s /\
     fails (reportSuspiciousBatch env' msg_value tokenId identityNullifier
              evidenceURI reason severity) s') /\
  (forall env0 reportId s0 s1 l1,
     run (resolveReport env0 reportId false) s0 = Ok (tt, s1, l1) ->
     ReporterProfile.reputation
       (reporterProfiles s1 @@ FakeReport.reporter (reports s0 @@ reportId)) <= -100 ->
     is_blocked s1 (FakeReport.reporter (reports s0 @@ reportId)) = true).
Proof.
  intros Hrun Hb Hc.
  pose proof (blocked_step _ _ _ _ _ _ Hrun Hb Hc) as Hb'.
  split_and!; [done | | apply rejection_blocks_at_floor].
  intros env' ? ? ? ? ? ? <-. split; by apply report_fails_when_blocked.
Qed.

Lemma blocked_stays_until_regulator_unblocks_witness :
  run (execute (env_at bob 250000) (call_receive 5)) sc_blocked
    = Ok (tt, transact (execute (env_at bob 250000) (call_receive 5)) sc_blocked,
          log_of (execute (env_at bob 250000) (call_receive 5)) sc_blocked)
  /\ is_blocked sc_blocked alice = true
  /\ call_receive 5 <> call_setReporterBlocked alice false
  /\ is_blocked (transact (execute (env_at bob 250000) (call_receive 5)) sc_blocked) alice
     = true.
Proof.
  assert (run (execute (env_at bob 250000) (call_receive 5)) sc_blocked
    = Ok (tt, transact (execute (env_at bob 250000) (call_receive 5)) sc_blocked,
          log_of (execute (env_at bob 250000) (call_receive 5)) sc_blocked))
    as Hrun by (vm_compute; reflexivity).
  assert (is_blocked sc_blocked alice = true) as Hb by (vm_compute; reflexivity).
  assert (call_receive 5 <> call_setReporterBlocked alice false) as Hc by discriminate.
  split_and!; [exact Hrun | exact Hb | exact Hc |].
  exact (proj1 (blocked_stays_until_regulator_unblocks _ _ _ _ _ _ Hrun Hb Hc)).
Defined.

(** ** Report status *)

Lemma status_step env c s s' l id :
  run (execute env c) s = Ok (tt, s', l) -> ids_inv s ->
  (reports s !! id <> None ->
   FakeReport.reporter (reports s' @@ id) = FakeReport.reporter (reports s @@ id)) /\
  (status_of s' id = status_of s id \/
   (status_of s id = Pending /\ status_of s' id <> Pending /\
    exists b, c = call_resolveReport id b)).
Proof.
  intros Hrun Hids.
  wp_start Hrun (fun (_ : unit) s' (_ : list Effect) =>
    (reports s !! id <> None ->
     FakeReport.reporter (reports s' @@ id) = FakeReport.reporter (reports s @@ id)) /\
    (status_of s' id = status_of s id \/
     (status_of s id = Pending /\ status_of s' id <> Pending /\
      exists b, c = call_resolveReport id b))).
  unfold status_of, ids_inv in *.
  destruct c; unfold_calls; wp_run_storage; checked_inv; norm_all; bool_hyps.
  all: try (split; [done | by left]).
  all: rewrite ?sload_insert; case_decide; subst; norm_rec.
  all: try (split; [done | by left]).
  (* a new report takes a fresh id *)
  all: try (assert (reports s !! _reportIdCounter s = None) as Hfresh
              by (apply Hids; lia);
            rewrite (sload_None _ _ Hfresh); split; [done | by left]).
  (* a resolution *)
  all: split; [done|]; right; split_and!; [done | done | eauto].
Qed.

Lemma settled_step s s' id :
  step s s' -> ids_inv s -> settled s id ->
  settled s' id /\ status_of s' id = status_of s id.
Proof.
  intros (env & c & l & _ & _ & Hrun) Hids [Hrep Hst].
  destruct (status_step _ _ _ _ _ id Hrun Hids) as [Hsame Hstatus].
  assert (status_of s' id = status_of s id) as Heq.
  { destruct Hstatus as [?|(? & _)]; [done | congruence]. }
  split; [|done]. split; [|congruence].
  rewrite Hsame; [done|]. by apply report_known_ne.
Qed.

Lemma settled_later s s' id :
  later s s' -> ledger_inv s -> settled s id ->
  ledger_inv s' /\ settled s' id /\ status_of s' id = status_of s id.
Proof.
  intros Hlater Hinv Hset. induction Hlater as [|s1 s2 _ IH Hstep]; [done|].
  destruct IH as (Hinv1 & Hset1 & Hst1).
  destruct (settled_step _ _ id Hstep) as [Hset2 Hst2]; [apply Hinv1 | done |].
  split_and!; [by eapply ledger_inv_step | done | congruence].
Qed.

Lemma resolve_settles env id b s s' l :
  run (resolveReport env id b) s = Ok (tt, s', l) ->
  status_of s id = Pending /\ settled s' id /\
  status_of s' id = (if b then ConfirmedFake else RejectedFalse).
Proof.
  intros Hrun.
  wp_start Hrun (fun (_ : unit) s' (_ : list Effect) =>
    status_of s id = Pending /\ settled s' id /\
    status_of s' id = (if b then ConfirmedFake else RejectedFalse)).
  unfold resolveReport, settled, status_of.
  wp_run_storage; checked_inv; norm_all; norm_rec; bool_hyps; done.
Qed.

Lemma bind_Ok {A B} (m : M A) (k : A -> M B) s l a s1 l1 :
  m s l = Ok (a, s1, l1) -> bind m k s l = k a s1 l1.
Proof. unfold bind. by intros ->. Qed.

Lemma resolve_settled_error env id b s :
  settled s id -> _paused s = false -> _entered s = false ->
  hasRole REGULATOR_ROLE (msg_sender env) s = true ->
  run (resolveReport env id b) s = Err (Revert "Already resolved").
Proof.
  intros [Hrep Hst] Hp He Hr. unfold run, resolveReport. wp_unfold_head.
  rewrite (bind_Ok _ _ _ _ tt s []).
  2:{ unfold whenNotPaused. wp_unfold_head. unfold bind, get. by rewrite Hp. }
  rewrite (bind_Ok _ _ _ _ tt s []).
  2:{ unfold onlyRole. wp_unfold_head. unfold bind, get. by rewrite Hr. }
  unfold nonReentrant. wp_unfold_head.
  rewrite (bind_Ok _ _ _ _ s s []) by done. rewrite He.
  rewrite (bind_Ok _ _ _ _ tt (set_entered true s) []) by done.
  unfold bind at 1.
  rewrite (bind_Ok _ _ _ _ (set_entered true s) (set_entered true s) []) by done.
  norm_state. unfold status_of in Hst.
  rewrite (bind_Ok _ _ _ _ tt (set_entered true s) []).
  2:{ unfold require. apply Z.eqb_neq in Hrep. by rewrite Hrep. }
  unfold bind at 1, require at 1.
  by rewrite bool_decide_eq_false_2.
Qed.

Lemma resolve_fails_when_settled env id b s :
  settled s id -> fails (resolveReport env id b) s.
Proof.
  intros [Hrep Hst]. apply wp_fails. unfold status_of in Hst.
  unfold resolveReport. wp_run_storage; norm_all; bool_hyps. all: congruence.
Qed.

Lemma status_moves_forward s s' id :
  reachable s -> step s s' ->
  status_of s' id = status_of s id \/
  (status_of s id = Pending /\ status_of s' id <> Pending).
Proof.
  intros Hs (env & c & l & _ & _ & Hrun).
  apply ledger_inv_reachable in Hs as (_ & _ & Hids & _).
  destruct (status_step _ _ _ _ _ id Hrun Hids) as [_ [?|(? & ? & _)]]; eauto.
Qed.

(** C6. The status of a report changes only from [Pending], and only
    once: the first [resolveReport] on an id settles it as
    [ConfirmedFake] or [RejectedFalse]; in every later state the status
    is the same and every further [resolveReport] on that id reverts,
    with [Already resolved] once the pause and role guards are passed,
    and leaves the storage unchanged. *)
Theorem report_resolved_exactly_once
    env reportId confirmedFake s s1 l s2 env' confirmedFake' :
  reachable s -> wf_env env -> wf_call (call_resolveReport reportId confirmedFake) ->
  run (resolveReport env reportId confirmedFake) s = Ok (tt, s1, l) ->
  later s1 s2 ->
  status_of s reportId = Pending /\
  status_of s1 reportId = (if confirmedFake then ConfirmedFake else RejectedFalse) /\
  status_of s2 reportId = status_of s1 reportId /\
  fails (resolveReport env' reportId confirmedFake') s2 /\
  transact (resolveReport env' reportId confirmedFake') s2 = s2 /\
  (_paused s2 = false -> hasRole REGULATOR_ROLE (msg_sender env') s2 = true ->
   run (resolveReport env' reportId confirmedFake') s2 = Err (Revert "Already resolved")) /\
  (forall s3 s4 id, reachable s3 -> step s3 s4 ->
     status_of s4 id = status_of s3 id \/
     (status_of s3 id = Pending /\ status_of s4 id <> Pending)).
Proof.
  intros Hs Henv Hc Hrun Hlater.
  destruct (resolve_settles _ _ _ _ _ _ Hrun) as (Hpending & Hset1 & Hst1).
  assert (ledger_inv s1) as Hinv1.
  { eapply ledger_inv_step; [|by apply ledger_inv_reachable].
    by exists env, (call_resolveReport reportId confirmedFake), l. }
  destruct (settled_later _ _ _ Hlater Hinv1 Hset1) as (Hinv2 & Hset2 & Hst2).
  pose proof (resolve_fails_when_settled env' reportId confirmedFake' s2 Hset2) as Hfails.
  split_and!; [done | done | done | done | by apply fails_transact | | ].
  - intros Hp Hr. apply resolve_settled_error; [done | done | apply Hinv2 | done].
  - intros. by apply status_moves_forward.
Qed.

Lemma report_resolved_exactly_once_witness :
  reachable sc_reported
  /\ wf_env (env_at regulator 2000)
  /\ wf_call (call_resolveReport 0 false)
  /\ run (resolveReport (env_at regulator 2000) 0 false) sc_reported
     = Ok (tt, sc_rejected, log_of (resolveReport (env_at regulator 2000) 0 false) sc_reported)
  /\ later sc_rejected sc_after_rejection
  /\ status_of sc_after_rejection 0 = RejectedFalse
  /\ run (resolveReport (env_at regulator 2600) 0 true) sc_after_rejection
     = Err (Revert "Already resolved").
Proof.
  assert (wf_env (env_at regulator 2000)) as Henv by solve_range.
  assert (wf_call (call_resolveReport 0 false)) as Hc by solve_range.
  assert (run (resolveReport (env_at regulator 2000) 0 false) sc_reported
    = Ok (tt, sc_rejected, log_of (resolveReport (env_at regulator 2000) 0 false) sc_reported))
    as Hrun by (vm_compute; reflexivity).
  assert (later sc_rejected sc_after_rejection) as Hlater
    by (apply later_transact; solve_range).
  destruct (report_resolved_exactly_once _ _ _ _ _ _ _ (env_at regulator 2600) true
              reachable_sc_reported Henv Hc Hrun Hlater)
    as (_ & Hst1 & Hst2 & _ & _ & Herr & _).
  split_and!; [exact reachable_sc_reported | exact Henv | exact Hc | exact Hrun
              | exact Hlater | | ].
  - rewrite Hst2. exact Hst1.
  - apply Herr; vm_compute; reflexivity.
Defined.

(** ** Reasons for risk *)

Lemma pending_severe_flagged s t :
  ledger_inv s -> pending_severe_report s t -> flagged s t = true.
Proof.
  intros (_ & _ & _ & _ & Hflag & Hcount & _) (id & r & Hr & HP).
  destruct (Hflag t) as [_ Hsev]. apply Hsev.
  rewrite Hcount. unfold pending_severe_count. by eapply count_pos.
Qed.


Lemma reachable_sc_confirmed : reachable sc_confirmed.
Proof. unfold sc_confirmed. reach_step. apply reachable_sc_reported. Qed.




(** ** Sequences of flag operations *)

Lemma last_set_true_cons t t' b ops :
  last_set_true ((t', b) :: ops) t <->
  (t' = t /\ b = true /\ (t, false) ∉ ops) \/ last_set_true ops t.
Proof.
  unfold last_set_true. split.
  - intros (before & after & Heq & Hnot). destruct before as [|x before]; simpl in Heq.
    + simplify_eq. by left.
    + simplify_eq. right. by exists before, after.
  - intros [(-> & -> & Hnot) | (before & after & -> & Hnot)].
    + by exists [], ops.
    + by exists ((t', b) :: before), after.
Qed.

Lemma final_flag_spec t ops acc :
  final_flag t ops acc = true <->
  last_set_true ops t \/ (acc = true /\ (t, false) ∉ ops).
Proof.
  revert acc. induction ops as [|[t' b] ops IH]; intros acc; simpl.
  - split; [intros ->; right; split; [done | apply not_elem_of_nil]|].
    intros [(before & after & Heq & _) | [-> _]]; [|done].
    by destruct before.
  - rewrite IH, last_set_true_cons, not_elem_of_cons. case_decide as Ht.
    + subst t'. destruct b.
      * split; [intros [?|[_ ?]]; [by left; right | by left; left] |].
        intros [[(_ & _ & ?) | ?] | (-> & _ & ?)]; [by right | by left | by right].
      * split; [intros [?|[? _]]; [by left; right | done] |].
        intros [[(_ & ? & _) | ?] | (_ & ? & _)]; [done | by left | done].
    + split.
      * intros [?|[-> ?]]; [by left; right | right]. split_and!; [done | congruence | done].
      * intros [[(? & _) | ?] | (-> & _ & ?)]; [done | by left | by right].
Qed.

Lemma setHighRisk_flags t b s l u s' l' t' :
  _setHighRisk t b s l = Ok (u, s', l') ->
  flagged s' t' = if decide (t = t') then b else flagged s t'.
Proof.
  intros Hrun. destruct (setHighRisk_frame _ _ _ _ _ _ _ Hrun)
    as [(Hf & -> & _) | (_ & _ & arr & idx & ->)].
  - case_decide; [by subst|done].
  - apply flagged_hr_written.
Qed.

Lemma setFlags_spec ops s l :
  hr_coherent s ->
  exists s' l', setFlags ops s l = Ok (tt, s', l') /\ hr_coherent s' /\
                forall t, flagged s' t = final_flag t ops (flagged s t).
Proof.
  revert s l. induction ops as [|[t b] ops IH]; intros s l Hc.
  - by exists s, l.
  - destruct (setHighRisk_succeeds t b s l Hc) as (s1 & l1 & Hrun1).
    pose proof (setHighRisk_coherent _ _ _ _ _ _ _ Hrun1 Hc) as Hc1.
    destruct (IH s1 l1 Hc1) as (s' & l' & Hrun & Hc' & Hflags).
    exists s', l'. split_and!; [|done|].
    + cbn [setFlags]. wp_unfold_head. by rewrite (bind_Ok _ _ _ _ _ _ _ Hrun1).
    + intros t0. rewrite Hflags. cbn [final_flag].
      by rewrite (setHighRisk_flags _ _ _ _ _ _ _ t0 Hrun1).
Qed.

Lemma hr_coherent_NoDup s : hr_coherent s -> NoDup (_highRiskBatchIds s).
Proof.
  intros [[Hpos _] _]. apply NoDup_alt. intros i j t Hi Hj.
  apply Hpos in Hi, Hj. lia.
Qed.

Lemma hr_coherent_elem_of s t :
  hr_coherent s -> t ∈ _highRiskBatchIds s <-> flagged s t = true.
Proof.
  intros Hc. split.
  - intros (i & Hi)%list_elem_of_lookup. destruct Hc as [[Hpos _] Hflag].
    apply Hflag. apply Hpos in Hi. lia.
  - intros Hf. destruct (hr_coherent_position _ _ Hc Hf) as (i & _ & Hi & _).
    by eapply list_elem_of_lookup_2.
Qed.

(** C7. After any sequence of flag operations on a fresh ledger the dense
    array holds, without duplicates, exactly the items whose last
    [setFlag (_, true)] was not followed by a [setFlag (_, false)]; and in
    every reachable state the array has no duplicates, holds exactly the
    flagged items, and agrees with the position map in both directions. *)
Theorem high_risk_index_tracks_last_flag (deployer : Z) (ops : list (Z * bool)) :
  (exists s' l,
     run (setFlags ops) (constructor deployer) = Ok (tt, s', l) /\
     NoDup (_highRiskBatchIds s') /\
     (forall t, t ∈ _highRiskBatchIds s' <-> last_set_true ops t) /\
     index_coherent (_highRiskBatchIds s') (_highRiskIndexPlusOne s')) /\
  (forall s, reachable s ->
     NoDup (_highRiskBatchIds s) /\
     (forall t, t ∈ _highRiskBatchIds s <-> flagged s t = true) /\
     index_coherent (_highRiskBatchIds s) (_highRiskIndexPlusOne s)).
Proof.
  split.
  - pose proof (ledger_inv_init deployer) as (_ & _ & _ & _ & _ & _ & Hc).
    destruct (setFlags_spec ops _ [] Hc) as (s' & l & Hrun & Hc' & Hflags).
    exists s', l. split_and!; [done | by apply hr_coherent_NoDup | | apply Hc'].
    intros t. rewrite (hr_coherent_elem_of _ _ Hc'), Hflags, final_flag_spec.
    split; [intros [?|[Hinit _]]; [done|] | by left].
    unfold flagged, constructor in Hinit. norm_state_in Hinit.
    by rewrite sload_empty in Hinit.
  - intros s Hs. apply ledger_inv_reachable in Hs as (_ & _ & _ & _ & _ & _ & Hc).
    split_and!; [by apply hr_coherent_NoDup | | apply Hc].
    intros t. by apply hr_coherent_elem_of.
Qed.

Lemma high_risk_index_tracks_last_flag_witness :
  reachable sc_confirmed
  /\ 0 ∈ _highRiskBatchIds sc_confirmed
  /\ NoDup (_highRiskBatchIds sc_confirmed).
Proof.
  destruct (proj2 (high_risk_index_tracks_last_flag regulator [])
              sc_confirmed reachable_sc_confirmed) as (Hnodup & Hmem & _).
  split_and!; [exact reachable_sc_confirmed | | exact Hnodup].
  apply Hmem. vm_compute. reflexivity.
Defined.

Example high_risk_index_after_swap_remove :
  exists s' l,
    run (setFlags [(5, true); (7, true); (9, true); (5, false); (7, true); (4, false)])
      (constructor regulator) = Ok (tt, s', l)
    /\ _highRiskBatchIds s' = [9; 7]
    /\ _highRiskIndexPlusOne s' @@ 9 = 1
    /\ _highRiskIndexPlusOne s' @@ 7 = 2
    /\ _highRiskIndexPlusOne s' @@ 5 = 0.
Proof. eexists _, _. split_and!; vm_compute; reflexivity. Qed.

(** * Further properties of the contract *)

(** ** Paging through the high-risk index *)

Lemma copy_ids_spec arr cursor : forall todo i ids,
  0 <= cursor -> 0 <= i ->
  cursor + i + Z.of_nat todo <= Z.of_nat (length arr) ->
  cursor + i + Z.of_nat todo <= MAX_UINT 256 ->
  (Z.to_nat i + todo = length ids)%nat ->
  copy_ids arr cursor todo i ids
  = Ok (take (Z.to_nat i) ids ++ take todo (drop (Z.to_nat (cursor + i)) arr)).
Proof.
  induction todo as [|todo IH]; intros i ids Hc Hi Hlen Hmax Hids; simpl.
  - rewrite take_0, app_nil_r, take_ge by lia. done.
  - unfold checked_add. rewrite (proj2 (Z.leb_le _ _)) by lia.
    destruct (arr !! Z.to_nat (cursor + i)) as [x|] eqn:Hx.
    2:{ apply lookup_ge_None in Hx. lia. }
    rewrite (proj2 (Z.ltb_lt _ _)) by lia.
    rewrite IH by (rewrite ?length_insert; lia).
    f_equal.
    replace (Z.to_nat (i + 1)) with (S (Z.to_nat i)) by lia.
    replace (Z.to_nat (cursor + (i + 1))) with (S (Z.to_nat (cursor + i))) by lia.
    rewrite (take_S_r _ _ x) by (apply list_lookup_insert_eq; lia).
    rewrite take_insert_ge by lia.
    rewrite <- app_assoc. f_equal. simpl.
    rewrite (drop_S _ _ _ Hx). done.
Qed.

Lemma page_of_length arr cursor limit :
  0 <= cursor -> 0 <= limit ->
  Z.of_nat (length (page_of arr cursor limit))
  = Z.max 0 (Z.min limit (Z.of_nat (length arr) - cursor)).
Proof. intros. unfold page_of. rewrite length_take, length_drop. lia. Qed.

(** The early return: no ids, and the cursor that was given. *)
Lemma getHighRiskBatchIds_empty cursor limit s :
  limit = 0 \/ Z.of_nat (length (_highRiskBatchIds s)) <= cursor ->
  run (getHighRiskBatchIds cursor limit) s = Ok ([], cursor, s, []).
Proof.
  intros Hempty.
  unfold run, getHighRiskBatchIds. wp_unfold_head. unfold bind at 1, get.
  assert ((limit =? 0) || (Z.of_nat (length (_highRiskBatchIds s)) <=? cursor) = true)
    as -> by (apply orb_true_iff; destruct Hempty; [left|right]; lia).
  done.
Qed.

(** A page that starts inside the index. *)
Lemma getHighRiskBatchIds_page cursor limit s :
  0 <= cursor < Z.of_nat (length (_highRiskBatchIds s)) -> 0 < limit ->
  cursor + limit <= MAX_UINT 256 ->
  run (getHighRiskBatchIds cursor limit) s
  = Ok (page_of (_highRiskBatchIds s) cursor limit,
        Z.min (cursor + limit) (Z.of_nat (length (_highRiskBatchIds s))), s, []).
Proof.
  intros Hc Hl Hsum.
  unfold run, getHighRiskBatchIds, page_of. wp_unfold_head. unfold bind at 1, get.
  set (arr := _highRiskBatchIds s) in *.
  rewrite (proj2 (Z.eqb_neq limit 0)) by lia.
  rewrite (proj2 (Z.leb_gt _ _)) by lia. cbn [orb].
  unfold bind, lift, checked_add. rewrite (proj2 (Z.leb_le _ _)) by lia.
  set (e := if Z.of_nat (length arr) <? cursor + limit then _ else _).
  assert (e = Z.min (cursor + limit) (Z.of_nat (length arr))) as He.
  { unfold e. case_match; bool_hyps; lia. }
  unfold checked_sub. rewrite (proj2 (Z.leb_le _ _)) by lia.
  rewrite copy_ids_spec; [|lia|lia|lia|lia|rewrite length_replicate; lia].
  unfold ret. rewrite He. repeat f_equal.
  rewrite take_0, Z.add_0_r. simpl.
  destruct (Z.le_ge_cases (cursor + limit) (Z.of_nat (length arr))).
  - f_equal. lia.
  - rewrite !take_ge; [done | rewrite length_drop; lia | rewrite length_drop; lia].
Qed.

(** X1. [getHighRiskBatchIds (cursor, limit)] with [limit = 0] or with a
    cursor at or past the end of the index returns no ids and the cursor
    it was given, whatever the other argument is. With a cursor inside
    the index, a positive [limit] and [cursor + limit <= 2^256 - 1] it
    returns the slice of at most [limit] ids that starts at position
    [cursor], which is not empty, and the position after that slice as
    the next cursor. It writes nothing and emits nothing. *)
Theorem getHighRiskBatchIds_returns_slice cursor limit s :
  0 <= cursor ->
  (limit = 0 \/ Z.of_nat (length (_highRiskBatchIds s)) <= cursor ->
   run (getHighRiskBatchIds cursor limit) s = Ok ([], cursor, s, [])) /\
  (0 < limit -> cursor < Z.of_nat (length (_highRiskBatchIds s)) ->
   cursor + limit <= MAX_UINT 256 ->
   exists ids,
     run (getHighRiskBatchIds cursor limit) s
     = Ok (ids, cursor + Z.of_nat (length ids), s, []) /\
     ids = take (Z.to_nat limit) (drop (Z.to_nat cursor) (_highRiskBatchIds s)) /\
     ids <> [] /\
     Z.of_nat (length ids)
     = Z.min limit (Z.of_nat (length (_highRiskBatchIds s)) - cursor)).
Proof.
  intros Hc. split; [apply getHighRiskBatchIds_empty|].
  intros Hl Hin Hsum.
  pose proof (page_of_length (_highRiskBatchIds s) cursor limit Hc ltac:(lia)) as Hlen.
  exists (page_of (_highRiskBatchIds s) cursor limit).
  split_and!; [|done| |lia].
  - rewrite getHighRiskBatchIds_page by lia. repeat f_equal. lia.
  - intros Hnil. rewrite Hnil in Hlen. simpl in Hlen. lia.
Qed.

(** X2. [cursor + limit] is computed in checked arithmetic before it is
    clamped to the length of the index: a call whose cursor lies inside
    the index and whose [cursor + limit] exceeds [2^256 - 1] panics
    instead of returning the rest of the index. *)
Theorem getHighRiskBatchIds_overflow_panics cursor limit s :
  in_uint 256 cursor -> in_uint 256 limit ->
  cursor < Z.of_nat (length (_highRiskBatchIds s)) ->
  MAX_UINT 256 < cursor + limit ->
  run (getHighRiskBatchIds cursor limit) s = Err (Panic PANIC_ARITH).
Proof.
  intros [Hc0 Hc1] [Hl0 Hl1] Hin Hover.
  unfold run, getHighRiskBatchIds. wp_unfold_head. unfold bind at 1, get.
  rewrite (proj2 (Z.eqb_neq limit 0)) by lia.
  rewrite (proj2 (Z.leb_gt _ _)) by lia. simpl.
  unfold bind, lift, checked_add. by rewrite (proj2 (Z.leb_gt _ _)) by lia.
Qed.

Lemma read_pages_reads s limit : forall fuel cursor,
  0 < limit -> 0 <= cursor <= Z.of_nat (length (_highRiskBatchIds s)) ->
  Z.of_nat (length (_highRiskBatchIds s)) - cursor <= Z.of_nat fuel * limit ->
  (forall k, 0 <= k -> cursor + k * limit < Z.of_nat (length (_highRiskBatchIds s)) ->
             cursor + k * limit + limit <= MAX_UINT 256) ->
  read_pages fuel cursor limit s = Ok (drop (Z.to_nat cursor) (_highRiskBatchIds s)).
Proof.
  set (arr := _highRiskBatchIds s).
  induction fuel as [|fuel IH]; intros cursor Hlim Hc Hfuel Hfit.
  - simpl. rewrite drop_ge by lia. done.
  - rewrite Nat2Z.inj_succ, Z.mul_succ_l in Hfuel.
    assert (0 <= Z.of_nat fuel * limit) by (apply Z.mul_nonneg_nonneg; lia).
    simpl. destruct (Z.eq_dec cursor (Z.of_nat (length arr))) as [Hend|Hin].
    + rewrite getHighRiskBatchIds_empty by (right; fold arr; lia).
      rewrite drop_ge by lia. done.
    + pose proof (Hfit 0 ltac:(lia) ltac:(fold arr; lia)) as Hsum.
      rewrite getHighRiskBatchIds_page by (fold arr; lia). fold arr.
      pose proof (page_of_length arr cursor limit ltac:(lia) ltac:(lia)) as Hlen.
      destruct (page_of arr cursor limit) as [|x ids] eqn:Hpage; [simpl in Hlen; lia|].
      rewrite IH; [|lia|lia|lia|].
      * f_equal. rewrite <- Hpage. unfold page_of.
        rewrite <- (take_drop (Z.to_nat limit) (drop (Z.to_nat cursor) arr)) at 2.
        f_equal. rewrite drop_drop.
        destruct (Z.le_ge_cases (cursor + limit) (Z.of_nat (length arr))).
        -- f_equal. lia.
        -- rewrite !drop_ge; [done | lia | lia].
      * intros k Hk Hlt.
        assert (0 <= k * limit) by (apply Z.mul_nonneg_nonneg; lia).
        pose proof (Hfit (k + 1) ltac:(lia)) as Hnext.
        rewrite Z.mul_add_distr_r, Z.mul_1_l in Hnext. fold arr in Hnext. lia.
Qed.

(** X3. Reading the index page by page, on a storage that does not change
    between the calls. [read_pages] is the loop of a reader: it starts at
    cursor 0, asks for [limit > 0] ids at a time at the cursor that the
    previous call returned, and stops at the first empty page or after
    [fuel] calls. With [fuel * limit] at least the length of the index,
    the loop returns the whole index, each id once and in order, provided
    no request made inside the index has [cursor + limit] above
    [2^256 - 1]; an index of at most [2^255] ids is read in full with
    every [limit] from 1 to [2^256 - 1]. *)
Theorem read_pages_covers_index fuel limit s :
  0 < limit ->
  Z.of_nat (length (_highRiskBatchIds s)) <= Z.of_nat fuel * limit ->
  ((forall k, 0 <= k -> k * limit < Z.of_nat (length (_highRiskBatchIds s)) ->
              k * limit + limit <= MAX_UINT 256) ->
   read_pages fuel 0 limit s = Ok (_highRiskBatchIds s)) /\
  (limit <= MAX_UINT 256 -> Z.of_nat (length (_highRiskBatchIds s)) <= 2 ^ 255 ->
   read_pages fuel 0 limit s = Ok (_highRiskBatchIds s)).
Proof.
  intros Hlim Hfuel.
  assert ((forall k, 0 <= k -> k * limit < Z.of_nat (length (_highRiskBatchIds s)) ->
                     k * limit + limit <= MAX_UINT 256) ->
          read_pages fuel 0 limit s = Ok (_highRiskBatchIds s)) as Hgen.
  { intros Hfit. rewrite read_pages_reads; [done | done | lia | lia |].
    intros k Hk Hlt. apply (Hfit k Hk). lia. }
  split; [exact Hgen|].
  intros Hmax Hlen. apply Hgen. intros k Hk Hlt.
  assert (MAX_UINT 256 = 2 * 2 ^ 255 - 1) as -> by reflexivity.
  destruct (Z.eq_dec k 0) as [->|Hne].
  - rewrite Z.mul_0_l. change (2 * 2 ^ 255 - 1) with (MAX_UINT 256). lia.
  - assert (limit <= k * limit).
    { replace k with (1 + (k - 1)) by lia. rewrite Z.mul_add_distr_r, Z.mul_1_l.
      assert (0 <= (k - 1) * limit) by (apply Z.mul_nonneg_nonneg; lia). lia. }
    lia.
Qed.

(** ** Modifiers *)

Lemma bind_Err {A B} (m : M A) (k : A -> M B) s l e :
  m s l = Err e -> bind m k s l = Err e.
Proof. unfold bind. by intros ->. Qed.

Lemma whenNotPaused_bind {B} (k : unit -> M B) s l :
  bind whenNotPaused k s l = if _paused s then Err EnforcedPause else k tt s l.
Proof. unfold whenNotPaused, bind, get. wp_unfold_head. unfold bind. by destruct (_paused s). Qed.

Lemma onlyRole_bind {B} r env (k : unit -> M B) s l :
  bind (onlyRole r env) k s l
  = if hasRole r (msg_sender env) s then k tt s l
    else Err (AccessControlUnauthorizedAccount (msg_sender env) r).
Proof.
  unfold onlyRole, bind, get. wp_unfold_head. unfold bind.
  by destruct (hasRole r (msg_sender env) s).
Qed.

(** X4. An entry point with an [onlyRole] modifier reverts for a caller
    who does not hold the role, with [AccessControlUnauthorizedAccount];
    where [whenNotPaused] comes before it and the contract is paused, the
    revert is [EnforcedPause]. The bounty pool can be withdrawn by the
    default admin only, not by a regulator as such. *)
Theorem missing_role_rejects_call env c s r :
  required_role c = Some r -> hasRole r (msg_sender env) s = false ->
  run (execute env c) s
  = Err (if pausable c && _paused s then EnforcedPause
         else AccessControlUnauthorizedAccount (msg_sender env) r).
Proof.
  intros Hreq Hno. unfold run.
  destruct c; simpl in Hreq; simplify_eq; cbn [pausable andb execute];
    unfold_calls; unfold discard, mintBatch, mintBatchWithCompliance; wp_unfold_head;
    repeat first
      [ rewrite whenNotPaused_bind | rewrite onlyRole_bind, Hno
      | apply bind_Err ];
    try done; by destruct (_paused s).
Qed.

(** X5. While the contract is paused, every entry point that carries
    [whenNotPaused] reverts with [EnforcedPause] for every caller and every
    input: minting, transfers to the next owner, custody checkpoints, lab
    attestations, model updates, quarantine, reports and resolutions. The
    paused contract keeps its storage. *)
Theorem paused_contract_rejects_operational_calls env c s :
  _paused s = true -> pausable c = true ->
  run (execute env c) s = Err EnforcedPause /\ transact (execute env c) s = s.
Proof.
  intros Hp Hc.
  assert (run (execute env c) s = Err EnforcedPause) as Hrun.
  { unfold run.
    destruct c; simpl in Hc; try discriminate; cbn [execute];
      unfold_calls; unfold discard, mintBatch, mintBatchWithCompliance; wp_unfold_head;
      repeat first [ rewrite whenNotPaused_bind, Hp | apply bind_Err ]; done. }
  split; [done|]. unfold transact. by rewrite Hrun.
Qed.

(** ** Roles *)

(** X6. A caller who is neither regulator nor default admin cannot give
    a role to anybody, itself included: whatever call of such a caller
    succeeds, every account that holds a role afterwards held it before. *)
Theorem unprivileged_caller_gains_no_role env c s s' l r a :
  run (execute env c) s = Ok (tt, s', l) ->
  hasRole REGULATOR_ROLE (msg_sender env) s = false ->
  hasRole DEFAULT_ADMIN_ROLE (msg_sender env) s = false ->
  hasRole r a s' = true -> hasRole r a s = true.
Proof.
  intros Hrun Hreg Hadm.
  wp_start Hrun (fun (_ : unit) s' (_ : list Effect) =>
    hasRole r a s' = true -> hasRole r a s = true).
  destruct c; unfold_calls; wp_run_storage; norm_all; try done.
  all: try congruence.
  all: rewrite sload_insert; case_decide; simplify_eq; done.
Qed.

(** ** Policy parameters *)

Lemma policy_inv_init deployer : policy_inv (constructor deployer).
Proof. unfold policy_inv, constructor. norm_state. vm_compute. intuition discriminate. Qed.

Lemma policy_inv_step s s' : step s s' -> policy_inv s -> policy_inv s'.
Proof.
  intros (env & c & l & Henv & Hc & Hrun) Hpol.
  wp_start Hrun (fun (_ : unit) s' (_ : list Effect) => policy_inv s').
  unfold policy_inv in *.
  destruct c; unfold_calls; simpl in Hc; wp_run_storage; norm_state; try done.
  bool_hyps. unfold in_uint in *. lia.
Qed.

Lemma policy_inv_reachable s : reachable s -> policy_inv s.
Proof.
  induction 1 as [deployer _ | s s' _ IH Hstep];
    [apply policy_inv_init | by eapply policy_inv_step].
Qed.

(** ** Minted tokens *)

Lemma mint_inv_init deployer : mint_inv (constructor deployer).
Proof.
  unfold mint_inv, constructor, _ownerOf. norm_state. split_and!; [done | done |].
  intros t. rewrite sload_empty. unfold zero_value, Z_zero. lia.
Qed.

Lemma mint_inv_step s s' : step s s' -> mint_inv s -> mint_inv s'.
Proof.
  intros (env & c & l & Henv & Hc & Hrun) (Hcnt & Hnn & Hown).
  wp_start Hrun (fun (_ : unit) s' (_ : list Effect) => mint_inv s').
  unfold mint_inv in *.
  destruct c; unfold_calls; simpl in Hc; wp_run_storage; checked_inv; norm_all; try done.
  all: bool_hyps.
  all: split_and!; try lia.
  all: intros t0; rewrite sload_insert; case_decide; subst;
       rewrite ?Hown in *; try lia.
  all: rewrite <- Hown; lia.
Qed.

Lemma mint_inv_reachable s : reachable s -> mint_inv s.
Proof.
  induction 1 as [deployer _ | s s' _ IH Hstep];
    [apply mint_inv_init | by eapply mint_inv_step].
Qed.

Lemma batch_identity_step s s' t :
  step s s' -> mint_inv s -> _ownerOf t s <> 0 ->
  batch_identity (batches s' @@ t) = batch_identity (batches s @@ t).
Proof.
  intros (env & c & l & Henv & Hc & Hrun) (Hcnt & Hnn & Hown) Ht.
  apply Hown in Ht.
  wp_start Hrun (fun (_ : unit) s' (_ : list Effect) =>
    batch_identity (batches s' @@ t) = batch_identity (batches s @@ t)).
  unfold batch_identity.
  destruct c; unfold_calls; simpl in Hc; wp_run_storage; checked_inv; norm_all; try done.
  all: rewrite ?sload_insert; repeat case_decide; subst; norm_rec; try done.
  all: lia.
Qed.

Lemma owner_step s s' t : step s s' -> _ownerOf t s <> 0 -> _ownerOf t s' <> 0.
Proof.
  intros (env & c & l & Henv & Hc & Hrun) Ht.
  wp_start Hrun (fun (_ : unit) s' (_ : list Effect) => _ownerOf t s' <> 0).
  destruct c; unfold_calls; simpl in Hc; wp_run_storage; checked_inv; norm_all; try done.
  all: bool_hyps.
  all: rewrite sload_insert; case_decide; subst; done.
Qed.

Lemma report_ids_inv_init deployer : report_ids_inv (constructor deployer).
Proof.
  unfold report_ids_inv, constructor. norm_state. split_and!; try done.
  intros id. rewrite lookup_empty. split; [done | lia].
Qed.

Lemma report_ids_inv_step s s' : step s s' -> report_ids_inv s -> report_ids_inv s'.
Proof.
  intros (env & c & l & Henv & Hc & Hrun) (Hcnt & Hnn & Hdom & Hid).
  wp_start Hrun (fun (_ : unit) s' (_ : list Effect) => report_ids_inv s').
  unfold report_ids_inv in *.
  destruct c; unfold_calls; simpl in Hc; wp_run_storage; checked_inv; norm_all; try done.
  all: bool_hyps.
  all: try match goal with
       | H : FakeReport.reporter (reports _ @@ ?id) <> 0 |- _ =>
           pose proof (report_known_ne _ _ H) as Hknown;
           pose proof (proj1 (Hdom id) Hknown)
       end.
  all: split_and!; try lia.
  all: try (intros id0; rewrite lookup_insert; case_decide; subst;
            [split; [lia | done] | rewrite Hdom; lia]).
  all: intros id0 r0; rewrite lookup_insert; case_decide; subst;
       [intros [= <-]; norm_rec | apply Hid].
  all: try reflexivity.
  all: match goal with
       | Hk : reports ?s0 !! ?id <> None |- _ =>
           destruct (reports s0 !! id) as [r1|] eqn:Hr1; [|done];
           rewrite (sload_Some _ _ _ Hr1); by apply Hid
       end.
Qed.

Lemma report_ids_inv_reachable s : reachable s -> report_ids_inv s.
Proof.
  induction 1 as [deployer _ | s s' _ IH Hstep];
    [apply report_ids_inv_init | by eapply report_ids_inv_step].
Qed.

Lemma report_identity_step s s' id r :
  step s s' -> ids_inv s -> reports s !! id = Some r ->
  exists r', reports s' !! id = Some r' /\ report_identity r' = report_identity r.
Proof.
  intros (env & c & l & Henv & Hc & Hrun) Hids Hr.
  wp_start Hrun (fun (_ : unit) s' (_ : list Effect) =>
    exists r', reports s' !! id = Some r' /\ report_identity r' = report_identity r).
  unfold report_identity, ids_inv in *.
  destruct c; unfold_calls; simpl in Hc; wp_run_storage; checked_inv; norm_all.
  all: try (exists r; split; [assumption | reflexivity]).
  all: rewrite lookup_insert;
       match goal with |- context [decide (?a = ?b)] => destruct (decide (a = b)) end; subst.
  all: try (exists r; split; [assumption | reflexivity]).
  all: try (rewrite Hids in Hr by lia; done).
  all: eexists; split; [reflexivity|]; norm_rec; by rewrite (sload_Some _ _ _ Hr).
Qed.

(** ** Counting reports *)

Section count_reports.
Context (Q : FakeReport.t -> Prop) `{!forall r, Decision (Q r)}.
Implicit Types (m : gmap Z FakeReport.t) (id : Z) (r : FakeReport.t).

Lemma count_reports_insert_fresh m id r :
  m !! id = None ->
  Z.of_nat (count_reports Q (<[id := r]> m)) = Z.of_nat (count_reports Q m) + ind (Q r).
Proof.
  intros Hnone. unfold count_reports, ind. case_decide as HQ.
  - rewrite map_filter_insert_True by done.
    rewrite map_size_insert_None; [lia|].
    apply map_lookup_filter_None. by left.
  - rewrite map_filter_insert_not'; [lia | done |]. intros y Hy. congruence.
Qed.

Lemma count_reports_insert m id r :
  Z.of_nat (count_reports Q (<[id := r]> m))
  = Z.of_nat (count_reports Q m)
    - match m !! id with Some r0 => ind (Q r0) | None => 0 end + ind (Q r).
Proof.
  destruct (m !! id) as [r0|] eqn:Hm.
  - rewrite <- (insert_delete_eq m id r).
    rewrite <- (insert_delete_id m id r0 Hm) at 2.
    rewrite !count_reports_insert_fresh by apply lookup_delete_eq. lia.
  - rewrite count_reports_insert_fresh by done. lia.
Qed.

Lemma count_reports_empty : count_reports Q ∅ = 0%nat.
Proof. unfold count_reports. by rewrite map_filter_empty, map_size_empty. Qed.

Lemma count_reports_pos m id r :
  m !! id = Some r -> Q r -> 0 < Z.of_nat (count_reports Q m).
Proof.
  intros Hm HQ. unfold count_reports.
  assert (size (filter (fun kr : Z * FakeReport.t => Q kr.2) m) <> 0%nat); [|lia].
  apply (map_size_ne_0_lookup_2 _ id). exists r. by apply map_lookup_filter_Some_2.
Qed.

Lemma count_reports_zero m :
  (forall id r, m !! id = Some r -> ~ Q r) -> count_reports Q m = 0%nat.
Proof.
  intros Hno. unfold count_reports. apply map_size_empty_iff, map_empty_filter.
  intros id r Hr HQ. by apply (Hno id r).
Qed.

Lemma count_reports_witness m :
  0 < Z.of_nat (count_reports Q m) -> exists id r, m !! id = Some r /\ Q r.
Proof.
  intros Hpos. unfold count_reports in Hpos.
  assert (filter (fun kr : Z * FakeReport.t => Q kr.2) m <> ∅) as Hne.
  { intros Hempty. rewrite Hempty, map_size_empty in Hpos. lia. }
  apply map_choose in Hne as (id & r & Hr). apply map_lookup_filter_Some in Hr as [Hm HQ].
  eauto.
Qed.
End count_reports.

Lemma size_insert_report (m : gmap Z FakeReport.t) id r :
  Z.of_nat (size (<[id := r]> m))
  = Z.of_nat (size m) + match m !! id with Some _ => 0 | None => 1 end.
Proof.
  destruct (m !! id) as [r0|] eqn:Hm.
  - rewrite map_size_insert_Some by eauto. lia.
  - rewrite map_size_insert_None by done. lia.
Qed.

(** Name the report that [resolveReport] has found under [reportId]. *)
Ltac known_report :=
  match goal with
  | H : FakeReport.reporter (reports ?s0 @@ ?id) <> 0 |- _ =>
      let r0 := fresh "r0" in
      let Hr0 := fresh "Hr0" in
      pose proof (report_known_ne _ _ H) as Hr0;
      destruct (reports s0 !! id) as [r0|] eqn:?; [clear Hr0|done];
      match goal with
      | Hl : reports s0 !! id = Some r0 |- _ => rewrite (sload_Some _ _ _ Hl) in *
      end
  end.

Lemma totals_inv_init deployer : totals_inv (constructor deployer).
Proof.
  unfold totals_inv, constructor. norm_state.
  by rewrite !count_reports_empty, map_size_empty.
Qed.

Lemma totals_inv_step s s' : step s s' -> ids_inv s -> totals_inv s -> totals_inv s'.
Proof.
  intros (env & c & l & Henv & Hc & Hrun) Hids (Hfiled & Hopen & Hconf).
  wp_start Hrun (fun (_ : unit) s' (_ : list Effect) => totals_inv s').
  unfold totals_inv, ids_inv in *.
  destruct c; unfold_calls; simpl in Hc; wp_run_storage; checked_inv; norm_all.
  all: try (split_and!; assumption).
  all: bool_hyps; try known_report.
  all: try match goal with
       | Hl : reports _ !! _ = Some ?r, Hp : FakeReport.status ?r = Pending |- _ =>
           pose proof (count_reports_pos (fun r => FakeReport.status r = Pending)
                         _ _ _ Hl Hp)
       end.
  all: rewrite ?size_insert_report, ?count_reports_insert.
  all: try rewrite (Hids _ (Z.le_refl _)).
  all: repeat match goal with Hl : reports _ !! _ = Some _ |- _ => rewrite Hl end.
  all: unfold ind; norm_rec; repeat case_decide; try congruence.
  all: unfold dec_floor; repeat case_match; bool_hyps; split_and!; lia.
Qed.

Lemma profile_counts_inv_init deployer : profile_counts_inv (constructor deployer).
Proof.
  unfold profile_counts_inv, constructor. norm_state. intros a.
  rewrite !count_reports_empty, sload_empty. done.
Qed.

Ltac count_finish :=
  unfold ind; norm_rec; repeat case_decide; destruct_and?; simplify_eq; norm_rec;
  try (exfalso; intuition congruence);
  unfold dec_floor; repeat case_match; bool_hyps; try lia.

Lemma profile_counts_inv_step s s' :
  step s s' -> ids_inv s -> profile_counts_inv s -> profile_counts_inv s'.
Proof.
  intros (env & c & l & Henv & Hc & Hrun) Hids Hinv.
  wp_start Hrun (fun (_ : unit) s' (_ : list Effect) => profile_counts_inv s').
  unfold profile_counts_inv, ids_inv in *.
  destruct c; unfold_calls; simpl in Hc; wp_run_storage; checked_inv; norm_all.
  all: try assumption.
  all: intros a; specialize (Hinv a) as (Hsub & Hopen & Hconf & Hrej); cbv zeta.
  all: try (rewrite sload_insert; case_decide; subst; norm_rec; by split_and!).
  all: bool_hyps; try known_report.
  all: try match goal with
       | Hl : reports _ !! _ = Some ?r, Hp : FakeReport.status ?r = Pending |- _ =>
           pose proof (count_reports_pos
                         (fun r0 => FakeReport.reporter r0 = FakeReport.reporter r /\
                                    FakeReport.status r0 = Pending)
                         _ _ _ Hl (conj eq_refl Hp))
       end.
  all: rewrite ?count_reports_insert.
  all: try rewrite (Hids _ (Z.le_refl _)).
  all: repeat match goal with Hl : reports _ !! _ = Some _ |- _ => rewrite Hl end.
  all: rewrite ?sload_insert.
  all: split_and!; count_finish.
Qed.

Lemma batch_counts_inv_init deployer : batch_counts_inv (constructor deployer).
Proof.
  unfold batch_counts_inv, constructor. norm_state. intros t.
  rewrite !count_reports_empty, sload_empty. done.
Qed.

Lemma batch_counts_inv_step s s' :
  step s s' -> ids_inv s -> exists_inv s -> batch_counts_inv s -> batch_counts_inv s'.
Proof.
  intros (env & c & l & Henv & Hc & Hrun) Hids [Hrep Hbat] Hinv.
  wp_start Hrun (fun (_ : unit) s' (_ : list Effect) => batch_counts_inv s').
  unfold batch_counts_inv, ids_inv in *.
  destruct c; unfold_calls; simpl in Hc; wp_run_storage; checked_inv; norm_all.
  all: try assumption.
  all: intros t0; specialize (Hinv t0) as Hopen.
  all: try (rewrite ?sload_insert; repeat case_decide; subst; norm_rec; exact Hopen).
  all: bool_hyps.
  (* minting: no report refers to the fresh token *)
  1-2: rewrite sload_insert; case_decide; subst; norm_rec; [|done];
       rewrite count_reports_zero; [done|]; intros id r Hr [Ht _];
       apply (Hrep id); [congruence|]; rewrite (sload_Some _ _ _ Hr);
       simpl in Ht; congruence.
  all: try known_report.
  all: try match goal with
       | Hl : reports _ !! _ = Some ?r, Hp : FakeReport.status ?r = Pending |- _ =>
           pose proof (count_reports_pos
                         (fun r0 => FakeReport.tokenId r0 = FakeReport.tokenId r /\
                                    FakeReport.status r0 = Pending)
                         _ _ _ Hl (conj eq_refl Hp))
       end.
  all: rewrite ?count_reports_insert.
  all: try rewrite (Hids _ (Z.le_refl _)).
  all: repeat match goal with Hl : reports _ !! _ = Some _ |- _ => rewrite Hl end.
  all: rewrite ?sload_insert.
  all: count_finish.
Qed.

Lemma open_flag_inv_init deployer : open_flag_inv (constructor deployer).
Proof.
  unfold open_flag_inv, constructor. norm_state. intros a t.
  rewrite !count_reports_empty, sload_empty. done.
Qed.

Lemma open_flag_inv_step s s' :
  step s s' -> ids_inv s -> open_flag_inv s -> open_flag_inv s'.
Proof.
  intros (env & c & l & Henv & Hc & Hrun) Hids Hinv.
  wp_start Hrun (fun (_ : unit) s' (_ : list Effect) => open_flag_inv s').
  unfold open_flag_inv, ids_inv in *.
  destruct c; unfold_calls; simpl in Hc; wp_run_storage; checked_inv; norm_all.
  all: try assumption.
  all: intros a t0; specialize (Hinv a t0) as Hflag.
  all: bool_hyps; try known_report.
  all: try match goal with
       | Hl : reports _ !! _ = Some ?r, Hp : FakeReport.status ?r = Pending |- _ =>
           pose proof (count_reports_pos
                         (fun r0 => FakeReport.reporter r0 = FakeReport.reporter r /\
                                    FakeReport.tokenId r0 = FakeReport.tokenId r /\
                                    FakeReport.status r0 = Pending)
                         _ _ _ Hl (conj eq_refl (conj eq_refl Hp)))
       end.
  all: rewrite ?count_reports_insert.
  all: try rewrite (Hids _ (Z.le_refl _)).
  all: repeat match goal with Hl : reports _ !! _ = Some _ |- _ => rewrite Hl end.
  all: rewrite ?sload_insert.
  all: unfold ind; norm_rec; repeat case_decide; destruct_and?; simplify_eq; norm_rec;
       try (exfalso; intuition congruence).
  all: repeat match goal with
       | H : hasOpenReportForBatch _ @@ _ = _ |- _ => rewrite H in *
       end.
  all: try lia.
  all: destruct (hasOpenReportForBatch _ @@ _); lia.
Qed.

(** ** Funds *)

Lemma sum_reports_insert_fresh f (m : gmap Z FakeReport.t) id r :
  m !! id = None -> sum_reports f (<[id := r]> m) = sum_reports f m + f r.
Proof.
  intros Hnone. unfold sum_reports. rewrite map_fold_insert_L; [lia | | done].
  intros. lia.
Qed.

Lemma sum_reports_insert f (m : gmap Z FakeReport.t) id r :
  sum_reports f (<[id := r]> m)
  = sum_reports f m - match m !! id with Some r0 => f r0 | None => 0 end + f r.
Proof.
  destruct (m !! id) as [r0|] eqn:Hm.
  - rewrite <- (insert_delete_eq m id r).
    rewrite <- (insert_delete_id m id r0 Hm) at 2.
    rewrite !sum_reports_insert_fresh by apply lookup_delete_eq. lia.
  - rewrite sum_reports_insert_fresh by done. lia.
Qed.

Lemma sum_reports_empty f : sum_reports f ∅ = 0.
Proof. unfold sum_reports. by rewrite map_fold_empty. Qed.

Lemma funds_step env c s s' l :
  pool_inv s -> ids_inv s ->
  run (execute env c) s = Ok (tt, s', l) ->
  bountyPoolWei s' + escrowed (reports s') + paid_out l
  = bountyPoolWei s + escrowed (reports s) + msg_value_of c.
Proof.
  intros (Hpool & Hbps & Hbase & Hrep) Hids Hrun.
  wp_start Hrun (fun (_ : unit) s' l =>
    bountyPoolWei s' + escrowed (reports s') + paid_out l
    = bountyPoolWei s + escrowed (reports s) + msg_value_of c).
  unfold ids_inv in *.
  destruct c; unfold_calls; cbn [msg_value_of]; wp_run; checked_inv; norm_all.
  all: unfold paid_out; norm_log; cbn [foldr snd].
  all: try lia.
  all: bool_hyps; try known_report.
  all: unfold escrowed; rewrite ?sum_reports_insert.
  all: try rewrite (Hids _ (Z.le_refl _)).
  all: repeat match goal with Hl : reports _ !! _ = Some _ |- _ => rewrite Hl end.
  all: unfold held; norm_rec; repeat case_decide; try congruence.
  all: try lia.
  all: match goal with
       | Hl : reports _ !! ?id = Some ?r |- _ =>
           destruct (Hrep id) as [Hstake Hsev]; rewrite (sload_Some _ _ _ Hl) in Hstake, Hsev
       end.
  all: repeat match goal with
       | H : context [if ?c then _ else _] |- _ => destruct c eqn:?
       end; bool_hyps.
  all: try lia.
  all: assert (0 <= baseRewardWei s * FakeReport.severity r0)
         by (apply Z.mul_nonneg_nonneg; lia); lia.
Qed.

(** ** Reputation *)

Lemma reputation_inv_init deployer : reputation_inv (constructor deployer).
Proof.
  unfold reputation_inv, constructor. norm_state. intros a.
  by rewrite sum_reports_empty, sload_empty.
Qed.

Lemma reputation_inv_step s s' :
  step s s' -> ids_inv s -> reputation_inv s -> reputation_inv s'.
Proof.
  intros (env & c & l & Henv & Hc & Hrun) Hids Hinv.
  wp_start Hrun (fun (_ : unit) s' (_ : list Effect) => reputation_inv s').
  unfold reputation_inv, ids_inv in *.
  destruct c; unfold_calls; simpl in Hc; wp_run_storage; checked_inv; norm_all.
  all: try assumption.
  all: intros a; specialize (Hinv a) as Hrep.
  all: try (rewrite sload_insert; case_decide; subst; norm_rec; exact Hrep).
  all: bool_hyps; try known_report.
  all: rewrite ?sum_reports_insert.
  all: try rewrite (Hids _ (Z.le_refl _)).
  all: repeat match goal with Hl : reports _ !! _ = Some _ |- _ => rewrite Hl end.
  all: rewrite ?sload_insert.
  all: repeat match goal with
       | |- context [sum_reports ?f ?m] =>
           let total := fresh "total" in set (total := sum_reports f m) in *; clearbody total
       end.
  all: unfold verdict_score; norm_rec; repeat case_decide; simplify_eq; norm_rec.
  all: repeat match goal with
       | H : FakeReport.status _ = Pending |- _ => rewrite H in *
       end.
  all: try lia.
Qed.

(** ** Per-batch lists *)

Lemma reports_by_batch_inv_init deployer : reports_by_batch_inv (constructor deployer).
Proof.
  unfold reports_by_batch_inv, constructor. norm_state. intros t.
  rewrite sload_empty. split; [apply NoDup_nil_2|].
  intros id. rewrite lookup_empty. split; [by intros ?%elem_of_nil | by intros (r & ? & _)].
Qed.

Lemma reports_by_batch_inv_step s s' :
  step s s' -> ids_inv s -> reports_by_batch_inv s -> reports_by_batch_inv s'.
Proof.
  intros (env & c & l & Henv & Hc & Hrun) Hids Hinv.
  wp_start Hrun (fun (_ : unit) s' (_ : list Effect) => reports_by_batch_inv s').
  unfold reports_by_batch_inv, ids_inv in *.
  destruct c; unfold_calls; simpl in Hc; wp_run_storage; checked_inv; norm_all.
  all: try assumption.
  all: intros t0; specialize (Hinv t0) as [Hnd Hmem].
  all: bool_hyps; try known_report.
  (* a resolved report keeps its batch *)
  all: try (split; [done|]; intros id0; rewrite Hmem, lookup_insert;
            case_decide; subst; [|done];
            split; intros (r1 & Hr1 & Ht1); simplify_eq; eexists; (split; [done|]);
            by norm_rec).
  (* a new report *)
  all: assert (reports s !! _reportIdCounter s = None) as Hfresh by (apply Hids; lia).
  all: rewrite sload_insert; case_decide; subst.
  all: try (split; [done|]; intros id0; rewrite Hmem, lookup_insert;
            case_decide; subst; [|done];
            split; [intros (r1 & Hr1 & Ht1); congruence|];
            intros (r1 & [= <-] & Ht1); by norm_rec_in Ht1).
  all: split.
  all: try (apply NoDup_app; split_and!; [done | | apply NoDup_singleton];
            intros id0 Hid0 ->%list_elem_of_singleton;
            apply Hmem in Hid0 as (r1 & Hr1 & _); congruence).
  all: intros id0; rewrite elem_of_app, list_elem_of_singleton, Hmem, lookup_insert.
  all: case_decide; subst.
  all: try (split; [intros [(r1 & Hr1 & _) | _]; [congruence|]; eexists; split; [done|]; by norm_rec
                   | by right]).
  all: split; [intros [? | ?]; [done | congruence] | by left].
Qed.

Lemma attestations_inv_init deployer : attestations_inv (constructor deployer).
Proof.
  unfold attestations_inv, constructor. norm_state. intros t att.
  rewrite sload_empty. by intros ?%elem_of_nil.
Qed.

Lemma attestations_step s s' t :
  step s s' -> attestations_inv s ->
  attestations_inv s' /\
  _labAttestationsByBatch s @@ t `prefix_of` _labAttestationsByBatch s' @@ t.
Proof.
  intros (env & c & l & Henv & Hc & Hrun) Hinv.
  wp_start Hrun (fun (_ : unit) s' (_ : list Effect) =>
    attestations_inv s' /\
    _labAttestationsByBatch s @@ t `prefix_of` _labAttestationsByBatch s' @@ t).
  unfold attestations_inv in *.
  destruct c; unfold_calls; simpl in Hc; wp_run_storage; checked_inv; norm_all.
  all: try (split; [assumption | reflexivity]).
  all: bool_hyps; unfold in_uint in *.
  all: split.
  all: try (intros t0 att; rewrite sload_insert; case_decide; subst; [|apply Hinv];
            rewrite elem_of_app, list_elem_of_singleton;
            intros [? | ->]; [by eapply Hinv | norm_rec; lia]).
  all: rewrite sload_insert; case_decide; subst; [by apply prefix_app_r | done].
Qed.

(** ** The audit invariant *)

Lemma audit_inv_init deployer : audit_inv (constructor deployer).
Proof.
  unfold audit_inv. split_and!.
  - apply policy_inv_init.
  - apply mint_inv_init.
  - apply report_ids_inv_init.
  - apply totals_inv_init.
  - apply profile_counts_inv_init.
  - apply batch_counts_inv_init.
  - apply open_flag_inv_init.
  - apply reputation_inv_init.
  - apply reports_by_batch_inv_init.
  - apply attestations_inv_init.
Qed.

Lemma audit_inv_step s s' : step s s' -> ledger_inv s -> audit_inv s -> audit_inv s'.
Proof.
  intros Hstep (_ & _ & Hids & Hex & _) (Hpol & Hmint & Hrid & Htot & Hprof & Hbat & Hflag
                                          & Hrep & Hrbb & Hatt).
  unfold audit_inv. split_and!.
  - by eapply policy_inv_step.
  - by eapply mint_inv_step.
  - by eapply report_ids_inv_step.
  - by eapply totals_inv_step.
  - by eapply profile_counts_inv_step.
  - by eapply batch_counts_inv_step.
  - by eapply open_flag_inv_step.
  - by eapply reputation_inv_step.
  - by eapply reports_by_batch_inv_step.
  - by eapply (attestations_step s s' 0).
Qed.

Lemma audit_inv_reachable s : reachable s -> audit_inv s.
Proof.
  induction 1 as [deployer _ | s s' Hs IH Hstep].
  - apply audit_inv_init.
  - eapply audit_inv_step; [done | by apply ledger_inv_reachable | done].
Qed.

(** ** Policy parameters in reachable states *)

(** X7. In every reachable state the policy parameters satisfy what
    [setPolicyParameters] checks: the minimum stake is positive, the three
    stakes are ordered, the slash fraction is at most 10000 basis points
    and the cap on open reports is positive. So the stake required for a
    report is positive and grows with the severity. *)
Theorem policy_parameters_stay_consistent s sev sev' :
  reachable s -> 1 <= sev <= sev' ->
  0 < minStakeWei s <= mediumStakeWei s /\ mediumStakeWei s <= highStakeWei s /\
  falseReportSlashBps s <= BPS_DENOMINATOR /\ 0 < maxOpenReportsPerReporter s /\
  0 < _requiredStake sev s <= _requiredStake sev' s.
Proof.
  intros Hs Hsev. destruct (policy_inv_reachable s Hs) as (? & ? & ? & ? & ?).
  split_and!; try lia.
  all: unfold _requiredStake; repeat case_match; bool_hyps; lia.
Qed.

(** ** Tokens and reports keep their identity *)

(** X8. Token ids are handed out consecutively: in every reachable state
    the existing batches are those with an id below [totalBatchesMinted],
    and a batch that does not exist has an empty record. *)
Theorem minted_batches_are_consecutive s t :
  reachable s ->
  (_ownerOf t s <> 0 <-> 0 <= t < totalBatchesMinted s) /\
  (_ownerOf t s = 0 -> batches s @@ t = Batch.zero).
Proof.
  intros Hs. destruct (mint_inv_reachable s Hs) as (Hcnt & _ & Hown).
  destruct (ledger_inv_reachable s Hs) as (_ & _ & _ & [_ Hbat] & _).
  split; [rewrite <- Hcnt; apply Hown | apply Hbat].
Qed.

(** X9. A batch is never burned, and no transaction changes what its
    record says about the product: product and manufacturer names,
    licence number, batch number, manufacturing and expiry dates, API hash
    and packaging hash stay as they were minted. *)
Theorem batch_identity_is_permanent s s' t :
  reachable s -> later s s' -> _ownerOf t s <> 0 ->
  _ownerOf t s' <> 0 /\ batch_identity (batches s' @@ t) = batch_identity (batches s @@ t).
Proof.
  intros Hs Hlater Ht. induction Hlater as [|s1 s2 Hl IH Hstep]; [done|].
  destruct IH as [Ht1 Hid1]. split; [by eapply owner_step|].
  rewrite <- Hid1. eapply batch_identity_step; [done | | done].
  apply mint_inv_reachable. by eapply reachable_later.
Qed.

Lemma report_identity_later s s' id r :
  reachable s -> later s s' -> reports s !! id = Some r ->
  exists r', reports s' !! id = Some r' /\ report_identity r' = report_identity r.
Proof.
  intros Hs Hlater Hr. induction Hlater as [|s1 s2 Hl (r1 & Hr1 & Hid1) Hstep]; [eauto|].
  assert (ids_inv s1) as Hids.
  { by destruct (ledger_inv_reachable s1 (reachable_later _ _ Hs Hl)) as (_ & _ & ? & _). }
  destruct (report_identity_step s1 s2 id r1 Hstep Hids Hr1) as (r2 & Hr2 & Hid2).
  exists r2. split; [done | congruence].
Qed.

(** X10. Report ids are handed out consecutively, a report is stored under
    its own id, and no later transaction removes a report or changes what
    was written when it was filed: id, batch, reporter, nullifier,
    evidence, reason, severity, stake and filing time. *)
Theorem report_identity_is_permanent s s' id r :
  reachable s -> later s s' -> reports s !! id = Some r ->
  0 <= id < totalReportsFiled s /\ FakeReport.reportId r = id /\
  exists r', reports s' !! id = Some r' /\ report_identity r' = report_identity r.
Proof.
  intros Hs Hlater Hr.
  destruct (report_ids_inv_reachable s Hs) as (Hcnt & _ & Hdom & Hid).
  split; [|split].
  - rewrite <- Hcnt. apply Hdom. congruence.
  - by apply Hid.
  - by eapply report_identity_later.
Qed.

(** ** Counters in reachable states *)

(** X11. The ledger-wide counters are exact in every reachable state:
    [totalReportsFiled] is the number of reports, [totalOpenReports] the
    number of pending ones and [totalConfirmedFakeReports] the number of
    reports confirmed as fake. *)
Theorem ledger_totals_are_exact s :
  reachable s ->
  totalReportsFiled s = Z.of_nat (size (reports s)) /\
  totalOpenReports s
    = Z.of_nat (count_reports (fun r => FakeReport.status r = Pending) (reports s)) /\
  totalConfirmedFakeReports s
    = Z.of_nat (count_reports (fun r => FakeReport.status r = ConfirmedFake) (reports s)).
Proof. intros Hs. by destruct (audit_inv_reachable s Hs) as (_ & _ & _ & ? & _). Qed.

Lemma count_reports_by_status (a : Z) (m : gmap Z FakeReport.t) :
  Z.of_nat (count_reports (fun r => FakeReport.reporter r = a) m)
  = Z.of_nat (count_reports (fun r => FakeReport.reporter r = a /\
                                      FakeReport.status r = Pending) m)
    + Z.of_nat (count_reports (fun r => FakeReport.reporter r = a /\
                                        FakeReport.status r = ConfirmedFake) m)
    + Z.of_nat (count_reports (fun r => FakeReport.reporter r = a /\
                                        FakeReport.status r = RejectedFalse) m).
Proof.
  induction m as [|id r m Hnone IH] using map_ind.
  - by rewrite !count_reports_empty.
  - rewrite !count_reports_insert_fresh by done. rewrite IH. unfold ind.
    destruct (FakeReport.status r) eqn:Hst; repeat case_decide; destruct_and?;
      try lia; try congruence; exfalso; intuition congruence.
Qed.

(** X12. The counters of a reporter profile are exact in every reachable
    state: reports submitted, open, confirmed and rejected are the numbers
    of that reporter's reports, of the pending, confirmed and rejected
    ones among them; so the submitted reports are the open, confirmed and
    rejected ones together. *)
Theorem profile_counters_are_exact s a :
  reachable s ->
  let p := reporterProfiles s @@ a in
  ReporterProfile.reportsSubmitted p
    = Z.of_nat (count_reports (fun r => FakeReport.reporter r = a) (reports s)) /\
  ReporterProfile.openReports p
    = Z.of_nat (count_reports (fun r => FakeReport.reporter r = a /\
                                        FakeReport.status r = Pending) (reports s)) /\
  ReporterProfile.reportsConfirmed p
    = Z.of_nat (count_reports (fun r => FakeReport.reporter r = a /\
                                        FakeReport.status r = ConfirmedFake) (reports s)) /\
  ReporterProfile.reportsRejected p
    = Z.of_nat (count_reports (fun r => FakeReport.reporter r = a /\
                                        FakeReport.status r = RejectedFalse) (reports s)) /\
  ReporterProfile.reportsSubmitted p
    = ReporterProfile.openReports p + ReporterProfile.reportsConfirmed p
      + ReporterProfile.reportsRejected p.
Proof.
  intros Hs. destruct (audit_inv_reachable s Hs) as (_ & _ & _ & _ & Hprof & _).
  destruct (Hprof a) as (Hsub & Hopen & Hconf & Hrej). cbv zeta.
  split_and!; try done.
  rewrite Hsub, Hopen, Hconf, Hrej. apply count_reports_by_status.
Qed.

(** X13. The open-report counter of a batch is the number of pending
    reports against it, in every reachable state. *)
Theorem batch_open_counter_is_exact s t :
  reachable s ->
  Batch.openReports (batches s @@ t)
  = Z.of_nat (count_reports (fun r => FakeReport.tokenId r = t /\
                                      FakeReport.status r = Pending) (reports s)).
Proof.
  intros Hs. destruct (audit_inv_reachable s Hs) as (_ & _ & _ & _ & _ & Hbat & _).
  apply Hbat.
Qed.

(** ** One open report per reporter and batch *)

Lemma count_reports_unique (Q : FakeReport.t -> Prop) `{!forall r, Decision (Q r)}
    (m : gmap Z FakeReport.t) i j r1 r2 :
  Z.of_nat (count_reports Q m) <= 1 ->
  m !! i = Some r1 -> m !! j = Some r2 -> Q r1 -> Q r2 -> i = j.
Proof.
  intros Hle Hi Hj HQ1 HQ2. destruct (decide (i = j)) as [|Hne]; [done|]. exfalso.
  rewrite <- (insert_delete_id m i r1 Hi) in Hle.
  rewrite count_reports_insert_fresh in Hle by apply lookup_delete_eq.
  assert (delete i m !! j = Some r2) as Hj' by (by rewrite lookup_delete_ne).
  pose proof (count_reports_pos Q _ _ _ Hj' HQ2).
  unfold ind in Hle. rewrite decide_True in Hle by done. lia.
Qed.

Lemma pending_report_sets_flag s id r :
  reachable s -> reports s !! id = Some r -> FakeReport.status r = Pending ->
  hasOpenReportForBatch s @@ (FakeReport.reporter r, FakeReport.tokenId r) = true.
Proof.
  intros Hs Hr Hp.
  destruct (audit_inv_reachable s Hs) as (_ & _ & _ & _ & _ & _ & Hflag & _).
  specialize (Hflag (FakeReport.reporter r) (FakeReport.tokenId r)).
  pose proof (count_reports_pos
                (fun r0 => FakeReport.reporter r0 = FakeReport.reporter r /\
                           FakeReport.tokenId r0 = FakeReport.tokenId r /\
                           FakeReport.status r0 = Pending)
                _ _ _ Hr (conj eq_refl (conj eq_refl Hp))) as Hpos.
  rewrite Hflag in Hpos. by case_match.
Qed.

(** X14. A reporter has at most one pending report against a batch: in a
    reachable state two pending reports of the same reporter against the
    same batch are one report, and [hasOpenReportForBatch] is set for that
    reporter and batch. *)
Theorem one_pending_report_per_reporter_and_batch s id1 id2 r1 r2 :
  reachable s ->
  reports s !! id1 = Some r1 -> reports s !! id2 = Some r2 ->
  FakeReport.status r1 = Pending -> FakeReport.status r2 = Pending ->
  FakeReport.reporter r1 = FakeReport.reporter r2 ->
  FakeReport.tokenId r1 = FakeReport.tokenId r2 ->
  id1 = id2 /\
  hasOpenReportForBatch s @@ (FakeReport.reporter r1, FakeReport.tokenId r1) = true.
Proof.
  intros Hs Hr1 Hr2 Hp1 Hp2 Hrep Htok.
  split; [|by eapply pending_report_sets_flag].
  destruct (audit_inv_reachable s Hs) as (_ & _ & _ & _ & _ & _ & Hflag & _).
  specialize (Hflag (FakeReport.reporter r1) (FakeReport.tokenId r1)).
  assert (Z.of_nat (count_reports
            (fun r0 => FakeReport.reporter r0 = FakeReport.reporter r1 /\
                       FakeReport.tokenId r0 = FakeReport.tokenId r1 /\
                       FakeReport.status r0 = Pending) (reports s)) <= 1) as Hle.
  { rewrite Hflag. case_match; lia. }
  by apply (count_reports_unique _ _ _ _ _ _ Hle Hr1 Hr2).
Qed.

Lemma report_fails_on_open_report env v t n e r sev s :
  hasOpenReportForBatch s @@ (msg_sender env, t) = true ->
  fails (reportSuspiciousBatch env v t n e r sev) s.
Proof.
  intros Hopen. apply wp_fails.
  unfold reportSuspiciousBatch. wp_run_storage; norm_all; bool_hyps. all: congruence.
Qed.

(** X15. While a report of a reporter against a batch is pending, every
    further report of that reporter against that batch fails, whatever
    nullifier, evidence, severity or stake comes with it. *)
Theorem pending_report_blocks_duplicate env v n e rs sev s id r :
  reachable s ->
  reports s !! id = Some r -> FakeReport.status r = Pending ->
  msg_sender env = FakeReport.reporter r ->
  fails (reportSuspiciousBatch env v (FakeReport.tokenId r) n e rs sev) s.
Proof.
  intros Hs Hr Hp Hsender. apply report_fails_on_open_report. rewrite Hsender.
  by eapply pending_report_sets_flag.
Qed.

(** ** Funds and reputation in reachable states *)

(** X16. Every wei is accounted for: a successful call changes the bounty
    pool plus the stakes held for pending reports by exactly the value
    that came with the call minus the value that the call sent out. *)
Theorem funds_are_accounted env c s s' l :
  reachable s ->
  run (execute env c) s = Ok (tt, s', l) ->
  bountyPoolWei s' + escrowed (reports s')
  = bountyPoolWei s + escrowed (reports s) + msg_value_of c - paid_out l.
Proof.
  intros Hs Hrun.
  destruct (ledger_inv_reachable s Hs) as (_ & Hpool & Hids & _).
  pose proof (funds_step env c s s' l Hpool Hids Hrun). lia.
Qed.

(** X17. The reputation of a reporter is the sum of the verdicts on that
    reporter's reports: [10 + severity * 4] for each report confirmed as
    fake, [- (12 + severity * 6)] for each rejected one, nothing for a
    pending one. *)
Theorem reputation_is_sum_of_verdicts s a :
  reachable s ->
  ReporterProfile.reputation (reporterProfiles s @@ a)
  = sum_reports (verdict_score a) (reports s).
Proof.
  intros Hs.
  destruct (audit_inv_reachable s Hs) as (_ & _ & _ & _ & _ & _ & _ & Hrep & _).
  apply Hrep.
Qed.

(** ** Reading the per-batch lists *)

(** X18. [getReportsForBatch] reverts for a batch that does not exist;
    for an existing batch it returns, without duplicates, exactly the ids
    of the reports filed against that batch. *)
Theorem getReportsForBatch_lists_filed_reports t s :
  reachable s ->
  (_ownerOf t s = 0 -> run (getReportsForBatch t) s = Err (Revert "Unknown batch")) /\
  (_ownerOf t s <> 0 ->
   exists ids, run (getReportsForBatch t) s = Ok (ids, s, []) /\ NoDup ids /\
     forall id, id ∈ ids
                <-> exists r, reports s !! id = Some r /\ FakeReport.tokenId r = t).
Proof.
  intros Hs.
  destruct (audit_inv_reachable s Hs) as (_ & _ & _ & _ & _ & _ & _ & _ & Hrbb & _).
  unfold run, getReportsForBatch, _requireBatchExists. wp_unfold_head.
  unfold bind, get, require, ret, revert.
  split; intros Ht.
  - by rewrite Ht.
  - rewrite (proj2 (Z.eqb_neq _ _) Ht). cbn [negb].
    eexists. split; [done|]. apply Hrbb.
Qed.

(** X19. The lab attestations of a batch are append-only: what is
    recorded stays recorded, in order, under every later transaction; and
    every recorded attestation carries a confidence of at most 10000 basis
    points. *)
Theorem lab_attestations_are_append_only s s' t :
  reachable s -> later s s' ->
  _labAttestationsByBatch s @@ t `prefix_of` _labAttestationsByBatch s' @@ t /\
  forall att, att ∈ _labAttestationsByBatch s' @@ t ->
              0 <= LabAttestation.confidenceBps att <= BPS_DENOMINATOR.
Proof.
  intros Hs Hlater.
  assert (attestations_inv s) as Hinv.
  { by destruct (audit_inv_reachable s Hs) as (_ & _ & _ & _ & _ & _ & _ & _ & _ & ?). }
  assert (attestations_inv s' /\
          _labAttestationsByBatch s @@ t `prefix_of` _labAttestationsByBatch s' @@ t)
    as [Hinv' Hpre].
  { induction Hlater as [|s1 s2 Hl [Hinv1 Hpre1] Hstep]; [done|].
    destruct (attestations_step s1 s2 t Hstep Hinv1) as [Hinv2 Hpre2].
    split; [done | by etrans]. }
  split; [done | apply Hinv'].
Qed.

(** ** Withdrawals and policy updates *)

(** X20. What [withdrawBountyPool] does for the default admin, paused or
    not: an amount above the pool is refused; otherwise the pool is
    debited by the amount and the amount is sent to the receiver, and the
    call reverts when the receiver does not accept it. An amount of zero
    is accepted. *)
Theorem withdrawBountyPool_outcomes env amount to s :
  hasRole DEFAULT_ADMIN_ROLE (msg_sender env) s = true ->
  _entered s = false -> to <> 0 ->
  run (withdrawBountyPool env amount to) s
  = if bountyPoolWei s <? amount then Err (Revert "Insufficient bounty pool")
    else if call_succeeds env to amount
         then Ok (tt, set_bountyPoolWei (bountyPoolWei s - amount) s, [SendValue to amount])
         else Err (Revert "Transfer failed").
Proof.
  intros Hadmin Hent Hto.
  unfold run, withdrawBountyPool. wp_unfold_head. rewrite onlyRole_bind, Hadmin.
  unfold nonReentrant. wp_unfold_head.
  unfold bind, get, modify, require, lift, checked_sub, call_value, ret, revert.
  rewrite Hent, (proj2 (Z.eqb_neq _ _) Hto). cbn [negb]. norm_state.
  destruct (Z.ltb_spec (bountyPoolWei s) amount) as [Hlt|Hge].
  - by rewrite (proj2 (Z.leb_gt _ _) Hlt).
  - rewrite (proj2 (Z.leb_le _ _) Hge). norm_state.
    destruct (call_succeeds env to amount); [|done].
    do 2 f_equal. f_equal. apply state_ext; norm_state; try reflexivity. done.
Qed.

(** X21. [setPolicyParameters] succeeds exactly for a regulator whose
    parameters have a positive minimum stake, ordered stakes, a slash
    fraction of at most 10000 basis points and a positive cap on open
    reports; the base reward, the cooldown and the reputation threshold
    are not constrained. The storage it leaves is the storage it found
    with the eight parameters overwritten, every other field as it was,
    and it emits no event. *)
Theorem setPolicyParameters_accepts_exactly_valid env a b c d e f g h s :
  ((exists s' l, run (setPolicyParameters env a b c d e f g h) s = Ok (tt, s', l))
   <-> hasRole REGULATOR_ROLE (msg_sender env) s = true /\
       0 < a /\ a <= b /\ b <= c /\ e <= BPS_DENOMINATOR /\ 0 < g) /\
  (forall s' l, run (setPolicyParameters env a b c d e f g h) s = Ok (tt, s', l) ->
     l = [] /\
     s' = set_minReputationForSeverityThree h
            (set_maxOpenReportsPerReporter g
               (set_reportCooldownSec f
                  (set_falseReportSlashBps e
                     (set_baseRewardWei d
                        (set_highStakeWei c
                           (set_mediumStakeWei b (set_minStakeWei a s))))))) /\
     minStakeWei s' = a /\ mediumStakeWei s' = b /\ highStakeWei s' = c /\
     baseRewardWei s' = d /\ falseReportSlashBps s' = e /\ reportCooldownSec s' = f /\
     maxOpenReportsPerReporter s' = g /\ minReputationForSeverityThree s' = h).
Proof.
  unfold run, setPolicyParameters. wp_unfold_head. rewrite onlyRole_bind.
  unfold bind, modify, require, ret, revert.
  destruct (hasRole REGULATOR_ROLE (msg_sender env) s).
  2:{ split; [split; [by intros (? & ? & ?) | by intros [? _]] | done]. }
  destruct (Z.ltb_spec 0 a).
  2:{ split; [split; [by intros (? & ? & ?) | intros (_ & ? & _); lia] | done]. }
  destruct (Z.leb_spec a b).
  2:{ split; [split; [by intros (? & ? & ?) | intros (_ & _ & ? & _); lia] | done]. }
  destruct (Z.leb_spec b c).
  2:{ split; [split; [by intros (? & ? & ?) | intros (_ & _ & _ & ? & _); lia] | done]. }
  destruct (Z.leb_spec e BPS_DENOMINATOR).
  2:{ split; [split; [by intros (? & ? & ?) | intros (_ & _ & _ & _ & ? & _); lia] | done]. }
  destruct (Z.ltb_spec 0 g).
  2:{ split; [split; [by intros (? & ? & ?) | intros (_ & _ & _ & _ & _ & ?); lia] | done]. }
  split; [split; [done | eauto] |].
  intros s' l [= <- <-]. split; [done|]. split; [done|]. norm_state. done.
Qed.

(** ** Views *)

Lemma verifyBatch_run env t s :
  run (verifyBatch env t) s
  = if _ownerOf t s =? 0 then Err (Revert "Unknown batch")
    else
      let b := batches s @@ t in
      Ok (if Batch.expiryTimestamp b <? block_timestamp env then (false, "Expired")
          else if Batch.quarantined b then (false, "Regulator quarantined")
          else if Batch.flaggedHighRisk b then (false, "High-risk batch")
          else if 0 <? Batch.openReports b then (true, "Under investigation")
          else if (String.length (Batch.modelHash b) =? 0)%nat
               then (true, "No model attestation yet")
          else (true, "Clean"), s, []).
Proof.
  unfold run, verifyBatch, _requireBatchExists. wp_unfold_head.
  unfold bind, get, require, ret, revert.
  destruct (_ownerOf t s =? 0); [done|]. cbn [negb]. cbv zeta.
  repeat case_match; done.
Qed.

(** X22. In a reachable state [verifyBatch] never reports a batch as
    valid while the batch is quarantined or has a pending severity-3
    report against it: the verdict is invalid, with one of the three
    reasons for an invalid batch. *)
Theorem verifyBatch_rejects_risky_batches env t s :
  reachable s -> _ownerOf t s <> 0 ->
  Batch.quarantined (batches s @@ t) = true \/ pending_severe_report s t ->
  exists risk,
    run (verifyBatch env t) s = Ok ((false, risk), s, []) /\
    (risk = "Expired" \/ risk = "Regulator quarantined" \/ risk = "High-risk batch")%string.
Proof.
  intros Hs Ht Hrisk.
  pose proof (ledger_inv_reachable s Hs) as Hinv.
  assert (flagged s t = true) as Hflag.
  { destruct Hrisk as [Hq|Hp]; [|by apply pending_severe_flagged].
    destruct Hinv as (_ & _ & _ & _ & Hfl & _).
    destruct (Hfl t) as [Hquar _]. by apply Hquar. }
  unfold flagged in Hflag.
  rewrite verifyBatch_run, (proj2 (Z.eqb_neq _ _) Ht). cbv zeta. rewrite Hflag.
  repeat case_match; eexists; (split; [done|]); auto.
Qed.

(** X23. What the verdict of [verifyBatch] says about the ledger in a
    reachable state. The call writes nothing. A valid batch is not
    expired, not quarantined and has no pending severity-3 report. The
    verdict "Under investigation" is given only when some report against
    the batch is pending, and the verdicts "Clean" and "No model
    attestation yet" only when none is. *)
Theorem verifyBatch_verdict_reflects_reports env t s valid risk s' l :
  reachable s ->
  run (verifyBatch env t) s = Ok ((valid, risk), s', l) ->
  s' = s /\ l = [] /\ _ownerOf t s <> 0 /\
  (valid = true ->
     block_timestamp env <= Batch.expiryTimestamp (batches s @@ t) /\
     Batch.quarantined (batches s @@ t) = false /\ ~ pending_severe_report s t) /\
  (risk = "Under investigation"%string ->
     exists id r, reports s !! id = Some r /\ FakeReport.tokenId r = t /\
                  FakeReport.status r = Pending) /\
  (risk = "Clean"%string \/ risk = "No model attestation yet"%string ->
     forall id r, reports s !! id = Some r -> FakeReport.tokenId r = t ->
                  FakeReport.status r <> Pending).
Proof.
  intros Hs. rewrite verifyBatch_run.
  pose proof (ledger_inv_reachable s Hs) as Hinv.
  destruct (audit_inv_reachable s Hs) as (_ & _ & _ & _ & _ & Hbat & _).
  specialize (Hbat t).
  destruct (Z.eqb_spec (_ownerOf t s) 0) as [|Ht]; [done|]. cbv zeta.
  assert (pending_severe_report s t -> Batch.flaggedHighRisk (batches s @@ t) = true)
    as Hsev by (intros Hp; by apply (pending_severe_flagged s t Hinv)).
  assert (0 < Batch.openReports (batches s @@ t) ->
          exists id r, reports s !! id = Some r /\ FakeReport.tokenId r = t /\
                       FakeReport.status r = Pending) as Hsome.
  { rewrite Hbat. intros (id & r & Hr & Ht' & Hp)%count_reports_witness. eauto. }
  assert (Batch.openReports (batches s @@ t) <= 0 ->
          forall id r, reports s !! id = Some r -> FakeReport.tokenId r = t ->
                       FakeReport.status r <> Pending) as Hnone.
  { rewrite Hbat. intros Hle id r Hr Ht' Hp.
    pose proof (count_reports_pos
                  (fun r0 => FakeReport.tokenId r0 = t /\ FakeReport.status r0 = Pending)
                  _ _ _ Hr (conj Ht' Hp)). lia. }
  repeat case_match; intros [= <- <- <- <-]; bool_hyps.
  all: split_and!; try done.
  all: try (intros _; split_and!; [lia | done | intros Hp; apply Hsev in Hp; congruence]).
  all: try (intros _; apply Hsome; lia).
  all: try (intros [?|?]; done).
  all: intros _; apply Hnone; lia.
Qed.

(** X24. The dashboard summary is exact in a reachable state: the number
    of minted batches bounds the ids of the existing batches, the numbers
    of reports filed, open and confirmed as fake are those of the ledger,
    the number of high-risk batches is the number of flagged batches, and
    the pool balance is the bounty pool. *)
Theorem dashboard_summary_is_exact s :
  reachable s ->
  exists d,
    run getDashboardSummary s = Ok (d, s, []) /\
    (forall t, _ownerOf t s <> 0 <-> 0 <= t < ds_minted d) /\
    ds_reportsFiled d = Z.of_nat (size (reports s)) /\
    ds_openReports d
      = Z.of_nat (count_reports (fun r => FakeReport.status r = Pending) (reports s)) /\
    ds_confirmedFakeReports d
      = Z.of_nat (count_reports (fun r => FakeReport.status r = ConfirmedFake) (reports s)) /\
    (exists ids, NoDup ids /\ (forall t, t ∈ ids <-> flagged s t = true) /\
                 ds_highRiskBatches d = Z.of_nat (length ids)) /\
    ds_poolBalanceWei d = bountyPoolWei s.
Proof.
  intros Hs.
  destruct (audit_inv_reachable s Hs) as (_ & (Hcnt & _ & Hown) & _ & (Hf & Ho & Hc) & _).
  destruct (ledger_inv_reachable s Hs) as (_ & _ & _ & _ & _ & _ & Hcoh).
  eexists. split; [reflexivity|]. cbn [ds_minted ds_reportsFiled ds_openReports
    ds_confirmedFakeReports ds_highRiskBatches ds_poolBalanceWei].
  split_and!; try done.
  - intros t. rewrite <- Hcnt. apply Hown.
  - exists (_highRiskBatchIds s). split_and!; [by apply hr_coherent_NoDup | | done].
    intros t. by apply hr_coherent_elem_of.
Qed.

(** ** Filing a report *)

(** X25. What an accepted report has passed and what it leaves behind.
    The report gets the next id and is stored as pending with the caller
    as reporter and the whole value sent as its stake, also where that is
    more than the stake required for its severity; the nullifier is not
    zero, the severity is 1, 2 or 3, the caller is below the cap on open
    reports and, for severity 3, has the reputation asked for; a
    severity-3 report flags the batch as high-risk. *)
Theorem accepted_report_is_recorded env v t n e rs sev s id s' l :
  run (reportSuspiciousBatch env v t n e rs sev) s = Ok (id, s', l) ->
  let p := reporterProfiles s @@ msg_sender env in
  id = _reportIdCounter s /\
  reports s' !! id
    = Some (FakeReport.mk id t (msg_sender env) n e rs sev v
              (to_uint64 (block_timestamp env)) 0 Pending 0) /\
  _ownerOf t s <> 0 /\ n <> 0 /\ 1 <= sev <= 3 /\ _requiredStake sev s <= v /\
  ReporterProfile.blocked p = false /\
  ReporterProfile.openReports p < maxOpenReportsPerReporter s /\
  (sev = 3 -> minReputationForSeverityThree s <= ReporterProfile.reputation p) /\
  (sev = 3 -> flagged s' t = true) /\
  ReporterProfile.lastReportAt (reporterProfiles s' @@ msg_sender env)
    = to_uint64 (block_timestamp env) /\
  reportCooldownSec s' = reportCooldownSec s.
Proof.
  intros Hrun. cbv zeta.
  wp_start Hrun (fun id s' (_ : list Effect) =>
    id = _reportIdCounter s /\
    reports s' !! id
      = Some (FakeReport.mk id t (msg_sender env) n e rs sev v
                (to_uint64 (block_timestamp env)) 0 Pending 0) /\
    _ownerOf t s <> 0 /\ n <> 0 /\ 1 <= sev <= 3 /\ _requiredStake sev s <= v /\
    ReporterProfile.blocked (reporterProfiles s @@ msg_sender env) = false /\
    ReporterProfile.openReports (reporterProfiles s @@ msg_sender env)
      < maxOpenReportsPerReporter s /\
    (sev = 3 -> minReputationForSeverityThree s
                <= ReporterProfile.reputation (reporterProfiles s @@ msg_sender env)) /\
    (sev = 3 -> flagged s' t = true) /\
    ReporterProfile.lastReportAt (reporterProfiles s' @@ msg_sender env)
      = to_uint64 (block_timestamp env) /\
    reportCooldownSec s' = reportCooldownSec s).
  unfold reportSuspiciousBatch, flagged. wp_run; checked_inv; norm_all; bool_hyps.
  all: rewrite ?lookup_insert_eq, ?sload_insert_eq; norm_rec.
  all: split_and!; try done; try lia.
Qed.

Lemma report_fails_in_cooldown env v t n e rs sev s :
  ReporterProfile.lastReportAt (reporterProfiles s @@ msg_sender env) <> 0 ->
  block_timestamp env
    < ReporterProfile.lastReportAt (reporterProfiles s @@ msg_sender env)
      + reportCooldownSec s ->
  fails (reportSuspiciousBatch env v t n e rs sev) s.
Proof.
  intros Hlast Hnow. apply wp_fails.
  unfold reportSuspiciousBatch.
  repeat (first [wp_hr | wp_step]; cbv zeta;
          try match goal with
              | H : (ReporterProfile.lastReportAt _ =? 0) = true |- _ =>
                  apply Z.eqb_eq in H; done
              | H : (_ + reportCooldownSec _ <=? block_timestamp _) = true |- _ =>
                  apply Z.leb_le in H; lia
              | H : checked_add 256 (ReporterProfile.lastReportAt _) _ = Ok _ |- _ =>
                  apply checked_add_Ok in H; destruct H as [-> ?]
              end).
Qed.

(** X26. The cooldown between two reports of one reporter. An accepted
    report records [uint64 (block.timestamp)] as the time of the last
    report of the caller. When that recorded time is not 0, every report
    of the same reporter on the storage the accepted report left, at a
    block time earlier than the recorded time plus [reportCooldownSec],
    fails, whatever batch, nullifier or stake it comes with; where the
    checks made before the cooldown pass and the end of the cooldown fits
    in 256 bits, it reverts with "Reporter cooldown active". *)
Theorem second_report_within_cooldown_fails
    env1 v1 t1 n1 e1 rs1 sev1 env2 v2 t2 n2 e2 rs2 sev2 s id s' l :
  run (reportSuspiciousBatch env1 v1 t1 n1 e1 rs1 sev1) s = Ok (id, s', l) ->
  msg_sender env2 = msg_sender env1 ->
  to_uint64 (block_timestamp env1) <> 0 ->
  block_timestamp env2 < to_uint64 (block_timestamp env1) + reportCooldownSec s ->
  fails (reportSuspiciousBatch env2 v2 t2 n2 e2 rs2 sev2) s' /\
  (_ownerOf t2 s' <> 0 -> n2 <> 0 -> identityNullifierUsed s' @@ n2 = false ->
   1 <= sev2 <= 3 ->
   hasOpenReportForBatch s' @@ (msg_sender env2, t2) = false ->
   ReporterProfile.openReports (reporterProfiles s' @@ msg_sender env2)
     < maxOpenReportsPerReporter s' ->
   to_uint64 (block_timestamp env1) + reportCooldownSec s <= MAX_UINT 256 ->
   run (reportSuspiciousBatch env2 v2 t2 n2 e2 rs2 sev2) s'
   = Err (Revert "Reporter cooldown active")).
Proof.
  intros Hrun Hsender Hnow1 Hnow2.
  assert (ReporterProfile.lastReportAt (reporterProfiles s' @@ msg_sender env1)
          = to_uint64 (block_timestamp env1) /\
          reportCooldownSec s' = reportCooldownSec s /\
          _paused s' = false /\ _entered s' = false /\
          ReporterProfile.blocked (reporterProfiles s' @@ msg_sender env1) = false)
    as (Hlast & Hcool & Hp & Hent & Hbl).
  { wp_start Hrun (fun (_ : Z) s' (_ : list Effect) =>
      ReporterProfile.lastReportAt (reporterProfiles s' @@ msg_sender env1)
      = to_uint64 (block_timestamp env1) /\
      reportCooldownSec s' = reportCooldownSec s /\
      _paused s' = false /\ _entered s' = false /\
      ReporterProfile.blocked (reporterProfiles s' @@ msg_sender env1) = false).
    unfold reportSuspiciousBatch. wp_run_storage; norm_all; bool_hyps.
    all: rewrite ?sload_insert_eq; norm_rec.
    all: split_and!; done. }
  split.
  { apply report_fails_in_cooldown; rewrite Hsender, Hlast, ?Hcool; [done | lia]. }
  intros Hown Hn Hused Hsev Hopen Hcap Hfit.
  rewrite Hsender in *.
  unfold _ownerOf in Hown.
  unfold run, reportSuspiciousBatch. wp_unfold_head.
  rewrite whenNotPaused_bind, Hp.
  unfold nonReentrant. wp_unfold_head.
  rewrite (bind_Ok _ _ _ _ s' s' []) by done. rewrite Hent.
  rewrite (bind_Ok _ _ _ _ tt (set_entered true s') []) by done.
  unfold bind at 1. unfold _requireBatchExists. wp_unfold_head.
  unfold bind, get, require, lift, checked_add, when, ret, revert. norm_all.
  rewrite (proj2 (Z.eqb_neq _ _) Hown), (proj2 (Z.eqb_neq _ _) Hn). cbn [negb].
  norm_state. rewrite ?Hsender.
  rewrite Hused. cbn [negb].
  rewrite (proj2 (Z.leb_le 1 sev2)), (proj2 (Z.leb_le sev2 3)) by lia. cbn [andb].
  rewrite Hbl, Hopen. cbn [negb].
  rewrite (proj2 (Z.ltb_lt _ _) Hcap).
  rewrite Hlast, (proj2 (Z.eqb_neq _ _) Hnow1), Hcool.
  rewrite (proj2 (Z.leb_le _ _) Hfit).
  rewrite (proj2 (Z.leb_gt _ _) Hnow2). done.
Qed.

(** ** Minting and custody *)

(** X27. What [mintBatch] has checked and recorded when it succeeds. The
    token gets the next id and goes to the recipient; the caller is an
    active manufacturer with a licence number, and the signature over the
    payload recovers to the caller. The expiry is recorded as
    [uint64 (expiryTimestamp)], and it is this truncated value that must
    lie after the block time; the manufacturing date is the block time,
    the product is "Unknown Product" and the packaging hash is the hash of
    the token URI. *)
Theorem mintBatch_records_batch env to bn mn expiry ah uri sig s id s' l :
  run (mintBatch env to bn mn expiry ah uri sig) s = Ok (id, s', l) ->
  let lic := ManufacturerProfile.licenseNo (manufacturers s @@ msg_sender env) in
  id = _tokenIdCounter s /\ to <> 0 /\ _ownerOf id s' = to /\
  _tokenURIs s' @@ id = uri /\
  batches s' @@ id
    = Batch.mk "Unknown Product" mn lic bn (to_uint64 (block_timestamp env))
        (to_uint64 expiry) ah (keccak256_string env uri) "Manufacturer" to
        (to_uint64 (block_timestamp env)) EmptyString 0 0 false false /\
  block_timestamp env < to_uint64 expiry /\
  hasRole MANUFACTURER_ROLE (msg_sender env) s = true /\
  ManufacturerProfile.active (manufacturers s @@ msg_sender env) = true /\
  lic <> EmptyString /\ sig <> [] /\
  ecdsa_recover env
    (mkMintPayload bn mn "Unknown Product" (to_uint64 (block_timestamp env))
       (to_uint64 expiry) ah (keccak256_string env uri) to (this_address env)
       (block_chainid env)) sig = Some (msg_sender env).
Proof.
  intros Hrun. cbv zeta.
  wp_start Hrun (fun id s' (_ : list Effect) =>
    id = _tokenIdCounter s /\ to <> 0 /\ _ownerOf id s' = to /\
    _tokenURIs s' @@ id = uri /\
    batches s' @@ id
      = Batch.mk "Unknown Product" mn
          (ManufacturerProfile.licenseNo (manufacturers s @@ msg_sender env)) bn
          (to_uint64 (block_timestamp env)) (to_uint64 expiry) ah
          (keccak256_string env uri) "Manufacturer" to
          (to_uint64 (block_timestamp env)) EmptyString 0 0 false false /\
    block_timestamp env < to_uint64 expiry /\
    hasRole MANUFACTURER_ROLE (msg_sender env) s = true /\
    ManufacturerProfile.active (manufacturers s @@ msg_sender env) = true /\
    ManufacturerProfile.licenseNo (manufacturers s @@ msg_sender env) <> EmptyString /\
    sig <> [] /\
    ecdsa_recover env
      (mkMintPayload bn mn "Unknown Product" (to_uint64 (block_timestamp env))
         (to_uint64 expiry) ah (keccak256_string env uri) to (this_address env)
         (block_chainid env)) sig = Some (msg_sender env)).
  unfold mintBatch. wp_run; checked_inv; norm_all; bool_hyps.
  all: rewrite ?sload_insert_eq.
  all: split_and!; try done; try lia.
  all: try (intros Hnil; rewrite Hnil in *; simpl in *; done).
  all: congruence.
Qed.

(** X28. [transferToNextOwner] succeeds only for the owner of the token
    and a recipient other than the zero address. It hands the token to
    the new owner and records the new owner as custodian, with the owner
    type given and the block time as the time of the last verification;
    it changes no other token and no other batch record. *)
Theorem transferToNextOwner_moves_custody env t newOwner ty s s' l :
  run (transferToNextOwner env t newOwner ty) s = Ok (tt, s', l) ->
  _ownerOf t s = msg_sender env /\ msg_sender env <> 0 /\ newOwner <> 0 /\
  _ownerOf t s' = newOwner /\
  batches s' @@ t
    = Batch.set_lastVerified (to_uint64 (block_timestamp env))
        (Batch.set_currentCustodian newOwner
           (Batch.set_currentOwnerType ty (batches s @@ t))) /\
  (forall t', t' <> t ->
     _ownerOf t' s' = _ownerOf t' s /\ batches s' @@ t' = batches s @@ t') /\
  events l = [Transfer (msg_sender env) newOwner t; BatchOwnershipMoved t newOwner ty].
Proof.
  intros Hrun.
  wp_start Hrun (fun (_ : unit) s' l =>
    _ownerOf t s = msg_sender env /\ msg_sender env <> 0 /\ newOwner <> 0 /\
    _ownerOf t s' = newOwner /\
    batches s' @@ t
      = Batch.set_lastVerified (to_uint64 (block_timestamp env))
          (Batch.set_currentCustodian newOwner
             (Batch.set_currentOwnerType ty (batches s @@ t))) /\
    (forall t', t' <> t ->
       _ownerOf t' s' = _ownerOf t' s /\ batches s' @@ t' = batches s @@ t') /\
    events l = [Transfer (msg_sender env) newOwner t; BatchOwnershipMoved t newOwner ty]).
  unfold transferToNextOwner. wp_run; norm_all; bool_hyps.
  all: rewrite ?sload_insert_eq.
  all: split_and!; try done; try lia; try congruence.
  all: try (intros t' Ht'; by rewrite !sload_insert_ne by done).
  all: norm_log; congruence.
Qed.

(** X29. A manufacturer that the regulator has registered as inactive
    cannot mint: right after [registerManufacturer] with [active = false]
    every [mintBatch] and [mintBatchWithCompliance] of that manufacturer
    reverts. *)
Theorem deregistered_manufacturer_cannot_mint
    env m lic name s s' l env2 to bn mn pn mfg expiry ah ph uri sig :
  run (registerManufacturer env m lic name false) s = Ok (tt, s', l) ->
  msg_sender env2 = m ->
  fails (mintBatch env2 to bn mn expiry ah uri sig) s' /\
  fails (mintBatchWithCompliance env2 to bn mn pn mfg expiry ah ph uri sig) s' /\
  hasRole MANUFACTURER_ROLE m s' = false /\
  ManufacturerProfile.active (manufacturers s' @@ m) = false.
Proof.
  intros Hrun Hsender.
  assert (hasRole MANUFACTURER_ROLE m s' = false /\
          ManufacturerProfile.active (manufacturers s' @@ m) = false) as [Hrole Hact].
  { wp_start Hrun (fun (_ : unit) s' (_ : list Effect) =>
      hasRole MANUFACTURER_ROLE m s' = false /\
      ManufacturerProfile.active (manufacturers s' @@ m) = false).
    unfold registerManufacturer. wp_run_storage; norm_all.
    all: by rewrite ?sload_insert_eq. }
  split_and!; try done.
  all: unfold fails, run, mintBatch, mintBatchWithCompliance; wp_unfold_head.
  all: rewrite whenNotPaused_bind; destruct (_paused s'); [by eexists|].
  all: rewrite onlyRole_bind, Hsender, Hrole; by eexists.
Qed.

(** ** Resolving an id that was never handed out *)

(** X30. [resolveReport] on an id that no report was filed under, that is
    an id outside [0, totalReportsFiled), reverts in every reachable
    state; for a regulator on a contract that is not paused the revert is
    "Unknown report". *)
Theorem resolve_unknown_report_reverts env id b s :
  reachable s -> ~ (0 <= id < totalReportsFiled s) ->
  fails (resolveReport env id b) s /\
  (_paused s = false -> hasRole REGULATOR_ROLE (msg_sender env) s = true ->
   run (resolveReport env id b) s = Err (Revert "Unknown report")).
Proof.
  intros Hs Hid.
  destruct (report_ids_inv_reachable s Hs) as (Hcnt & _ & Hdom & _).
  destruct (ledger_inv_reachable s Hs) as (Hent & _).
  assert (reports s !! id = None) as Hnone.
  { destruct (reports s !! id) eqn:Hr; [|done]. exfalso. apply Hid.
    rewrite <- Hcnt. apply Hdom. congruence. }
  assert (FakeReport.reporter (reports s @@ id) = 0) as Hzero
    by (by rewrite (sload_None _ _ Hnone)).
  split.
  - apply wp_fails. unfold resolveReport. wp_run_storage; norm_all; bool_hyps.
    all: congruence.
  - intros Hp Hr. unfold run, resolveReport. wp_unfold_head.
    rewrite whenNotPaused_bind, Hp, onlyRole_bind, Hr.
    unfold nonReentrant. wp_unfold_head.
    rewrite (bind_Ok _ _ _ _ s s []) by done. rewrite Hent.
    rewrite (bind_Ok _ _ _ _ tt (set_entered true s) []) by done.
    unfold bind at 1.
    rewrite (bind_Ok _ _ _ _ (set_entered true s) (set_entered true s) []) by done.
    norm_state. unfold bind at 1, require at 1. by rewrite Hzero.
Qed.

(** ** The further properties on the concrete deployment *)

Lemma getHighRiskBatchIds_returns_slice_witness :
  (0 <= 0 /\ 0 < 10 /\ 0 < Z.of_nat (length (_highRiskBatchIds sc_two_flagged)) /\
   0 + 10 <= MAX_UINT 256 /\
   exists ids,
     run (getHighRiskBatchIds 0 10) sc_two_flagged
     = Ok (ids, 0 + Z.of_nat (length ids), sc_two_flagged, []) /\
     ids = [0; 1]) /\
  (0 <= MAX_UINT 256 /\
   Z.of_nat (length (_highRiskBatchIds sc_two_flagged)) <= MAX_UINT 256 /\
   run (getHighRiskBatchIds (MAX_UINT 256) 10) sc_two_flagged
   = Ok ([], MAX_UINT 256, sc_two_flagged, [])).
Proof.
  assert (0 <= 0) as H0 by lia.
  assert (0 < 10) as H1 by lia.
  assert (0 < Z.of_nat (length (_highRiskBatchIds sc_two_flagged))) as H2
    by (vm_compute; reflexivity).
  assert (0 + 10 <= MAX_UINT 256) as H3 by (vm_compute; discriminate).
  assert (0 <= MAX_UINT 256) as H4 by (vm_compute; discriminate).
  assert (Z.of_nat (length (_highRiskBatchIds sc_two_flagged)) <= MAX_UINT 256) as H5
    by (vm_compute; discriminate).
  split.
  - split_and!; [exact H0 | exact H1 | exact H2 | exact H3 |].
    destruct (proj2 (getHighRiskBatchIds_returns_slice 0 10 sc_two_flagged H0) H1 H2 H3)
      as (ids & Hrun & Hids & _).
    exists ids. split; [exact Hrun|]. subst ids. vm_compute. reflexivity.
  - split_and!; [exact H4 | exact H5 |].
    exact (proj1 (getHighRiskBatchIds_returns_slice (MAX_UINT 256) 10 sc_two_flagged H4)
             (or_intror H5)).
Defined.

Lemma getHighRiskBatchIds_overflow_panics_witness :
  in_uint 256 1 /\ in_uint 256 (MAX_UINT 256) /\
  1 < Z.of_nat (length (_highRiskBatchIds sc_two_flagged)) /\
  MAX_UINT 256 < 1 + MAX_UINT 256 /\
  run (getHighRiskBatchIds 1 (MAX_UINT 256)) sc_two_flagged = Err (Panic PANIC_ARITH).
Proof.
  assert (in_uint 256 1) as H0 by (vm_compute; split; discriminate).
  assert (in_uint 256 (MAX_UINT 256)) as H1 by (vm_compute; split; discriminate).
  assert (1 < Z.of_nat (length (_highRiskBatchIds sc_two_flagged))) as H2
    by (vm_compute; reflexivity).
  assert (MAX_UINT 256 < 1 + MAX_UINT 256) as H3 by (vm_compute; reflexivity).
  split_and!; [exact H0 | exact H1 | exact H2 | exact H3 |].
  exact (getHighRiskBatchIds_overflow_panics 1 (MAX_UINT 256) sc_two_flagged H0 H1 H2 H3).
Defined.

Lemma read_pages_covers_index_witness :
  (0 < 1 /\
   Z.of_nat (length (_highRiskBatchIds sc_two_flagged)) <= Z.of_nat 2 * 1 /\
   1 <= MAX_UINT 256 /\
   Z.of_nat (length (_highRiskBatchIds sc_two_flagged)) <= 2 ^ 255 /\
   read_pages 2 0 1 sc_two_flagged = Ok [0; 1]) /\
  (0 < MAX_UINT 256 /\
   Z.of_nat (length (_highRiskBatchIds sc_two_flagged)) <= Z.of_nat 1 * MAX_UINT 256 /\
   MAX_UINT 256 <= MAX_UINT 256 /\
   read_pages 1 0 (MAX_UINT 256) sc_two_flagged = Ok [0; 1]).
Proof.
  assert (Z.of_nat (length (_highRiskBatchIds sc_two_flagged)) = 2) as Hlen
    by (vm_compute; reflexivity).
  assert (_highRiskBatchIds sc_two_flagged = [0; 1]) as Hids by (vm_compute; reflexivity).
  assert (0 < 1) as H0 by lia.
  assert (Z.of_nat (length (_highRiskBatchIds sc_two_flagged)) <= Z.of_nat 2 * 1) as H1
    by (vm_compute; discriminate).
  assert (1 <= MAX_UINT 256) as H2 by (vm_compute; discriminate).
  assert (Z.of_nat (length (_highRiskBatchIds sc_two_flagged)) <= 2 ^ 255) as H3
    by (vm_compute; discriminate).
  assert (0 < MAX_UINT 256) as H4 by (vm_compute; reflexivity).
  assert (Z.of_nat (length (_highRiskBatchIds sc_two_flagged))
          <= Z.of_nat 1 * MAX_UINT 256) as H5 by (vm_compute; discriminate).
  assert (MAX_UINT 256 <= MAX_UINT 256) as H6 by lia.
  split; split_and!; try assumption.
  - rewrite <- Hids.
    exact (proj2 (read_pages_covers_index 2 1 sc_two_flagged H0 H1) H2 H3).
  - rewrite <- Hids.
    exact (proj2 (read_pages_covers_index 1 (MAX_UINT 256) sc_two_flagged H4 H5) H6 H3).
Defined.

Lemma policy_parameters_stay_consistent_witness :
  reachable sc_reported /\ 1 <= 1 <= 3 /\
  0 < _requiredStake 1 sc_reported <= _requiredStake 3 sc_reported.
Proof.
  assert (1 <= 1 <= 3) as H1 by lia.
  split; [exact reachable_sc_reported|]. split; [exact H1|].
  destruct (policy_parameters_stay_consistent sc_reported 1 3 reachable_sc_reported H1)
    as (_ & _ & _ & _ & Hstake). exact Hstake.
Defined.

Lemma minted_batches_are_consecutive_witness :
  reachable sc_reported /\
  (_ownerOf 0 sc_reported <> 0 <-> 0 <= 0 < totalBatchesMinted sc_reported).
Proof.
  split; [exact reachable_sc_reported|].
  exact (proj1 (minted_batches_are_consecutive sc_reported 0 reachable_sc_reported)).
Defined.

Lemma later_sc_minted_reported : later sc_minted sc_reported.
Proof.
  eapply later_trans; [|unfold sc_reported; apply later_transact; solve_range].
  unfold sc_funded; apply later_transact; solve_range.
Qed.

Lemma batch_identity_is_permanent_witness :
  reachable sc_minted /\ later sc_minted sc_reported /\ _ownerOf 0 sc_minted <> 0 /\
  batch_identity (batches sc_reported @@ 0) = batch_identity (batches sc_minted @@ 0).
Proof.
  assert (_ownerOf 0 sc_minted <> 0) as H0 by (vm_compute; discriminate).
  split_and!; [exact reachable_sc_minted | exact later_sc_minted_reported | exact H0 |].
  exact (proj2 (batch_identity_is_permanent sc_minted sc_reported 0 reachable_sc_minted
                  later_sc_minted_reported H0)).
Defined.

Lemma later_sc_reported_rejected : later sc_reported sc_rejected.
Proof. unfold sc_rejected. apply later_transact; solve_range. Qed.

Lemma report_identity_is_permanent_witness :
  reachable sc_reported /\ later sc_reported sc_rejected /\
  reports sc_reported !! 0 = Some (reports sc_reported @@ 0) /\
  exists r', reports sc_rejected !! 0 = Some r' /\
             report_identity r' = report_identity (reports sc_reported @@ 0).
Proof.
  assert (reports sc_reported !! 0 = Some (reports sc_reported @@ 0)) as H0
    by (vm_compute; reflexivity).
  split_and!; [exact reachable_sc_reported | exact later_sc_reported_rejected | exact H0 |].
  exact (proj2 (proj2 (report_identity_is_permanent sc_reported sc_rejected 0 _
                         reachable_sc_reported later_sc_reported_rejected H0))).
Defined.

Lemma ledger_totals_are_exact_witness :
  reachable sc_reported /\
  totalOpenReports sc_reported
  = Z.of_nat (count_reports (fun r => FakeReport.status r = Pending) (reports sc_reported)).
Proof.
  split; [exact reachable_sc_reported|].
  exact (proj1 (proj2 (ledger_totals_are_exact sc_reported reachable_sc_reported))).
Defined.

Lemma reachable_sc_rejected : reachable sc_rejected.
Proof. unfold sc_rejected. reach_step. apply reachable_sc_reported. Qed.

Lemma profile_counters_are_exact_witness :
  reachable sc_rejected /\
  ReporterProfile.reportsRejected (reporterProfiles sc_rejected @@ alice)
  = Z.of_nat (count_reports (fun r => FakeReport.reporter r = alice /\
                                      FakeReport.status r = RejectedFalse)
                (reports sc_rejected)).
Proof.
  split; [exact reachable_sc_rejected|].
  destruct (profile_counters_are_exact sc_rejected alice reachable_sc_rejected)
    as (_ & _ & _ & Hrej & _). exact Hrej.
Defined.

Lemma batch_open_counter_is_exact_witness :
  reachable sc_reported /\
  Batch.openReports (batches sc_reported @@ 0)
  = Z.of_nat (count_reports (fun r => FakeReport.tokenId r = 0 /\
                                      FakeReport.status r = Pending) (reports sc_reported)).
Proof.
  split; [exact reachable_sc_reported|].
  exact (batch_open_counter_is_exact sc_reported 0 reachable_sc_reported).
Defined.

Lemma one_pending_report_per_reporter_and_batch_witness :
  reachable sc_reported /\
  reports sc_reported !! 0 = Some (reports sc_reported @@ 0) /\
  FakeReport.status (reports sc_reported @@ 0) = Pending /\
  hasOpenReportForBatch sc_reported @@ (alice, 0) = true.
Proof.
  assert (reports sc_reported !! 0 = Some (reports sc_reported @@ 0)) as H0
    by (vm_compute; reflexivity).
  assert (FakeReport.status (reports sc_reported @@ 0) = Pending) as H1
    by (vm_compute; reflexivity).
  split_and!; [exact reachable_sc_reported | exact H0 | exact H1 |].
  exact (proj2 (one_pending_report_per_reporter_and_batch sc_reported 0 0 _ _
                  reachable_sc_reported H0 H0 H1 H1 eq_refl eq_refl)).
Defined.

Lemma pending_report_blocks_duplicate_witness :
  reachable sc_reported /\
  reports sc_reported !! 0 = Some (reports sc_reported @@ 0) /\
  FakeReport.status (reports sc_reported @@ 0) = Pending /\
  msg_sender (env_at alice 90000) = FakeReport.reporter (reports sc_reported @@ 0) /\
  fails (reportSuspiciousBatch (env_at alice 90000) (10 * ether_milli)
           (FakeReport.tokenId (reports sc_reported @@ 0)) 99 "ipfs://more" "again" 1)
    sc_reported.
Proof.
  assert (reports sc_reported !! 0 = Some (reports sc_reported @@ 0)) as H0
    by (vm_compute; reflexivity).
  assert (FakeReport.status (reports sc_reported @@ 0) = Pending) as H1
    by (vm_compute; reflexivity).
  assert (msg_sender (env_at alice 90000) = FakeReport.reporter (reports sc_reported @@ 0))
    as H2 by (vm_compute; reflexivity).
  split_and!; [exact reachable_sc_reported | exact H0 | exact H1 | exact H2 |].
  exact (pending_report_blocks_duplicate (env_at alice 90000) (10 * ether_milli) 99
           "ipfs://more" "again" 1 sc_reported 0 _ reachable_sc_reported H0 H1 H2).
Defined.

Lemma missing_role_rejects_call_witness :
  required_role (call_withdrawBountyPool 1 alice) = Some DEFAULT_ADMIN_ROLE /\
  hasRole DEFAULT_ADMIN_ROLE (msg_sender (env_at alice 5000)) sc_funded = false /\
  run (execute (env_at alice 5000) (call_withdrawBountyPool 1 alice)) sc_funded
  = Err (AccessControlUnauthorizedAccount alice DEFAULT_ADMIN_ROLE).
Proof.
  assert (hasRole DEFAULT_ADMIN_ROLE (msg_sender (env_at alice 5000)) sc_funded = false)
    as H0 by (vm_compute; reflexivity).
  split_and!; [reflexivity | exact H0 |].
  exact (missing_role_rejects_call (env_at alice 5000) (call_withdrawBountyPool 1 alice)
           sc_funded DEFAULT_ADMIN_ROLE eq_refl H0).
Defined.

Lemma paused_contract_rejects_operational_calls_witness :
  _paused sc_paused = true /\
  pausable (call_setBatchQuarantine 0 true "RECALL") = true /\
  run (execute (env_at regulator 3500) (call_setBatchQuarantine 0 true "RECALL")) sc_paused
  = Err EnforcedPause.
Proof.
  assert (_paused sc_paused = true) as H0 by (vm_compute; reflexivity).
  split_and!; [exact H0 | reflexivity |].
  exact (proj1 (paused_contract_rejects_operational_calls (env_at regulator 3500)
                  (call_setBatchQuarantine 0 true "RECALL") sc_paused H0 eq_refl)).
Defined.

Lemma funds_are_accounted_witness :
  reachable sc_reported /\
  run (execute (env_at regulator 2000) (call_resolveReport 0 false)) sc_reported
  = Ok (tt, sc_rejected,
        log_of (execute (env_at regulator 2000) (call_resolveReport 0 false)) sc_reported) /\
  bountyPoolWei sc_rejected + escrowed (reports sc_rejected)
  = bountyPoolWei sc_reported + escrowed (reports sc_reported) + 0
    - paid_out (log_of (execute (env_at regulator 2000) (call_resolveReport 0 false))
                  sc_reported).
Proof.
  assert (run (execute (env_at regulator 2000) (call_resolveReport 0 false)) sc_reported
    = Ok (tt, sc_rejected,
          log_of (execute (env_at regulator 2000) (call_resolveReport 0 false)) sc_reported))
    as Hrun by (vm_compute; reflexivity).
  split_and!; [exact reachable_sc_reported | exact Hrun |].
  exact (funds_are_accounted _ _ _ _ _ reachable_sc_reported Hrun).
Defined.

Lemma reputation_is_sum_of_verdicts_witness :
  reachable sc_rejected /\
  ReporterProfile.reputation (reporterProfiles sc_rejected @@ alice)
  = sum_reports (verdict_score alice) (reports sc_rejected).
Proof.
  split; [exact reachable_sc_rejected|].
  exact (reputation_is_sum_of_verdicts sc_rejected alice reachable_sc_rejected).
Defined.

Lemma getReportsForBatch_lists_filed_reports_witness :
  reachable sc_reported /\ _ownerOf 0 sc_reported <> 0 /\
  exists ids, run (getReportsForBatch 0) sc_reported = Ok (ids, sc_reported, []) /\
              NoDup ids.
Proof.
  assert (_ownerOf 0 sc_reported <> 0) as H0 by (vm_compute; discriminate).
  split_and!; [exact reachable_sc_reported | exact H0 |].
  destruct (proj2 (getReportsForBatch_lists_filed_reports 0 sc_reported
                     reachable_sc_reported) H0) as (ids & Hrun & Hnd & _).
  exists ids. split; [exact Hrun | exact Hnd].
Defined.

Lemma later_sc_reported_lab_failed : later sc_reported sc_lab_failed.
Proof. unfold sc_lab_failed. apply later_transact; solve_range. Qed.

Lemma lab_attestations_are_append_only_witness :
  reachable sc_reported /\ later sc_reported sc_lab_failed /\
  _labAttestationsByBatch sc_reported @@ 0
    `prefix_of` _labAttestationsByBatch sc_lab_failed @@ 0.
Proof.
  split_and!; [exact reachable_sc_reported | exact later_sc_reported_lab_failed |].
  exact (proj1 (lab_attestations_are_append_only sc_reported sc_lab_failed 0
                  reachable_sc_reported later_sc_reported_lab_failed)).
Defined.

Lemma unprivileged_caller_gains_no_role_witness :
  run (execute (env_at alice 5000) (call_renounceRole LAB_ROLE alice)) sc_reported
  = Ok (tt, sc_reported, []) /\
  hasRole REGULATOR_ROLE (msg_sender (env_at alice 5000)) sc_reported = false /\
  hasRole DEFAULT_ADMIN_ROLE (msg_sender (env_at alice 5000)) sc_reported = false /\
  (hasRole LAB_ROLE regulator sc_reported = true ->
   hasRole LAB_ROLE regulator sc_reported = true).
Proof.
  assert (run (execute (env_at alice 5000) (call_renounceRole LAB_ROLE alice)) sc_reported
          = Ok (tt, sc_reported, [])) as Hrun by (vm_compute; reflexivity).
  assert (hasRole REGULATOR_ROLE (msg_sender (env_at alice 5000)) sc_reported = false)
    as H0 by (vm_compute; reflexivity).
  assert (hasRole DEFAULT_ADMIN_ROLE (msg_sender (env_at alice 5000)) sc_reported = false)
    as H1 by (vm_compute; reflexivity).
  split_and!; [exact Hrun | exact H0 | exact H1 |].
  exact (unprivileged_caller_gains_no_role _ _ _ _ _ LAB_ROLE regulator Hrun H0 H1).
Defined.

Lemma withdrawBountyPool_outcomes_witness :
  hasRole DEFAULT_ADMIN_ROLE (msg_sender (env_at regulator 5000)) sc_funded = true /\
  _entered sc_funded = false /\ alice <> 0 /\
  run (withdrawBountyPool (env_at regulator 5000) (3 * ether_milli) alice) sc_funded
  = Ok (tt, set_bountyPoolWei (997 * ether_milli) sc_funded,
        [SendValue alice (3 * ether_milli)]).
Proof.
  assert (hasRole DEFAULT_ADMIN_ROLE (msg_sender (env_at regulator 5000)) sc_funded = true)
    as H0 by (vm_compute; reflexivity).
  assert (_entered sc_funded = false) as H1 by (vm_compute; reflexivity).
  assert (alice <> 0) as H2 by discriminate.
  split_and!; [exact H0 | exact H1 | exact H2 |].
  rewrite (withdrawBountyPool_outcomes (env_at regulator 5000) (3 * ether_milli) alice
             sc_funded H0 H1 H2).
  vm_compute. reflexivity.
Defined.

Lemma verifyBatch_rejects_risky_batches_witness :
  reachable sc_confirmed /\ _ownerOf 0 sc_confirmed <> 0 /\
  Batch.quarantined (batches sc_confirmed @@ 0) = true /\
  exists risk, run (verifyBatch (env_at bob 5000) 0) sc_confirmed
               = Ok ((false, risk), sc_confirmed, []).
Proof.
  assert (_ownerOf 0 sc_confirmed <> 0) as H0 by (vm_compute; discriminate).
  assert (Batch.quarantined (batches sc_confirmed @@ 0) = true) as H1
    by (vm_compute; reflexivity).
  split_and!; [exact reachable_sc_confirmed | exact H0 | exact H1 |].
  destruct (verifyBatch_rejects_risky_batches (env_at bob 5000) 0 sc_confirmed
              reachable_sc_confirmed H0 (or_introl H1)) as (risk & Hrun & _).
  exists risk. exact Hrun.
Defined.

Lemma verifyBatch_verdict_reflects_reports_witness :
  reachable sc_reported /\
  run (verifyBatch (env_at bob 5000) 0) sc_reported
  = Ok ((true, "Under investigation"%string), sc_reported, []) /\
  exists id r, reports sc_reported !! id = Some r /\ FakeReport.tokenId r = 0 /\
               FakeReport.status r = Pending.
Proof.
  assert (run (verifyBatch (env_at bob 5000) 0) sc_reported
          = Ok ((true, "Under investigation"%string), sc_reported, [])) as Hrun
    by (vm_compute; reflexivity).
  split_and!; [exact reachable_sc_reported | exact Hrun |].
  destruct (verifyBatch_verdict_reflects_reports _ _ _ _ _ _ _ reachable_sc_reported Hrun)
    as (_ & _ & _ & _ & Hinv & _).
  exact (Hinv eq_refl).
Defined.

Lemma dashboard_summary_is_exact_witness :
  reachable sc_reported /\
  exists d, run getDashboardSummary sc_reported = Ok (d, sc_reported, []) /\
            ds_openReports d
            = Z.of_nat (count_reports (fun r => FakeReport.status r = Pending)
                          (reports sc_reported)).
Proof.
  split; [exact reachable_sc_reported|].
  destruct (dashboard_summary_is_exact sc_reported reachable_sc_reported)
    as (d & Hrun & _ & _ & Hopen & _).
  exists d. split; [exact Hrun | exact Hopen].
Defined.

Lemma accepted_report_is_recorded_witness :
  run (reportSuspiciousBatch (env_at alice 1000) (5 * ether_milli) 0 77
         "ipfs://ev" "odd print" 2) sc_funded
  = Ok (0, sc_reported,
        log_of (reportSuspiciousBatch (env_at alice 1000) (5 * ether_milli) 0 77
                  "ipfs://ev" "odd print" 2) sc_funded) /\
  reports sc_reported !! 0
  = Some (FakeReport.mk 0 0 alice 77 "ipfs://ev" "odd print" 2 (5 * ether_milli)
            (to_uint64 1000) 0 Pending 0).
Proof.
  assert (run (reportSuspiciousBatch (env_at alice 1000) (5 * ether_milli) 0 77
                 "ipfs://ev" "odd print" 2) sc_funded
          = Ok (0, sc_reported,
                log_of (reportSuspiciousBatch (env_at alice 1000) (5 * ether_milli) 0 77
                          "ipfs://ev" "odd print" 2) sc_funded))
    as Hrun by (vm_compute; reflexivity).
  split; [exact Hrun|].
  destruct (accepted_report_is_recorded _ _ _ _ _ _ _ _ _ _ _ Hrun) as (_ & Hrec & _).
  exact Hrec.
Defined.

Lemma second_report_within_cooldown_fails_witness :
  run (reportSuspiciousBatch (env_at alice 1000) (5 * ether_milli) 0 77
         "ipfs://ev" "odd print" 2) sc_two_items
  = Ok (0, sc_first_report,
        log_of (reportSuspiciousBatch (env_at alice 1000) (5 * ether_milli) 0 77
                  "ipfs://ev" "odd print" 2) sc_two_items) /\
  msg_sender (env_at alice 20000) = msg_sender (env_at alice 1000) /\
  to_uint64 (block_timestamp (env_at alice 1000)) <> 0 /\
  block_timestamp (env_at alice 20000)
    < to_uint64 (block_timestamp (env_at alice 1000)) + reportCooldownSec sc_two_items /\
  run (reportSuspiciousBatch (env_at alice 20000) (2 * ether_milli) 1 78
         "ipfs://ev2" "torn seal" 1) sc_first_report
  = Err (Revert "Reporter cooldown active").
Proof.
  assert (run (reportSuspiciousBatch (env_at alice 1000) (5 * ether_milli) 0 77
                 "ipfs://ev" "odd print" 2) sc_two_items
          = Ok (0, sc_first_report,
                log_of (reportSuspiciousBatch (env_at alice 1000) (5 * ether_milli) 0 77
                          "ipfs://ev" "odd print" 2) sc_two_items))
    as Hrun by (vm_compute; reflexivity).
  assert (to_uint64 (block_timestamp (env_at alice 1000)) <> 0) as H1
    by (vm_compute; discriminate).
  assert (block_timestamp (env_at alice 20000)
          < to_uint64 (block_timestamp (env_at alice 1000))
            + reportCooldownSec sc_two_items) as H2
    by (vm_compute; reflexivity).
  split_and!; [exact Hrun | reflexivity | exact H1 | exact H2 |].
  apply (proj2 (second_report_within_cooldown_fails _ _ _ _ _ _ _ (env_at alice 20000)
                  (2 * ether_milli) 1 78 "ipfs://ev2" "torn seal" 1 _ _ _ _
                  Hrun eq_refl H1 H2)).
  - vm_compute. discriminate.
  - discriminate.
  - vm_compute. reflexivity.
  - lia.
  - vm_compute. reflexivity.
  - vm_compute. reflexivity.
  - vm_compute. discriminate.
Defined.

Lemma mintBatch_records_batch_witness :
  run (mintBatch (env_at regulator 100) regulator "PG-2026-001" "Maker" 100000000 "api"
         "ipfs://b0" [Byte.x01]) sc_deployed
  = Ok (0, sc_minted,
        log_of (mintBatch (env_at regulator 100) regulator "PG-2026-001" "Maker" 100000000
                  "api" "ipfs://b0" [Byte.x01]) sc_deployed) /\
  _ownerOf 0 sc_minted = regulator /\
  Batch.expiryTimestamp (batches sc_minted @@ 0) = to_uint64 100000000.
Proof.
  assert (run (mintBatch (env_at regulator 100) regulator "PG-2026-001" "Maker" 100000000
                 "api" "ipfs://b0" [Byte.x01]) sc_deployed
          = Ok (0, sc_minted,
                log_of (mintBatch (env_at regulator 100) regulator "PG-2026-001" "Maker"
                          100000000 "api" "ipfs://b0" [Byte.x01]) sc_deployed))
    as Hrun by (vm_compute; reflexivity).
  split; [exact Hrun|].
  destruct (mintBatch_records_batch _ _ _ _ _ _ _ _ _ _ _ _ Hrun)
    as (_ & _ & Hown & _ & Hbatch & _).
  split; [exact Hown|]. rewrite Hbatch. reflexivity.
Defined.

Lemma transferToNextOwner_moves_custody_witness :
  run (transferToNextOwner (env_at regulator 300) 0 bob "Distributor") sc_minted
  = Ok (tt, sc_handed_over,
        log_of (transferToNextOwner (env_at regulator 300) 0 bob "Distributor") sc_minted) /\
  _ownerOf 0 sc_handed_over = bob.
Proof.
  assert (run (transferToNextOwner (env_at regulator 300) 0 bob "Distributor") sc_minted
          = Ok (tt, sc_handed_over,
                log_of (transferToNextOwner (env_at regulator 300) 0 bob "Distributor")
                  sc_minted))
    as Hrun by (vm_compute; reflexivity).
  split; [exact Hrun|].
  destruct (transferToNextOwner_moves_custody _ _ _ _ _ _ _ Hrun) as (_ & _ & _ & Hown & _).
  exact Hown.
Defined.

Lemma deregistered_manufacturer_cannot_mint_witness :
  run (registerManufacturer (env_at regulator 300) regulator "LIC-001" "Maker" false)
    sc_minted
  = Ok (tt, sc_deregistered,
        log_of (registerManufacturer (env_at regulator 300) regulator "LIC-001" "Maker" false)
          sc_minted) /\
  msg_sender (env_at regulator 400) = regulator /\
  fails (mintBatch (env_at regulator 400) regulator "PG-2026-009" "Maker" 100000000 "api"
           "ipfs://b9" [Byte.x01]) sc_deregistered.
Proof.
  assert (run (registerManufacturer (env_at regulator 300) regulator "LIC-001" "Maker" false)
            sc_minted
          = Ok (tt, sc_deregistered,
                log_of (registerManufacturer (env_at regulator 300) regulator "LIC-001"
                          "Maker" false) sc_minted))
    as Hrun by (vm_compute; reflexivity).
  split_and!; [exact Hrun | reflexivity |].
  exact (proj1 (deregistered_manufacturer_cannot_mint _ _ _ _ _ _ _ (env_at regulator 400)
                  regulator "PG-2026-009" "Maker" "Unknown Product" 0 100000000 "api" 0
                  "ipfs://b9" [Byte.x01] Hrun eq_refl)).
Defined.

Lemma resolve_unknown_report_reverts_witness :
  reachable sc_reported /\ ~ (0 <= 5 < totalReportsFiled sc_reported) /\
  run (resolveReport (env_at regulator 2000) 5 true) sc_reported
  = Err (Revert "Unknown report").
Proof.
  assert (~ (0 <= 5 < totalReportsFiled sc_reported)) as H0
    by (vm_compute; intros [_ H]; discriminate).
  split_and!; [exact reachable_sc_reported | exact H0 |].
  apply (proj2 (resolve_unknown_report_reverts (env_at regulator 2000) 5 true sc_reported
                  reachable_sc_reported H0)); vm_compute; reflexivity.
Defined.

Lemma setPolicyParameters_accepts_exactly_valid_witness :
  (exists s' l,
     run (setPolicyParameters (env_at regulator 23000) (2 * ether_milli) (5 * ether_milli)
            (10 * ether_milli) (2 * ether_milli) 7000 21600 1 5) sc_reported2
     = Ok (tt, s', l)) /\
  ~ (exists s' l,
       run (setPolicyParameters (env_at regulator 23000) (2 * ether_milli) (5 * ether_milli)
              (10 * ether_milli) (2 * ether_milli) 7000 21600 0 5) sc_reported2
       = Ok (tt, s', l)) /\
  sc_cap_lowered
  = set_minReputationForSeverityThree 5
      (set_maxOpenReportsPerReporter 1
         (set_reportCooldownSec 21600
            (set_falseReportSlashBps 7000
               (set_baseRewardWei (2 * ether_milli)
                  (set_highStakeWei (10 * ether_milli)
                     (set_mediumStakeWei (5 * ether_milli)
                        (set_minStakeWei (2 * ether_milli) sc_reported2))))))).
Proof.
  assert (run (setPolicyParameters (env_at regulator 23000) (2 * ether_milli)
                 (5 * ether_milli) (10 * ether_milli) (2 * ether_milli) 7000 21600 1 5)
              sc_reported2
          = Ok (tt, sc_cap_lowered, [])) as Hrun by (vm_compute; reflexivity).
  split_and!.
  - apply (proj1 (setPolicyParameters_accepts_exactly_valid (env_at regulator 23000)
                    (2 * ether_milli) (5 * ether_milli) (10 * ether_milli) (2 * ether_milli)
                    7000 21600 1 5 sc_reported2)).
    vm_compute. repeat split; discriminate.
  - intros Hok.
    apply (proj1 (setPolicyParameters_accepts_exactly_valid (env_at regulator 23000)
                    (2 * ether_milli) (5 * ether_milli) (10 * ether_milli) (2 * ether_milli)
                    7000 21600 0 5 sc_reported2)) in Hok.
    destruct Hok as (_ & _ & _ & _ & _ & Hcap). lia.
  - exact (proj1 (proj2 (proj2 (setPolicyParameters_accepts_exactly_valid
             (env_at regulator 23000) (2 * ether_milli) (5 * ether_milli)
             (10 * ether_milli) (2 * ether_milli) 7000 21600 1 5 sc_reported2)
             sc_cap_lowered [] Hrun))).
Defined.
